(** * blackmamba/script/analyze.py: linter reports as editor annotations

    A shallow embedding of the analyzer script.  The script runs pep8 and
    pyflakes (or flake8), turns their reports into annotation records, groups
    the records per source line and hands one annotation per line to the
    editor.

    Modelling conventions.
    - A Python [str] is a [string]; a character is an 8-bit code point, so
      the development covers Latin-1 text.  In that range the regex class
      [\d] is exactly '0'..'9', and [str.splitlines] breaks on the code
      points 10, 11, 12, 13, 28, 29, 30 and 133 (and on CR LF as one break).
    - A Python [int] is a [Z]; the conversion [int] of a string refuses
      more than 4300 digits, as CPython does by default since 3.11.
    - A call that can raise returns a [result]; code that talks to the editor,
      to the file system or to a linter threads a [state]: its [trace] holds
      the calls to the editor, to the linters and to the log in program
      order, its [output_file] the report file of flake8.
    - The linters and the editor are not part of the script: their answers
      are fields of a [Host] record. *)

From Stdlib Require Import List String Ascii ZArith Bool Arith Lia.
From Stdlib Require QArith.
From Stdlib Require Import Permutation Sorted.
Import ListNotations.

Local Open Scope string_scope.
Local Open Scope list_scope.

(** ** Data model *)

(** [class _Source(Enum)] *)
Module _Source.
Inductive t : Type := pep8 | pyflakes | flake8.

Definition value (s : t) : string :=
  match s with
  | pep8 => "PEP8"
  | pyflakes => "pyflakes"
  | flake8 => "flake8"
  end.

(** [a is b] on enum members *)
Definition is_ (a b : t) : bool :=
  match a, b with
  | pep8, pep8 | pyflakes, pyflakes | flake8, flake8 => true
  | _, _ => false
  end.
End _Source.

(** Modelled from the spec: [blackmamba.ide.annotation.Style] is imported by
    the script but declared elsewhere; the spec gives a record a severity
    that is warning or error, the two members the script names. *)
Module Style.
Inductive t : Type := warning | error.

Definition is_ (a b : t) : bool :=
  match a, b with
  | warning, warning | error, error => true
  | _, _ => false
  end.
End Style.

(** [class _AnalyzerAnnotation(Annotation)]: the base class keeps [line],
    [text] and [style]; the subclass adds [source]. *)
Record _AnalyzerAnnotation : Type := mkAnnotation {
  line : Z;
  text : string;
  source : _Source.t;
  style : Style.t
}.

(** [_AnalyzerAnnotation.__lt__] *)
Definition __lt__ (self other : _AnalyzerAnnotation) : bool :=
  if _Source.is_ (source self) _Source.pep8
     && _Source.is_ (source other) _Source.pyflakes then true
  else if _Source.is_ (source self) _Source.flake8
          && negb (_Source.is_ (source other) _Source.flake8) then true
  else if Style.is_ (style self) Style.warning
          && Style.is_ (style other) Style.error then true
  else false.

(** ** Exceptions *)

(** A raised exception: whether it is an instance of [Exception] (what
    [except Exception] catches) and its [str()]. *)
Record exn : Type := mkExn {
  exn_is_Exception : bool;
  exn_str : string
}.

Inductive result (A : Type) : Type :=
| Ok (a : A)
| Raise (e : exn).
Arguments Ok {A} a.
Arguments Raise {A} e.

(** The exceptions of the calls the script makes carry the head of
    CPython's message; what CPython adds to it (the type of the argument,
    the file name, the count of digits) is left out. *)
Definition ValueError (msg : string) : exn := mkExn true msg.
Definition TypeError (msg : string) : exn := mkExn true msg.
Definition IndexError (msg : string) : exn := mkExn true msg.
Definition FileNotFoundError (msg : string) : exn := mkExn true msg.

(** ** Strings *)

Definition LF : ascii := "010"%char.
Definition CR : ascii := "013"%char.

(** [s[:n]] *)
Fixpoint slice_to (n : nat) (s : string) : string :=
  match n, s with
  | O, _ => ""
  | S _, EmptyString => ""
  | S n', String c s' => String c (slice_to n' s')
  end.

(** [s[n:]] *)
Fixpoint slice_from (n : nat) (s : string) : string :=
  match n, s with
  | O, _ => s
  | S _, EmptyString => ""
  | S n', String _ s' => slice_from n' s'
  end.

(** [line.startswith(path)] *)
Definition startswith (line path : string) : bool := String.prefix path line.

(** [s.endswith(suffix)] *)
Definition endswith (s suffix : string) : bool :=
  (String.length suffix <=? String.length s)%nat
  && String.eqb (slice_from (String.length s - String.length suffix) s) suffix.

(** [sep.join(l)] *)
Definition join (sep : string) (l : list string) : string := String.concat sep l.

(** The line boundaries of [str.splitlines] among 8-bit code points. *)
Definition is_linebreak (c : ascii) : bool :=
  match nat_of_ascii c with
  | 10 | 11 | 12 | 13 | 28 | 29 | 30 | 133 => true
  | _ => false
  end.

(** [str.splitlines(keepends)]: [cur] is the line read so far.  A break ends
    the current line, CR LF counts as one break, and what follows the last
    break is a line only when it is not empty. *)
Fixpoint splitlines_from (keepends : bool) (cur s : string) : list string :=
  match s with
  | EmptyString => match cur with EmptyString => [] | _ => [cur] end
  | String c s' =>
      if Ascii.eqb c CR then
        match s' with
        | String c' s'' =>
            if Ascii.eqb c' LF then
              (if keepends then (cur ++ String c (String c' ""))%string else cur)
                :: splitlines_from keepends "" s''
            else
              (if keepends then (cur ++ String c "")%string else cur)
                :: splitlines_from keepends "" s'
        | EmptyString =>
            (if keepends then (cur ++ String c "")%string else cur)
              :: splitlines_from keepends "" s'
        end
      else if is_linebreak c then
        (if keepends then (cur ++ String c "")%string else cur)
          :: splitlines_from keepends "" s'
      else splitlines_from keepends (cur ++ String c "")%string s'
  end.

Definition splitlines (keepends : bool) (s : string) : list string :=
  splitlines_from keepends "" s.

(** ** Regular expressions

    The two patterns of the script are sequences of anchors, literal
    characters and capturing groups of one repeated character class.
    [match_atoms] is a backtracking matcher for such sequences: a group is
    greedy, it first takes the longest run of its class and gives characters
    back one at a time; the match must reach the end of the subject, as
    [Pattern.fullmatch] requires. *)

Inductive atom : Type :=
| Bol                                        (* ^ *)
| Eol                                        (* $ *)
| Lit (c : ascii)                            (* a literal character *)
| Group (cls : ascii -> bool) (lo : nat).    (* (cls{lo,}) *)

(** [\d] *)
Definition is_digit (c : ascii) : bool :=
  ((48 <=? nat_of_ascii c) && (nat_of_ascii c <=? 57))%nat.

(** [.] without DOTALL *)
Definition is_dot (c : ascii) : bool := negb (Ascii.eqb c LF).

(** Length of the longest prefix of [s] inside the class. *)
Fixpoint run_length (cls : ascii -> bool) (s : string) : nat :=
  match s with
  | String c s' => if cls c then S (run_length cls s') else O
  | EmptyString => O
  end.

(** The first of [k n], [k (n-1)], ..., [k 0] that succeeds. *)
Fixpoint first_success {A : Type} (k : nat -> option A) (n : nat) : option A :=
  match k n with
  | Some r => Some r
  | None => match n with O => None | S n' => first_success k n' end
  end.

Fixpoint match_atoms (atoms : list atom) (pos : nat) (s : string)
  : option (list string) :=
  match atoms with
  | [] => match s with EmptyString => Some [] | String _ _ => None end
  | a :: rest =>
      match a with
      | Bol => if (pos =? 0)%nat then match_atoms rest pos s else None
      | Eol =>
          if String.eqb s "" || String.eqb s (String LF "")
          then match_atoms rest pos s else None
      | Lit c =>
          match s with
          | String c' s' =>
              if Ascii.eqb c c' then match_atoms rest (S pos) s' else None
          | EmptyString => None
          end
      | Group cls lo =>
          first_success
            (fun n =>
               if (lo <=? n)%nat then
                 match match_atoms rest (pos + n) (slice_from n s) with
                 | Some groups => Some (slice_to n s :: groups)
                 | None => None
                 end
               else None)
            (run_length cls s)
      end
  end.

(** A match object: the captured groups, group 1 first. *)
Definition match_object : Type := list string.

(** [pattern.fullmatch(s)] *)
Definition fullmatch (pattern : list atom) (s : string) : option match_object :=
  match_atoms pattern 0 s.

(** [match.group(i)], [i >= 1] *)
Definition group (m : match_object) (i : nat) : string := nth (i - 1) m "".

(** [match.lastindex]: every group of the two patterns takes part in a
    match, so the last matched group is the last group. *)
Definition lastindex (m : match_object) : nat := List.length m.

(** [_LINE_COL_MESSAGE_REGEX]: line, column and message, each a capturing
    group: digits, a colon, digits, a colon and a blank, then the rest of
    the line (any characters but LF, possibly none), between ^ and $. *)
Definition _LINE_COL_MESSAGE_REGEX : list atom :=
  [Bol; Group is_digit 1; Lit ":"; Group is_digit 1; Lit ":"; Lit " ";
   Group is_dot 0; Eol].

(** [_LINE_MESSAGE_REGEX]: digits, a colon and a blank, then the rest of
    the line, between ^ and $. *)
Definition _LINE_MESSAGE_REGEX : list atom :=
  [Bol; Group is_digit 1; Lit ":"; Lit " "; Group is_dot 0; Eol].

(** The value of a string of decimal digits, read from the left. *)
Fixpoint int_digits (acc : Z) (s : string) : option Z :=
  match s with
  | EmptyString => Some acc
  | String c s' =>
      if is_digit c
      then int_digits (10 * acc + (Z.of_nat (nat_of_ascii c) - 48)) s'
      else None
  end.

(** [sys.get_int_max_str_digits()], as Python sets it. *)
Definition int_max_str_digits : Z := 4300.

(** What [int] raises for a string of more digits than that (the message
    goes on to say how many digits the value has). *)
Definition int_limit_error : exn :=
  ValueError "Exceeds the limit (4300 digits) for integer string conversion".

(** [int(s)] for a string of decimal digits: leading zeros count towards
    the limit.  Anything but digits the script could not pass here (group 1
    is matched by [\d+]) raises ValueError as well. *)
Definition int (s : string) : result Z :=
  match s with
  | EmptyString => Raise (ValueError "invalid literal for int()")
  | String _ _ =>
      match int_digits 0 s with
      | Some n =>
          if (int_max_str_digits <? Z.of_nat (String.length s))%Z
          then Raise int_limit_error
          else Ok n
      | None => Raise (ValueError "invalid literal for int()")
      end
  end.

(** ['Col {}: {}'.format(col, msg)] *)
Definition format_col (col msg : string) : string :=
  ("Col " ++ col ++ ": " ++ msg)%string.

(** ** pyflakes: [_get_annotations] *)

(** The body of the [for] loop of [_get_annotations], over the lines still to
    read and the list built so far. *)
Fixpoint _get_annotations_loop (path : string) (style : Style.t)
    (lines : list string) (annotations : list _AnalyzerAnnotation)
  : result (list _AnalyzerAnnotation) :=
  match lines with
  | [] => Ok annotations
  | line :: lines' =>
      if negb (startswith line path) then
        _get_annotations_loop path style lines' annotations
      else
        let line := slice_from (String.length path + 1) line in
        let match_ :=
          match fullmatch _LINE_COL_MESSAGE_REGEX line with
          | Some m => Some m
          | None => fullmatch _LINE_MESSAGE_REGEX line
          end in
        match match_ with
        | None => _get_annotations_loop path style lines' annotations
        | Some m =>
            match int (group m 1) with
            | Raise e => Raise e
            | Ok line =>
                let annotation :=
                  if (lastindex m =? 3)%nat then
                    mkAnnotation line (format_col (group m 2) (group m 3))
                                 _Source.pyflakes style
                  else
                    mkAnnotation line (group m 2) _Source.pyflakes style in
                _get_annotations_loop path style lines'
                                      (annotations ++ [annotation])
            end
        end
  end.

(** [_get_annotations(path, stream, style)]; [stream] is the text held by
    the StringIO. *)
Definition _get_annotations (path stream : string) (style : Style.t)
  : result (list _AnalyzerAnnotation) :=
  _get_annotations_loop path style (splitlines false stream) [].

(** ** flake8: [_parse_flake8_output] *)

(** [message.startswith('W')] decides the style. *)
Definition get_style (message : string) : Style.t :=
  if startswith message "W" then Style.warning else Style.error.

(** The [for] loop of [_parse_flake8_output] over the lines of the report. *)
Fixpoint _parse_flake8_output_loop (path : string) (lines : list string)
    (annotations : list _AnalyzerAnnotation)
  : result (list _AnalyzerAnnotation) :=
  match lines with
  | [] => Ok annotations
  | line :: lines' =>
      if negb (startswith line path) then
        _parse_flake8_output_loop path lines' annotations
      else
        let line := slice_from (String.length path + 1) line in
        let match_ :=
          match fullmatch _LINE_COL_MESSAGE_REGEX line with
          | Some m => Some m
          | None => fullmatch _LINE_MESSAGE_REGEX line
          end in
        match match_ with
        | None => _parse_flake8_output_loop path lines' annotations
        | Some m =>
            match int (group m 1) with
            | Raise e => Raise e
            | Ok line =>
                let annotation :=
                  if (lastindex m =? 3)%nat then
                    mkAnnotation line (format_col (group m 2) (group m 3))
                                 _Source.flake8 (get_style (group m 3))
                  else
                    mkAnnotation line (group m 2)
                                 _Source.flake8 (get_style (group m 2)) in
                _parse_flake8_output_loop path lines'
                                          (annotations ++ [annotation])
            end
        end
  end.

(** [_parse_flake8_output(path, output_path)]; [output] is the file at
    [output_path], [None] when there is no such file ([open] raises).
    Reading in text mode turns CR and CR LF into LF; [splitlines] breaks at
    all three alike, so the lines are those of the file as written. *)
Definition _parse_flake8_output (path : string) (output : option string)
  : result (list _AnalyzerAnnotation) :=
  match output with
  | None => Raise (FileNotFoundError "No such file or directory")
  | Some report =>
      _parse_flake8_output_loop path (splitlines false report) []
  end.

(** ** pep8: [_Pep8AnnotationReport] *)

(** One call of [report.error(line_number, offset, text, check)] made by the
    pep8 checker, with the report's [line_offset] at that moment and what
    [BaseReport.error] answers (the code, or [None] for an ignored one). *)
Record pep8_error_call : Type := mkPep8Call {
  pep8_line_offset : Z;
  pep8_line_number : Z;
  pep8_offset : Z;
  pep8_text : string;
  pep8_super_error : option string
}.

(** Truth value of what [super().error] returns. *)
Definition code_truthy (code : option string) : bool :=
  match code with
  | None | Some EmptyString => false
  | Some (String _ _) => true
  end.

(** [_Pep8AnnotationReport.error]: the report's [annotations] after the
    call. *)
Definition _Pep8AnnotationReport_error
    (annotations : list _AnalyzerAnnotation) (call : pep8_error_call)
  : list _AnalyzerAnnotation :=
  if negb (code_truthy (pep8_super_error call)) then annotations
  else
    let annotation :=
      mkAnnotation (pep8_line_offset call + pep8_line_number call)
                   (pep8_text call) _Source.pep8 Style.warning in
    annotations ++ [annotation].

(** ** The host: editor, configuration, environment and linters *)

Inductive event : Type :=
| editor_get_path
| editor_clear_annotations
| editor_get_selection
| editor_get_text
| editor_replace_text (start stop : Z) (text : string)
| tab_save
| pep8_check_all (lines : list string)
| pyflakes_check (text path : string)
| flake8_run (argv : list string)
| log_error (msg : string)
| editor_set_selection (start : Z) (scroll : bool)
| console_hud_alert (msg icon : string) (delay : QArith_base.Q)
| editor_annotate_line (lineno : Z) (text : string) (style : Style.t)
                       (expanded scroll : bool).

(** What the script changes: the calls made so far, oldest first, and the
    flake8 output file ([None]: no such file). *)
Record state : Type := mkState {
  trace : list event;
  output_file : option string
}.

Record Host : Type := mkHost {
  host_path : option string;                  (* editor.get_path() *)
  host_text : string;                         (* editor.get_text() *)
  host_selection : option (Z * Z);            (* editor.get_selection() *)
  (* configured values, [None] where the key is not set *)
  config_flake8 : option (list (list string));
  config_ignore_codes : option (list string);
  config_max_line_length : option Z;
  config_remove_whitespaces : option bool;
  config_hud_alert_delay : option QArith_base.Q;
  environ_TMPDIR : option string;
  environ_TMP : option string;
  os_path_abspath : string -> string;
  (* the [error] calls pep8 makes on these lines, ignore list and length *)
  pep8_checker : list string -> list string -> option Z -> list pep8_error_call;
  (* what pyflakes writes to the warning and to the error stream *)
  pyflakes_reporter : string -> string -> string * string;
  (* a flake8 run: the exception it raises, if any, and the output file
     it leaves *)
  flake8_application : list string -> state -> option exn * option string
}.

(** ** State and exceptions *)

Definition M (A : Type) : Type := state -> result A * state.

Definition ret {A : Type} (a : A) : M A := fun s => (Ok a, s).

Definition raise {A : Type} (e : exn) : M A := fun s => (Raise e, s).

Definition bind {A B : Type} (m : M A) (k : A -> M B) : M B :=
  fun s =>
    match m s with
    | (Ok a, s') => k a s'
    | (Raise e, s') => (Raise e, s')
    end.

Notation "x <- m ;; k" := (bind m (fun x => k))
  (at level 61, m at next level, right associativity).
Notation "m ;;; k" := (bind m (fun _ => k))
  (at level 61, right associativity).

(** [try: body except Exception as e: handler(e)] *)
Definition try_except {A : Type} (body : M A) (handler : exn -> M A) : M A :=
  fun s =>
    match body s with
    | (Ok a, s') => (Ok a, s')
    | (Raise e, s') =>
        if exn_is_Exception e then handler e s' else (Raise e, s')
    end.

Definition lift {A : Type} (r : result A) : M A := fun s => (r, s).

(** A call that is only recorded. *)
Definition call (e : event) : M unit :=
  fun s => (Ok tt, mkState (trace s ++ [e]) (output_file s)).

(** [if os.path.exists(_output_file): os.remove(_output_file)] *)
Definition remove_if_exists : M unit :=
  fun s => (Ok tt, mkState (trace s) None).

(** ** Configuration *)

Definition _hud_alert_delay (h : Host) : QArith_base.Q :=
  match config_hud_alert_delay h with
  | Some d => d
  | None => QArith_base.Qmake 1 1
  end.

Definition _ignore_codes (h : Host) : list string :=
  match config_ignore_codes h with
  | Some codes => codes
  | None => ["W391"; "W293"]
  end.

Definition _max_line_length (h : Host) : Z :=
  match config_max_line_length h with
  | Some n => n
  | None => 79%Z
  end.

Definition _remove_whitespaces (h : Host) : bool :=
  match config_remove_whitespaces h with
  | Some b => b
  | None => true
  end.

(** ** The three linters *)

(** [_pep8_annotations(text, ignore, max_line_length)]: the checker is run
    over [text.splitlines(True)] and calls [error] on the report. *)
Definition _pep8_annotations (h : Host) (text : string)
    (ignore : option (list string)) (max_line_length : option Z)
  : M (list _AnalyzerAnnotation) :=
  let lines := splitlines true text in
  let options_ignore :=
    match ignore with
    | Some (c :: l) => c :: l
    | Some [] | None => []
    end in
  let options_max_line_length :=
    match max_line_length with
    | Some n => if (n =? 0)%Z then None else Some n
    | None => None
    end in
  call (pep8_check_all lines) ;;;
  ret (fold_left _Pep8AnnotationReport_error
                 (pep8_checker h lines options_ignore options_max_line_length)
                 []).

(** [_pyflakes_annotations(path, text)] *)
Definition _pyflakes_annotations (h : Host) (path text : string)
  : M (list _AnalyzerAnnotation) :=
  call (pyflakes_check text path) ;;;
  let (warning_stream, error_stream) := pyflakes_reporter h text path in
  warnings <- lift (_get_annotations path warning_stream Style.warning) ;;
  errors <- lift (_get_annotations path error_stream Style.error) ;;
  ret (warnings ++ errors).

(** [os.environ.get('TMPDIR', os.environ.get('TMP'))] *)
Definition _tmp (h : Host) : option string :=
  match environ_TMPDIR h with
  | Some d => Some d
  | None => environ_TMP h
  end.

(** [os.path.join(a, b)] for a relative [b]; [a] is [None] when neither
    variable is set, and [join] raises. *)
Definition os_path_join (a : option string) (b : string) : result string :=
  match a with
  | None => Raise (TypeError "expected str, bytes or os.PathLike object")
  | Some EmptyString => Ok b
  | Some a =>
      if endswith a "/" then Ok (a ++ b)%string
      else Ok (a ++ "/" ++ b)%string
  end.

(** The body of the [try] for one option set: what [annotations] is after
    it. *)
Definition _flake8_run_one (h : Host) (path _output_file : string)
    (o : list string) (annotations : list _AnalyzerAnnotation)
  : M (list _AnalyzerAnnotation) :=
  remove_if_exists ;;;
  let o := path :: o ++ ["-j"; "0"; ("--output-file=" ++ _output_file)%string] in
  call (flake8_run o) ;;;
  (fun s =>
     let (raised, file) := flake8_application h o s in
     match raised with
     | Some e => (Raise e, mkState (trace s) file)
     | None => (Ok tt, mkState (trace s) file)
     end) ;;;
  (fun s =>
     match _parse_flake8_output path (output_file s) with
     | Ok found => (Ok (annotations ++ found), s)
     | Raise e => (Raise e, s)
     end).

(** The [for o in options] loop of [_flake8_annotations]. *)
Fixpoint _flake8_annotations_loop (h : Host) (path _output_file : string)
    (options : list (list string)) (annotations : list _AnalyzerAnnotation)
  : M (list _AnalyzerAnnotation) :=
  match options with
  | [] => ret annotations
  | o :: options' =>
      annotations <-
        try_except
          (_flake8_run_one h path _output_file o annotations)
          (fun e =>
             call (log_error ("flake8 failed: " ++ exn_str e)%string) ;;;
             ret annotations) ;;
      _flake8_annotations_loop h path _output_file options' annotations
  end.

(** [_flake8_annotations(path, options)] *)
Definition _flake8_annotations (h : Host) (path : string)
    (options : list (list string)) : M (list _AnalyzerAnnotation) :=
  _output_file <- lift (os_path_join (_tmp h) "blackmamba.flake8.txt") ;;
  annotations <- _flake8_annotations_loop h path _output_file options [] ;;
  remove_if_exists ;;;
  ret annotations.

(** ** Sorting and grouping *)

(** Python's [sorted] is stable and compares with [<] only.  It is modelled
    as insertion from the left: an element goes in front of the first one it
    is smaller than.  With [reverse=True] the list is reversed, sorted and
    reversed back, as [list.sort] does.  Where [<] is a strict weak order,
    as it is on integer keys and on the records of one run of [main], a
    stable sort has one possible result; elsewhere the result depends on
    which pairs the algorithm compares. *)
Fixpoint insort {A : Type} (lt : A -> A -> bool) (x : A) (l : list A) : list A :=
  match l with
  | [] => [x]
  | y :: l' => if lt x y then x :: l else y :: insort lt x l'
  end.

Definition sort_with {A : Type} (lt : A -> A -> bool) (l : list A) : list A :=
  fold_left (fun acc x => insort lt x acc) l [].

Definition sorted {A : Type} (lt : A -> A -> bool) (reverse : bool)
    (l : list A) : list A :=
  if reverse then rev (sort_with lt (rev l)) else sort_with lt l.

(** [sorted(l, key=key)] with integer keys *)
Definition sorted_key {A : Type} (key : A -> Z) (l : list A) : list A :=
  sorted (fun x y => (key x <? key y)%Z) false l.

(** [itertools.groupby]: [k] is the key of the group being read and [g] its
    members so far. *)
Fixpoint groupby_from {A : Type} (key : A -> Z) (k : Z) (g : list A)
    (l : list A) : list (Z * list A) :=
  match l with
  | [] => [(k, g)]
  | x :: l' =>
      if (key x =? k)%Z then groupby_from key k (g ++ [x]) l'
      else (k, g) :: groupby_from key (key x) [x] l'
  end.

Definition groupby {A : Type} (l : list A) (key : A -> Z) : list (Z * list A) :=
  match l with
  | [] => []
  | x :: l' => groupby_from key (key x) [x] l'
  end.

(** ** main *)

Definition comma_newline : string := String "," (String LF "").

(** [_annotate(line, annotations, scroll)]; the style handed to the editor
    is the value of the enum member, identified here with the member. *)
Definition _annotate (line : Z) (annotations : list _AnalyzerAnnotation)
    (scroll : bool) : M unit :=
  let by_priority := sorted __lt__ true annotations in
  match by_priority with
  | [] => raise (IndexError "list index out of range")
  | first :: _ =>
      let style := style first in
      let text := join comma_newline (map text by_priority) in
      call (editor_annotate_line line text style true scroll)
  end.

Definition is_space_or_tab (c : ascii) : bool :=
  match nat_of_ascii c with
  | 9 | 32 => true
  | _ => false
  end.

(** [\s] among 8-bit code points *)
Definition is_space (c : ascii) : bool :=
  match nat_of_ascii c with
  | 9 | 10 | 11 | 12 | 13 | 28 | 29 | 30 | 31 | 32 | 133 | 160 => true
  | _ => false
  end.

(** [_remove_trailing_whitespaces]: every run of blanks and tabs that ends
    at a LF or at the end of the text is dropped; [pending] is the run being
    read. *)
Fixpoint _remove_trailing_whitespaces_from (pending text : string) : string :=
  match text with
  | EmptyString => ""
  | String c text' =>
      if is_space_or_tab c then
        _remove_trailing_whitespaces_from (pending ++ String c "")%string text'
      else if Ascii.eqb c LF then
        String c (_remove_trailing_whitespaces_from "" text')
      else
        (pending ++ String c (_remove_trailing_whitespaces_from "" text'))%string
  end.

Definition _remove_trailing_whitespaces (text : string) : string :=
  _remove_trailing_whitespaces_from "" text.

(** [_remove_trailing_lines]: the white space at the end of the text is
    dropped. *)
Fixpoint _remove_trailing_lines (text : string) : string :=
  match text with
  | EmptyString => ""
  | String c text' =>
      match _remove_trailing_lines text' with
      | EmptyString => if is_space c then "" else String c ""
      | rest => String c rest
      end
  end.

(** [_editor_text()] *)
Definition _editor_text (h : Host) : M string :=
  call editor_get_text ;;;
  let text := host_text h in
  let range_end := Z.of_nat (String.length text) in
  if _remove_whitespaces h then
    let text := _remove_trailing_whitespaces text in
    let text := _remove_trailing_lines text in
    call (editor_replace_text 0 range_end text) ;;;
    call tab_save ;;;
    ret (text ++ String LF "")%string
  else
    call tab_save ;;;
    ret text.

(** The loop over the groups at the end of [main]. *)
Fixpoint annotate_groups (groups : list (Z * list _AnalyzerAnnotation))
    (scroll : bool) : M unit :=
  match groups with
  | [] => ret tt
  | (l, a) :: groups' =>
      _annotate l a scroll ;;;
      annotate_groups groups' false
  end.

(** Truth value of the configured flake8 option sets. *)
Definition options_truthy (o : option (list (list string))) : bool :=
  match o with
  | Some (_ :: _) => true
  | Some [] | None => false
  end.

Definition options_list (o : option (list (list string))) : list (list string) :=
  match o with
  | Some l => l
  | None => []
  end.

(** The linter stage of [main]: the [annotations] it computes. *)
Definition main_annotations (h : Host) (path text : string)
  : M (list _AnalyzerAnnotation) :=
  let flake8_options := config_flake8 h in
  if options_truthy flake8_options then
    _flake8_annotations h (os_path_abspath h path) (options_list flake8_options)
  else
    annotations <-
      _pep8_annotations h text (Some (_ignore_codes h))
                        (Some (_max_line_length h)) ;;
    found <- _pyflakes_annotations h path text ;;
    ret (annotations ++ found).

(** The last stage of [main]: the alert when nothing was found, one
    annotation per line otherwise. *)
Definition main_report (h : Host) (selection : option (Z * Z))
    (annotations : list _AnalyzerAnnotation) : M unit :=
  match annotations with
  | [] =>
      match selection with
      | Some (start, _) => call (editor_set_selection start true)
      | None => ret tt
      end ;;;
      call (console_hud_alert "No Issues Found" "iob:checkmark_32"
                              (_hud_alert_delay h))
  | _ :: _ =>
      let by_line := sorted_key line annotations in
      annotate_groups (groupby by_line line) true
  end.

(** [main()] *)
Definition main (h : Host) : M unit :=
  call editor_get_path ;;;
  match host_path h with
  | None | Some EmptyString => ret tt
  | Some path =>
      if negb (endswith path ".py") then ret tt
      else
        call editor_clear_annotations ;;;
        call editor_get_selection ;;;
        let selection := host_selection h in
        text <- _editor_text h ;;
        annotations <- main_annotations h path text ;;
        main_report h selection annotations
  end.

(** ** Vocabulary of the statements *)

(** Every character of [s] is in the class. *)
Fixpoint string_forallb (cls : ascii -> bool) (s : string) : bool :=
  match s with
  | EmptyString => true
  | String c s' => cls c && string_forallb cls s'
  end.

(** A non-empty sequence of decimal digits. *)
Definition is_number (s : string) : bool :=
  negb (String.eqb s "") && string_forallb is_digit s.

(** The value of a sequence of decimal digits. *)
Definition number_value (s : string) : Z :=
  match int_digits 0 s with
  | Some n => n
  | None => 0%Z
  end.

(** What is left of a report line once [path] and one more character are
    cut off. *)
Definition remainder (path line : string) : string :=
  slice_from (String.length path + 1) line.

(** [c * n] *)
Fixpoint repeat_char (c : ascii) (n : nat) : string :=
  match n with
  | O => ""
  | S n' => String c (repeat_char c n')
  end.

(** A sequence of digits that [int] converts. *)
Definition within_int_limit (s : string) : bool :=
  (Z.of_nat (String.length s) <=? int_max_str_digits)%Z.

(** A report line that the loops pass over. *)
Definition skipped (path line : string) : Prop :=
  startswith line path = false
  \/ (fullmatch _LINE_COL_MESSAGE_REGEX (remainder path line) = None
      /\ fullmatch _LINE_MESSAGE_REGEX (remainder path line) = None).

(** The match object a report line ends up with, if any. *)
Definition line_match (path line : string) : option match_object :=
  if startswith line path then
    match fullmatch _LINE_COL_MESSAGE_REGEX (remainder path line) with
    | Some m => Some m
    | None => fullmatch _LINE_MESSAGE_REGEX (remainder path line)
    end
  else None.

(** The record built from a match object, for a linter and a choice of
    style from the message. *)
Definition record_of_match (src : _Source.t) (style_of : string -> Style.t)
    (m : match_object) : _AnalyzerAnnotation :=
  if (lastindex m =? 3)%nat then
    mkAnnotation (number_value (group m 1))
                 (format_col (group m 2) (group m 3)) src
                 (style_of (group m 3))
  else
    mkAnnotation (number_value (group m 1)) (group m 2) src
                 (style_of (group m 2)).

(** A report line on which [int] raises: it matches, with more digits in
    its line number than [int] converts. *)
Definition over_limit (path line : string) : bool :=
  match line_match path line with
  | Some m => negb (within_int_limit (group m 1))
  | None => false
  end.

(** A report with a line on which [int] raises. *)
Definition stream_over_limit (path stream : string) : bool :=
  existsb (over_limit path) (splitlines false stream).

(** The records one report line contributes: one or none. *)
Definition line_records (src : _Source.t) (style_of : string -> Style.t)
    (path line : string) : list _AnalyzerAnnotation :=
  match line_match path line with
  | Some m => [record_of_match src style_of m]
  | None => []
  end.

(** A character that [str.splitlines] does not break at. *)
Definition no_linebreak (c : ascii) : bool := negb (is_linebreak c).

(** A line of the report contributes exactly the record [record src st] to
    what each parser returns: between what the lines before it and the lines
    after it contribute.  [_get_annotations] gives it the style it is
    passed, [_parse_flake8_output] the style of the message. *)
Definition yields_one_record (path stream : string)
    (before after : list string)
    (record : _Source.t -> Style.t -> _AnalyzerAnnotation) (msg : string)
  : Prop :=
  (forall style,
      exists a1 a2,
        _get_annotations_loop path style before [] = Ok a1
        /\ _get_annotations_loop path style after [] = Ok a2
        /\ _get_annotations path stream style
           = Ok (a1 ++ [record _Source.pyflakes style] ++ a2))
  /\ (exists a1 a2,
         _parse_flake8_output_loop path before [] = Ok a1
         /\ _parse_flake8_output_loop path after [] = Ok a2
         /\ _parse_flake8_output path (Some stream)
            = Ok (a1 ++ [record _Source.flake8 (get_style msg)] ++ a2)).

(** The arguments flake8 is run with for the option set [o]. *)
Definition flake8_argv (path _output_file : string) (o : list string)
  : list string :=
  path :: o ++ ["-j"; "0"; ("--output-file=" ++ _output_file)%string].

(** The state in which flake8 is entered: the old output file is gone and
    the run is on record. *)
Definition invoked (s : state) (argv : list string) : state :=
  mkState (trace s ++ [flake8_run argv]) None.

(** The state after the handler has logged [e]; [file] is the output file
    the failed run left. *)
Definition logged (s : state) (e : exn) (file : option string) : state :=
  mkState (trace s ++ [log_error ("flake8 failed: " ++ exn_str e)%string]) file.

(** Whatever flake8 raises is an instance of [Exception]. *)
Definition raises_only_Exception (h : Host) : Prop :=
  forall argv s e file,
    flake8_application h argv s = (Some e, file) -> exn_is_Exception e = true.

(** pyflakes reports no line number under the editor's path that [int]
    does not convert. *)
Definition pyflakes_within_int_limit (h : Host) : Prop :=
  forall path text,
    host_path h = Some path ->
    stream_over_limit path (fst (pyflakes_reporter h text path)) = false
    /\ stream_over_limit path (snd (pyflakes_reporter h text path)) = false.

(** A host for examples: a file with two pep8 findings, of which one is
    ignored, and three pyflakes findings. *)
Definition sample_host (path : option string)
    (flake8 : option (list (list string)))
    (application : list string -> state -> option exn * option string)
  : Host :=
  mkHost path "import os  " (Some (0, 0)%Z)
         flake8 None None None None (Some "/tmp") None
         (fun p => ("/abs/" ++ p)%string)
         (fun _ _ _ =>
            [mkPep8Call 0 3 80 "E501 line too long" (Some "E501");
             mkPep8Call 0 1 10 "W291 trailing whitespace" None])
         (fun _ p =>
            ((p ++ ":1: 'os' imported but unused"
                ++ String LF (p ++ ":3:5: undefined name 'x'"))%string,
             (p ++ ":3:1: invalid syntax")%string))
         application.

(** The calls of [main] by stage. *)
Definition is_preparation (e : event) : bool :=
  match e with
  | editor_get_selection | editor_get_text | editor_replace_text _ _ _
  | tab_save => true
  | _ => false
  end.

Definition is_pep8_run (e : event) : bool :=
  match e with pep8_check_all _ => true | _ => false end.

Definition is_pyflakes_run (e : event) : bool :=
  match e with pyflakes_check _ _ => true | _ => false end.

Definition is_flake8_run (e : event) : bool :=
  match e with flake8_run _ => true | _ => false end.

Definition is_linter_run (e : event) : bool :=
  is_pep8_run e || is_pyflakes_run e || is_flake8_run e.

(** A linter run, or the log entry of a failed flake8 run. *)
Definition is_linter_stage (e : event) : bool :=
  match e with
  | pep8_check_all _ | pyflakes_check _ _ | flake8_run _ | log_error _ => true
  | _ => false
  end.

Definition is_annotation (e : event) : bool :=
  match e with editor_annotate_line _ _ _ _ _ => true | _ => false end.

(** What [main] shows in the end: annotations, or the selection and the
    alert. *)
Definition is_report (e : event) : bool :=
  match e with
  | editor_annotate_line _ _ _ _ _ | editor_set_selection _ _
  | console_hud_alert _ _ _ => true
  | _ => false
  end.

(** [main] goes past its two guards: there is a path and it ends in
    ".py". *)
Definition python_file (h : Host) : bool :=
  match host_path h with
  | Some (String c p) => endswith (String c p) ".py"
  | Some EmptyString | None => false
  end.

(** The lists [main] can hand to its last stage: flake8 records only, or
    pyflakes records and pep8 warnings. *)
Definition from_one_run (l : list _AnalyzerAnnotation) : Prop :=
  Forall (fun a => source a = _Source.flake8) l
  \/ Forall (fun a => source a = _Source.pyflakes
                      \/ (source a = _Source.pep8 /\ style a = Style.warning))
            l.

(** A number that [__lt__] compares by on such lists. *)
Definition priority (a : _AnalyzerAnnotation) : Z :=
  match source a, style a with
  | _Source.flake8, Style.warning => 0
  | _Source.flake8, Style.error => 1
  | _Source.pep8, _ => 0
  | _Source.pyflakes, Style.warning => 1
  | _Source.pyflakes, Style.error => 2
  end.

(** [lt] compares the elements of [l] by [rank]. *)
Definition compares_by_rank {A : Type} (lt : A -> A -> bool) (rank : A -> Z)
    (l : list A) : Prop :=
  forall a b, In a l -> In b l -> lt a b = (rank a <? rank b)%Z.

(** The characters of [s] that are in the class, in order. *)
Fixpoint string_filter (cls : ascii -> bool) (s : string) : string :=
  match s with
  | EmptyString => ""
  | String c s' =>
      if cls c then String c (string_filter cls s') else string_filter cls s'
  end.

(** No blank or tab of [s] stands right before a LF or at the end. *)
Fixpoint no_blank_at_line_end (s : string) : bool :=
  match s with
  | EmptyString => true
  | String c s' =>
      (if is_space_or_tab c then
         match s' with
         | EmptyString => false
         | String c' _ => negb (Ascii.eqb c' LF)
         end
       else true)
      && no_blank_at_line_end s'
  end.

(** A character that is no white space. *)
Definition is_visible (c : ascii) : bool := negb (is_space c).

(** * Properties *)

(** ** The comparison of records *)

Lemma lt_true_iff (a b : _AnalyzerAnnotation) :
  __lt__ a b = true <->
  (source a = _Source.pep8 /\ source b = _Source.pyflakes)
  \/ (source a = _Source.flake8 /\ source b <> _Source.flake8)
  \/ (style a = Style.warning /\ style b = Style.error).
Proof.
  unfold __lt__.
  destruct (source a), (source b), (style a), (style b); simpl;
    split; intro H; try reflexivity; try discriminate;
    try (now left); try (right; left; split; [reflexivity | discriminate]);
    try (now right; right);
    destruct H as [[? ?] | [[? ?] | [? ?]]]; congruence.
Qed.

(** C1, as the spec words it, fails: a flake8 record does not rank above a
    pep8 record of the same style, it ranks below it; and a pep8 record does
    not rank above a pyflakes record.  In the descending order [_annotate]
    shows a line in, the pyflakes record comes before the pep8 record and
    the flake8 record after it. *)
Lemma lt_flake8_below_pep8_below_pyflakes :
  let f := mkAnnotation 1 "E501 line too long" _Source.flake8 Style.warning in
  let p := mkAnnotation 1 "E501 line too long" _Source.pep8 Style.warning in
  let y := mkAnnotation 1 "undefined name" _Source.pyflakes Style.warning in
  (__lt__ p f = false /\ __lt__ f p = true)
  /\ (__lt__ y f = false /\ __lt__ f y = true)
  /\ (__lt__ y p = false /\ __lt__ p y = true)
  /\ sorted __lt__ true [p; y] = [y; p]
  /\ sorted __lt__ true [f; p] = [p; f].
Proof. repeat split. Qed.

(** C1, amended: under [__lt__] a flake8 record is below every pep8 and
    pyflakes record, a pep8 record is below every pyflakes record, and a
    warning record is below every error record. *)
Theorem lt_orders_by_source_and_style (a b : _AnalyzerAnnotation) :
  (source a = _Source.flake8 -> source b <> _Source.flake8 ->
   __lt__ a b = true)
  /\ (source a = _Source.pep8 -> source b = _Source.pyflakes ->
      __lt__ a b = true)
  /\ (style a = Style.warning -> style b = Style.error ->
      __lt__ a b = true).
Proof.
  repeat split; intros; apply lt_true_iff; auto.
Qed.

Lemma lt_orders_by_source_and_style_witness :
  __lt__ (mkAnnotation 3 "F401" _Source.flake8 Style.error)
         (mkAnnotation 3 "E225" _Source.pep8 Style.warning) = true
  /\ __lt__ (mkAnnotation 3 "E225" _Source.pep8 Style.warning)
            (mkAnnotation 3 "unused" _Source.pyflakes Style.warning) = true
  /\ __lt__ (mkAnnotation 3 "unused" _Source.pyflakes Style.warning)
            (mkAnnotation 3 "syntax" _Source.pyflakes Style.error) = true.
Proof.
  split; [| split].
  - apply (proj1 (lt_orders_by_source_and_style
                    (mkAnnotation 3 "F401" _Source.flake8 Style.error)
                    (mkAnnotation 3 "E225" _Source.pep8 Style.warning)));
      simpl; [reflexivity | discriminate].
  - apply (proj1 (proj2 (lt_orders_by_source_and_style
                    (mkAnnotation 3 "E225" _Source.pep8 Style.warning)
                    (mkAnnotation 3 "unused" _Source.pyflakes Style.warning))));
      reflexivity.
  - apply (proj2 (proj2 (lt_orders_by_source_and_style
                    (mkAnnotation 3 "unused" _Source.pyflakes Style.warning)
                    (mkAnnotation 3 "syntax" _Source.pyflakes Style.error))));
      reflexivity.
Defined.

(** C7: a pep8 warning and a flake8 error are each below the other, so
    [__lt__] is not asymmetric and hence no strict partial order. *)
Theorem lt_not_asymmetric :
  (exists a b,
      source a = _Source.pep8 /\ style a = Style.warning
      /\ source b = _Source.flake8 /\ style b = Style.error
      /\ __lt__ a b = true /\ __lt__ b a = true)
  /\ ~ (forall a b, __lt__ a b = true -> __lt__ b a = false).
Proof.
  split.
  - exists (mkAnnotation 1 "E225" _Source.pep8 Style.warning),
           (mkAnnotation 1 "F821" _Source.flake8 Style.error).
    repeat split.
  - intro H.
    specialize (H (mkAnnotation 1 "E225" _Source.pep8 Style.warning)
                  (mkAnnotation 1 "F821" _Source.flake8 Style.error)
                  eq_refl).
    discriminate H.
Qed.

(** ** pep8 *)

Lemma Pep8AnnotationReport_error_keeps (P : _AnalyzerAnnotation -> Prop)
    (annotations : list _AnalyzerAnnotation) (c : pep8_error_call) :
  (forall n t, P (mkAnnotation n t _Source.pep8 Style.warning)) ->
  Forall P annotations ->
  Forall P (_Pep8AnnotationReport_error annotations c).
Proof.
  intros HP H. unfold _Pep8AnnotationReport_error.
  destruct (negb (code_truthy (pep8_super_error c))); [assumption |].
  apply Forall_app. split; [assumption |].
  constructor; [apply HP | constructor].
Qed.

Lemma pep8_report_fold (P : _AnalyzerAnnotation -> Prop)
    (calls : list pep8_error_call) :
  (forall n t, P (mkAnnotation n t _Source.pep8 Style.warning)) ->
  forall annotations,
    Forall P annotations ->
    Forall P (fold_left _Pep8AnnotationReport_error calls annotations).
Proof.
  intros HP. induction calls as [| c calls IH]; intros annotations H; simpl.
  - assumption.
  - apply IH. apply Pep8AnnotationReport_error_keeps; assumption.
Qed.

Lemma pep8_annotations_run (h : Host) (text : string)
    (ignore : option (list string)) (max_line_length : option Z) (s : state) :
  exists calls,
    _pep8_annotations h text ignore max_line_length s
    = (Ok (fold_left _Pep8AnnotationReport_error calls []),
       mkState (trace s ++ [pep8_check_all (splitlines true text)])
               (output_file s)).
Proof.
  unfold _pep8_annotations, bind, call, ret. simpl. eexists. reflexivity.
Qed.

(** C9: whatever pep8 reports, [_pep8_annotations] returns, and every record
    it returns is a warning. *)
Theorem pep8_annotations_are_warnings (h : Host) (text : string)
    (ignore : option (list string)) (max_line_length : option Z) (s : state) :
  exists annotations s',
    _pep8_annotations h text ignore max_line_length s = (Ok annotations, s')
    /\ Forall (fun a => style a = Style.warning) annotations.
Proof.
  destruct (pep8_annotations_run h text ignore max_line_length s) as [calls E].
  eexists. eexists. split; [exact E |].
  apply pep8_report_fold; [reflexivity | constructor].
Qed.

(** ** Strings *)

Lemma append_assoc (a b c : string) :
  ((a ++ b) ++ c = a ++ (b ++ c))%string.
Proof. induction a as [| x a IH]; simpl; [reflexivity | now rewrite IH]. Qed.

Lemma append_empty_r (a : string) : (a ++ "")%string = a.
Proof. induction a as [| x a IH]; simpl; [reflexivity | now rewrite IH]. Qed.

Lemma slice_from_app (a b : string) :
  slice_from (String.length a) (a ++ b) = b.
Proof. induction a as [| x a IH]; simpl; [now destruct b | exact IH]. Qed.

Lemma slice_to_app (a b : string) :
  slice_to (String.length a) (a ++ b) = a.
Proof. induction a as [| x a IH]; simpl; [reflexivity | now rewrite IH]. Qed.

Lemma slice_from_app_plus (a b : string) (n : nat) :
  slice_from (String.length a + n) (a ++ b) = slice_from n b.
Proof. induction a as [| x a IH]; simpl; [reflexivity | exact IH]. Qed.

Lemma prefix_app (a b : string) : String.prefix a (a ++ b) = true.
Proof.
  induction a as [| x a IH]; simpl.
  - now destruct b.
  - destruct (ascii_dec x x) as [_ | N]; [exact IH | now elim N].
Qed.

Lemma string_forallb_app (cls : ascii -> bool) (a b : string) :
  string_forallb cls (a ++ b) = string_forallb cls a && string_forallb cls b.
Proof.
  induction a as [| x a IH]; simpl; [reflexivity |].
  rewrite IH. now rewrite andb_assoc.
Qed.

Lemma string_forallb_impl (p q : ascii -> bool) (s : string) :
  (forall c, p c = true -> q c = true) ->
  string_forallb p s = true -> string_forallb q s = true.
Proof.
  intros Hpq. induction s as [| x s IH]; simpl; [reflexivity |].
  intros H. apply andb_true_iff in H. destruct H as [Hx Hs].
  rewrite (Hpq _ Hx). simpl. now apply IH.
Qed.

Lemma run_length_app (cls : ascii -> bool) (a b : string) :
  string_forallb cls a = true ->
  run_length cls b = 0%nat ->
  run_length cls (a ++ b) = String.length a.
Proof.
  induction a as [| x a IH]; simpl; intros Ha Hb.
  - exact Hb.
  - apply andb_true_iff in Ha. destruct Ha as [Hx Ha].
    rewrite Hx. f_equal. now apply IH.
Qed.

Lemma slice_to_run (cls : ascii -> bool) (s : string) (n : nat) :
  (n <= run_length cls s)%nat ->
  string_forallb cls (slice_to n s) = true
  /\ String.length (slice_to n s) = n.
Proof.
  revert s. induction n as [| n IH]; intros s H; simpl.
  - now split.
  - destruct s as [| c s]; simpl in H; [lia |].
    destruct (cls c) eqn:Ec; [| lia].
    destruct (IH s) as [Hf Hl]; [lia |].
    simpl. rewrite Ec, Hf, Hl. now split.
Qed.

(** ** The matcher *)

Lemma first_success_hit {A : Type} (k : nat -> option A) (n : nat) (r : A) :
  k n = Some r -> first_success k n = Some r.
Proof. intros H. destruct n; simpl; now rewrite H. Qed.

Lemma first_success_none {A : Type} (k : nat -> option A) (n : nat) :
  (forall m, (m <= n)%nat -> k m = None) -> first_success k n = None.
Proof.
  induction n as [| n IH]; intros H; simpl.
  - now rewrite (H 0%nat).
  - rewrite (H (S n)) by lia. apply IH. intros m Hm. apply H. lia.
Qed.

Lemma first_success_some {A : Type} (k : nat -> option A) (n : nat) (r : A) :
  first_success k n = Some r -> exists m, (m <= n)%nat /\ k m = Some r.
Proof.
  induction n as [| n IH]; simpl; intros H.
  - exists 0%nat. split; [lia |]. destruct (k 0%nat); congruence.
  - destruct (k (S n)) eqn:E.
    + exists (S n). split; [lia | congruence].
    + destruct (IH H) as [m [Hm Hk]]. exists m. split; [lia | exact Hk].
Qed.

Lemma match_group_eq (cls : ascii -> bool) (lo : nat) (rest : list atom)
    (pos : nat) (s : string) :
  match_atoms (Group cls lo :: rest) pos s
  = first_success
      (fun n =>
         if (lo <=? n)%nat then
           match match_atoms rest (pos + n) (slice_from n s) with
           | Some groups => Some (slice_to n s :: groups)
           | None => None
           end
         else None)
      (run_length cls s).
Proof. reflexivity. Qed.

Lemma match_lit_eq (c c' : ascii) (rest : list atom) (pos : nat) (s : string) :
  match_atoms (Lit c :: rest) pos (String c' s)
  = if Ascii.eqb c c' then match_atoms rest (S pos) s else None.
Proof. reflexivity. Qed.

(** A group followed by something outside its class takes the whole run
    when the rest of the pattern then matches. *)
Lemma match_group_hit (cls : ascii -> bool) (lo : nat) (rest : list atom)
    (pos : nat) (d s : string) (groups : list string) :
  string_forallb cls d = true ->
  run_length cls s = 0%nat ->
  (lo <= String.length d)%nat ->
  match_atoms rest (pos + String.length d) s = Some groups ->
  match_atoms (Group cls lo :: rest) pos (d ++ s) = Some (d :: groups).
Proof.
  intros Hd Hs Hlo Hrest.
  rewrite match_group_eq, (run_length_app cls d s Hd Hs).
  apply first_success_hit.
  apply Nat.leb_le in Hlo. rewrite Hlo.
  now rewrite slice_from_app, slice_to_app, Hrest.
Qed.

(** A group at the end of the subject takes all of it. *)
Lemma match_group_all (cls : ascii -> bool) (lo : nat) (rest : list atom)
    (pos : nat) (d : string) (groups : list string) :
  string_forallb cls d = true ->
  (lo <= String.length d)%nat ->
  match_atoms rest (pos + String.length d) "" = Some groups ->
  match_atoms (Group cls lo :: rest) pos d = Some (d :: groups).
Proof.
  intros Hd Hlo Hrest.
  pose proof (match_group_hit cls lo rest pos d "" groups Hd eq_refl Hlo Hrest)
    as H.
  now rewrite append_empty_r in H.
Qed.

(** What a match that starts with a group captured first. *)
Lemma match_group_inv (cls : ascii -> bool) (lo : nat) (rest : list atom)
    (pos : nat) (s : string) (m : list string) :
  match_atoms (Group cls lo :: rest) pos s = Some m ->
  exists n groups,
    m = slice_to n s :: groups
    /\ (lo <= n <= run_length cls s)%nat
    /\ match_atoms rest (pos + n) (slice_from n s) = Some groups.
Proof.
  rewrite match_group_eq. intros H.
  apply first_success_some in H. destruct H as [n [Hn Hk]].
  destruct (lo <=? n)%nat eqn:Elo; [| discriminate].
  destruct (match_atoms rest (pos + n) (slice_from n s)) as [groups |] eqn:Er;
    [| discriminate].
  exists n, groups. apply Nat.leb_le in Elo.
  split; [congruence | split; [lia | exact Er]].
Qed.

Lemma slice_from_inside (cls : ascii -> bool) (d t : string) (n : nat) :
  string_forallb cls d = true ->
  (n < String.length d)%nat ->
  exists c r, slice_from n (d ++ t) = String c r /\ cls c = true.
Proof.
  revert n. induction d as [| x d IH]; simpl; intros n Hd Hn; [lia |].
  apply andb_true_iff in Hd. destruct Hd as [Hx Hd].
  destruct n as [| n]; simpl.
  - now exists x, (d ++ t)%string.
  - apply IH; [assumption | lia].
Qed.

Lemma is_number_inv (s : string) :
  is_number s = true ->
  string_forallb is_digit s = true /\ (1 <= String.length s)%nat.
Proof.
  unfold is_number. intros H. apply andb_true_iff in H. destruct H as [Hn Hd].
  split; [assumption |]. destruct s; simpl in *; [discriminate | lia].
Qed.

Lemma is_dot_no_linebreak (c : ascii) :
  is_linebreak c = false -> is_dot c = true.
Proof.
  unfold is_dot, is_linebreak, LF. intros H.
  destruct (Ascii.eqb c "010") eqn:E; [| reflexivity].
  apply Ascii.eqb_eq in E. subst c. discriminate H.
Qed.

(** Line, column and message are found by the first pattern. *)
Lemma fullmatch_line_col (L C msg : string) :
  is_number L = true -> is_number C = true ->
  string_forallb is_dot msg = true ->
  fullmatch _LINE_COL_MESSAGE_REGEX (L ++ ":" ++ C ++ ": " ++ msg)%string
  = Some [L; C; msg].
Proof.
  intros HL HC Hmsg.
  apply is_number_inv in HL. destruct HL as [HL HLn].
  apply is_number_inv in HC. destruct HC as [HC HCn].
  unfold fullmatch, _LINE_COL_MESSAGE_REGEX.
  change (match_atoms (Bol :: ?r) 0 ?s) with (match_atoms r 0 s).
  apply match_group_hit; [assumption | reflexivity | assumption |].
  change (match_atoms (Lit ":" :: ?r) ?p (":" ++ ?s)%string)
    with (match_atoms r (S p) s).
  apply match_group_hit; [assumption | reflexivity | assumption |].
  change (match_atoms (Lit ":" :: Lit " " :: ?r) ?p (": " ++ ?s)%string)
    with (match_atoms r (S (S p)) s).
  apply match_group_all; [assumption | lia |].
  reflexivity.
Qed.

(** Line and message are found by the second pattern, after the first one
    has failed. *)
Lemma fullmatch_line_message (L msg : string) :
  is_number L = true ->
  string_forallb is_dot msg = true ->
  fullmatch _LINE_COL_MESSAGE_REGEX (L ++ ": " ++ msg)%string = None
  /\ fullmatch _LINE_MESSAGE_REGEX (L ++ ": " ++ msg)%string = Some [L; msg].
Proof.
  intros HL Hmsg.
  apply is_number_inv in HL. destruct HL as [HL HLn].
  split.
  - unfold fullmatch, _LINE_COL_MESSAGE_REGEX.
    change (match_atoms (Bol :: ?r) 0 ?s) with (match_atoms r 0 s).
    rewrite match_group_eq.
    rewrite (run_length_app is_digit L _ HL) by reflexivity.
    apply first_success_none. intros n Hn.
    destruct (1 <=? n)%nat; [| reflexivity].
    destruct (Nat.eq_dec n (String.length L)) as [-> | Hne].
    + rewrite slice_from_app. reflexivity.
    + destruct (slice_from_inside is_digit L (": " ++ msg)%string n HL)
        as [c [r [E Hc]]]; [lia |].
      rewrite E, match_lit_eq.
      destruct (Ascii.eqb ":" c) eqn:Ec; [| reflexivity].
      apply Ascii.eqb_eq in Ec. subst c. discriminate Hc.
  - unfold fullmatch, _LINE_MESSAGE_REGEX.
    change (match_atoms (Bol :: ?r) 0 ?s) with (match_atoms r 0 s).
    apply match_group_hit; [assumption | reflexivity | assumption |].
    change (match_atoms (Lit ":" :: Lit " " :: ?r) ?p (": " ++ ?s)%string)
      with (match_atoms r (S (S p)) s).
    apply match_group_all; [assumption | lia |].
    reflexivity.
Qed.

(** ** Lines and numbers *)

Lemma splitlines_from_no_linebreak (n : nat) :
  forall s cur,
    (String.length s <= n)%nat ->
    string_forallb no_linebreak cur = true ->
    Forall (fun l => string_forallb no_linebreak l = true)
           (splitlines_from false cur s).
Proof.
  induction n as [| n IH]; intros s cur Hn Hcur.
  - destruct s; simpl in Hn; [| lia]. simpl.
    destruct cur; repeat constructor. exact Hcur.
  - destruct s as [| c s]; simpl.
    + destruct cur; repeat constructor. exact Hcur.
    + simpl in Hn.
      destruct (Ascii.eqb c CR) eqn:Ecr.
      * destruct s as [| c' s'].
        -- constructor; [exact Hcur | apply IH; [simpl; lia | reflexivity]].
        -- destruct (Ascii.eqb c' LF).
           ++ constructor; [exact Hcur |].
              apply IH; [simpl in Hn; lia | reflexivity].
           ++ constructor; [exact Hcur |].
              apply IH; [lia | reflexivity].
      * destruct (is_linebreak c) eqn:Elb.
        -- constructor; [exact Hcur | apply IH; [lia | reflexivity]].
        -- apply IH; [lia |].
           rewrite string_forallb_app, Hcur. simpl.
           unfold no_linebreak. now rewrite Elb.
Qed.

(** No line of [splitlines] holds a line break; in particular none holds
    a LF, which is all that [.] refuses. *)
Lemma splitlines_no_linebreak (s : string) :
  Forall (fun l => string_forallb no_linebreak l = true) (splitlines false s).
Proof.
  apply (splitlines_from_no_linebreak (String.length s)); [lia | reflexivity].
Qed.

Lemma no_linebreak_is_dot (s : string) :
  string_forallb no_linebreak s = true -> string_forallb is_dot s = true.
Proof.
  apply string_forallb_impl. intros c H. apply is_dot_no_linebreak.
  unfold no_linebreak in H. now destruct (is_linebreak c).
Qed.

Lemma int_digits_total (s : string) :
  string_forallb is_digit s = true ->
  forall acc, exists n, int_digits acc s = Some n.
Proof.
  induction s as [| c s IH]; simpl; intros H acc.
  - now exists acc.
  - apply andb_true_iff in H. destruct H as [Hc Hs]. rewrite Hc.
    apply IH. exact Hs.
Qed.

(** [int] on a non-empty sequence of digits: its value, unless the
    sequence is longer than the limit. *)
Lemma int_is_number (s : string) :
  is_number s = true ->
  int s = if within_int_limit s then Ok (number_value s)
          else Raise int_limit_error.
Proof.
  intros H. apply is_number_inv in H. destruct H as [Hd Hn].
  destruct (int_digits_total s Hd 0%Z) as [n E].
  unfold int, number_value, within_int_limit. rewrite E.
  destruct s as [| c s]; [simpl in Hn; lia |].
  rewrite Z.ltb_antisym. now destruct (_ <=? _)%Z.
Qed.

Lemma first_group_is_number (rest : list atom) (s : string) (m : match_object) :
  fullmatch (Bol :: Group is_digit 1 :: rest) s = Some m ->
  is_number (group m 1) = true.
Proof.
  unfold fullmatch.
  change (match_atoms (Bol :: ?r) 0 s) with (match_atoms r 0 s).
  intros H. apply match_group_inv in H.
  destruct H as [n [groups [-> [[Hlo Hhi] _]]]].
  destruct (slice_to_run is_digit s n Hhi) as [Hd Hl].
  unfold group, is_number. simpl. rewrite Hd.
  destruct (slice_to n s); [simpl in Hl; lia | reflexivity].
Qed.

Lemma line_match_is_number (path line : string) (m : match_object) :
  line_match path line = Some m -> is_number (group m 1) = true.
Proof.
  unfold line_match. destruct (startswith line path); [| discriminate].
  destruct (fullmatch _LINE_COL_MESSAGE_REGEX (remainder path line)) as [m' |]
    eqn:E.
  - intros H. injection H as <-. exact (first_group_is_number _ _ _ E).
  - intros H. exact (first_group_is_number _ _ _ H).
Qed.

(** ** The two report parsers, line by line *)

(** The loop of [_get_annotations]: it raises when [int] raises on one of
    the lines, and otherwise adds the records of the lines in their
    order. *)
Lemma get_annotations_loop_eq (path : string) (style : Style.t)
    (lines : list string) :
  forall annotations,
    _get_annotations_loop path style lines annotations
    = if existsb (over_limit path) lines then Raise int_limit_error
      else Ok (annotations
               ++ flat_map (line_records _Source.pyflakes (fun _ => style) path)
                           lines).
Proof.
  induction lines as [| l lines IH]; intros annotations; simpl.
  - now rewrite app_nil_r.
  - unfold line_records at 1, over_limit at 1.
    pose proof (line_match_is_number path l) as Hnum.
    unfold line_match in *. fold (remainder path l).
    destruct (startswith l path); simpl.
    + destruct (match fullmatch _LINE_COL_MESSAGE_REGEX (remainder path l) with
                | Some m => Some m
                | None => fullmatch _LINE_MESSAGE_REGEX (remainder path l)
                end) as [m |].
      * rewrite (int_is_number _ (Hnum m eq_refl)).
        destruct (within_int_limit (group m 1)); simpl; [| reflexivity].
        rewrite IH, <- app_assoc. reflexivity.
      * apply IH.
    + apply IH.
Qed.

Lemma parse_flake8_output_loop_eq (path : string) (lines : list string) :
  forall annotations,
    _parse_flake8_output_loop path lines annotations
    = if existsb (over_limit path) lines then Raise int_limit_error
      else Ok (annotations
               ++ flat_map (line_records _Source.flake8 get_style path) lines).
Proof.
  induction lines as [| l lines IH]; intros annotations; simpl.
  - now rewrite app_nil_r.
  - unfold line_records at 1, over_limit at 1.
    pose proof (line_match_is_number path l) as Hnum.
    unfold line_match in *. fold (remainder path l).
    destruct (startswith l path); simpl.
    + destruct (match fullmatch _LINE_COL_MESSAGE_REGEX (remainder path l) with
                | Some m => Some m
                | None => fullmatch _LINE_MESSAGE_REGEX (remainder path l)
                end) as [m |].
      * rewrite (int_is_number _ (Hnum m eq_refl)).
        destruct (within_int_limit (group m 1)); simpl; [| reflexivity].
        rewrite IH, <- app_assoc. reflexivity.
      * apply IH.
    + apply IH.
Qed.

(** What the loops return when they return. *)
Lemma get_annotations_loop_ok (path : string) (style : Style.t)
    (lines : list string) (annotations found : list _AnalyzerAnnotation) :
  _get_annotations_loop path style lines annotations = Ok found ->
  existsb (over_limit path) lines = false
  /\ found = annotations
             ++ flat_map (line_records _Source.pyflakes (fun _ => style) path)
                         lines.
Proof.
  rewrite get_annotations_loop_eq.
  destruct (existsb (over_limit path) lines); [discriminate |].
  intros H. injection H as <-. now split.
Qed.

Lemma parse_flake8_output_loop_ok (path : string) (lines : list string)
    (annotations found : list _AnalyzerAnnotation) :
  _parse_flake8_output_loop path lines annotations = Ok found ->
  existsb (over_limit path) lines = false
  /\ found = annotations
             ++ flat_map (line_records _Source.flake8 get_style path) lines.
Proof.
  rewrite parse_flake8_output_loop_eq.
  destruct (existsb (over_limit path) lines); [discriminate |].
  intros H. injection H as <-. now split.
Qed.

Lemma skipped_line_records (src : _Source.t) (style_of : string -> Style.t)
    (path line : string) :
  skipped path line -> line_records src style_of path line = [].
Proof.
  unfold skipped, line_records, line_match.
  intros [H | [H1 H2]].
  - now rewrite H.
  - rewrite H1, H2. now destruct (startswith line path).
Qed.

Lemma remainder_app (path : string) (c : ascii) (rest : string) :
  remainder path (path ++ String c rest) = rest.
Proof.
  unfold remainder. rewrite slice_from_app_plus. reflexivity.
Qed.

Lemma line_records_col (src : _Source.t) (style_of : string -> Style.t)
    (path L C msg : string) :
  is_number L = true -> is_number C = true ->
  string_forallb is_dot msg = true ->
  line_records src style_of path (path ++ ":" ++ L ++ ":" ++ C ++ ": " ++ msg)
  = [mkAnnotation (number_value L) (format_col C msg) src (style_of msg)].
Proof.
  intros HL HC Hmsg. unfold line_records, line_match, startswith.
  rewrite prefix_app.
  change (path ++ ":" ++ ?r)%string with (path ++ String ":" r)%string.
  rewrite remainder_app, (fullmatch_line_col L C msg HL HC Hmsg).
  reflexivity.
Qed.

Lemma line_records_message (src : _Source.t) (style_of : string -> Style.t)
    (path L msg : string) :
  is_number L = true ->
  string_forallb is_dot msg = true ->
  line_records src style_of path (path ++ ":" ++ L ++ ": " ++ msg)
  = [mkAnnotation (number_value L) msg src (style_of msg)].
Proof.
  intros HL Hmsg. unfold line_records, line_match, startswith.
  rewrite prefix_app.
  change (path ++ ":" ++ ?r)%string with (path ++ String ":" r)%string.
  rewrite remainder_app.
  destruct (fullmatch_line_message L msg HL Hmsg) as [-> ->].
  reflexivity.
Qed.

(** The message of a report line holds no LF. *)
Lemma report_line_message (stream : string) (before after : list string)
    (prefix msg : string) :
  splitlines false stream = before ++ (prefix ++ msg)%string :: after ->
  string_forallb is_dot msg = true.
Proof.
  intros H. pose proof (splitlines_no_linebreak stream) as F.
  rewrite H in F. apply Forall_app in F. destruct F as [_ F].
  apply Forall_inv in F. rewrite string_forallb_app in F.
  apply andb_true_iff in F. destruct F as [_ F].
  now apply no_linebreak_is_dot.
Qed.

Lemma skipped_not_over_limit (path line : string) :
  skipped path line -> over_limit path line = false.
Proof.
  unfold skipped, over_limit, line_match.
  intros [H | [H1 H2]].
  - now rewrite H.
  - rewrite H1, H2. now destruct (startswith line path).
Qed.

Lemma existsb_none {A : Type} (p : A -> bool) (l : list A) :
  Forall (fun x => p x = false) l -> existsb p l = false.
Proof.
  induction 1 as [| x l Hx _ IH]; simpl; [reflexivity | now rewrite Hx].
Qed.

Lemma one_record_between (path stream : string) (before after : list string)
    (line msg : string)
    (record : _Source.t -> Style.t -> _AnalyzerAnnotation) :
  splitlines false stream = before ++ line :: after ->
  Forall (fun l => over_limit path l = false) (before ++ after) ->
  over_limit path line = false ->
  (forall src style_of,
      line_records src style_of path line = [record src (style_of msg)]) ->
  yields_one_record path stream before after record msg.
Proof.
  intros Hsplit Hrest Hover Hline.
  apply Forall_app in Hrest. destruct Hrest as [Hb Ha].
  apply existsb_none in Hb. apply existsb_none in Ha.
  assert (Hall : existsb (over_limit path) (before ++ line :: after) = false).
  { rewrite existsb_app. simpl. now rewrite Hb, Hover, Ha. }
  split.
  - intros style.
    exists (flat_map (line_records _Source.pyflakes (fun _ => style) path) before),
           (flat_map (line_records _Source.pyflakes (fun _ => style) path) after).
    unfold _get_annotations.
    rewrite Hsplit, !get_annotations_loop_eq, Hb, Ha, Hall.
    repeat split. simpl. rewrite flat_map_app. simpl.
    now rewrite (Hline _Source.pyflakes (fun _ => style)).
  - exists (flat_map (line_records _Source.flake8 get_style path) before),
           (flat_map (line_records _Source.flake8 get_style path) after).
    unfold _parse_flake8_output.
    rewrite Hsplit, !parse_flake8_output_loop_eq, Hb, Ha, Hall.
    repeat split. simpl. rewrite flat_map_app. simpl.
    now rewrite (Hline _Source.flake8 get_style).
Qed.

(** C3, as the spec words it, fails for a line number of more than 4300
    digits: [int] raises ValueError on it, and the parsers with it, so the
    line yields no record; nor does a line of the stated form that shares
    the report with such a line. *)
Lemma long_line_number_yields_no_record :
  let L := repeat_char "1" 4301 in
  let line := ("a.py:" ++ L ++ ": undefined name 'x'")%string in
  let stream := ("a.py:3:7: invalid syntax" ++ String LF line)%string in
  is_number L = true
  /\ splitlines false line = [line]
  /\ _get_annotations "a.py" line Style.warning = Raise int_limit_error
  /\ _parse_flake8_output "a.py" (Some line) = Raise int_limit_error
  /\ splitlines false stream = ["a.py:3:7: invalid syntax"; line]
  /\ _get_annotations "a.py" stream Style.warning = Raise int_limit_error
  /\ _parse_flake8_output "a.py" (Some stream) = Raise int_limit_error.
Proof. vm_compute. repeat split. Qed.

(** C3, amended: in a report whose matching lines all have line numbers
    that [int] converts (at most 4300 digits), a report line
    "path:L:C: msg" yields exactly one record, at line int(L) with the text
    "Col C: msg", and a report line "path:L: msg" yields exactly one record,
    at line int(L) with the text msg.  The record has the style passed to
    [_get_annotations], and the style of the message in
    [_parse_flake8_output]. *)
Theorem report_line_yields_one_record (path stream : string)
    (before after : list string) (line L : string) :
  splitlines false stream = before ++ line :: after ->
  is_number L = true ->
  within_int_limit L = true ->
  Forall (fun l => over_limit path l = false) (before ++ after) ->
  int L = Ok (number_value L)
  /\ (forall C msg,
         is_number C = true ->
         line = (path ++ ":" ++ L ++ ":" ++ C ++ ": " ++ msg)%string ->
         yields_one_record path stream before after
           (mkAnnotation (number_value L) ("Col " ++ C ++ ": " ++ msg)%string)
           msg)
  /\ (forall msg,
         line = (path ++ ":" ++ L ++ ": " ++ msg)%string ->
         yields_one_record path stream before after
           (mkAnnotation (number_value L) msg) msg).
Proof.
  intros Hsplit HL Hlim Hrest. split.
  { rewrite (int_is_number L HL). now rewrite Hlim. }
  split.
  - intros C msg HC ->.
    assert (Hmsg : string_forallb is_dot msg = true).
    { apply (report_line_message stream before after
               (path ++ ":" ++ L ++ ":" ++ C ++ ": ")%string msg).
      now rewrite Hsplit, !append_assoc. }
    apply (one_record_between path stream before after _ msg _ Hsplit Hrest).
    + unfold over_limit, line_match, startswith. rewrite prefix_app.
      change (path ++ ":" ++ ?r)%string with (path ++ String ":" r)%string.
      rewrite remainder_app, (fullmatch_line_col L C msg HL HC Hmsg).
      unfold group. simpl. now rewrite Hlim.
    + intros src style_of. now apply line_records_col.
  - intros msg ->.
    assert (Hmsg : string_forallb is_dot msg = true).
    { apply (report_line_message stream before after
               (path ++ ":" ++ L ++ ": ")%string msg).
      now rewrite Hsplit, !append_assoc. }
    apply (one_record_between path stream before after _ msg _ Hsplit Hrest).
    + unfold over_limit, line_match, startswith. rewrite prefix_app.
      change (path ++ ":" ++ ?r)%string with (path ++ String ":" r)%string.
      rewrite remainder_app.
      destruct (fullmatch_line_message L msg HL Hmsg) as [-> ->].
      unfold group. simpl. now rewrite Hlim.
    + intros src style_of. now apply line_records_message.
Qed.

Lemma report_line_yields_one_record_witness :
  let l1 := "a.py:3:7: undefined name 'x'" in
  let l2 := "a.py:12: W605 invalid escape sequence" in
  let stream := (l1 ++ String LF l2)%string in
  yields_one_record "a.py" stream [] [l2]
    (mkAnnotation (number_value "3") "Col 7: undefined name 'x'")
    "undefined name 'x'"
  /\ yields_one_record "a.py" stream [l1] []
       (mkAnnotation (number_value "12") "W605 invalid escape sequence")
       "W605 invalid escape sequence".
Proof.
  assert (H2 : Forall (fun l => over_limit "a.py" l = false)
                      ([] ++ ["a.py:12: W605 invalid escape sequence"]))
    by (constructor; [reflexivity | constructor]).
  assert (H1 : Forall (fun l => over_limit "a.py" l = false)
                      (["a.py:3:7: undefined name 'x'"] ++ []))
    by (constructor; [reflexivity | constructor]).
  split.
  - apply (proj1 (proj2 (report_line_yields_one_record
                           "a.py"
                           ("a.py:3:7: undefined name 'x'"
                            ++ String LF "a.py:12: W605 invalid escape sequence")
                           [] ["a.py:12: W605 invalid escape sequence"]
                           "a.py:3:7: undefined name 'x'" "3"
                           eq_refl eq_refl eq_refl H2))
             "7" "undefined name 'x'"); reflexivity.
  - apply (proj2 (proj2 (report_line_yields_one_record
                           "a.py"
                           ("a.py:3:7: undefined name 'x'"
                            ++ String LF "a.py:12: W605 invalid escape sequence")
                           ["a.py:3:7: undefined name 'x'"] []
                           "a.py:12: W605 invalid escape sequence" "12"
                           eq_refl eq_refl eq_refl H1))
             "W605 invalid escape sequence"); reflexivity.
Defined.

(** C4, as the spec words it, fails: on a matching line whose line number
    has more than 4300 digits [int] raises ValueError, and nothing in
    [_get_annotations] catches it. *)
Lemma get_annotations_fails_on_a_long_line_number :
  let stream := ("b.py:1: skipped" ++ String LF
                 ("a.py:" ++ repeat_char "7" 4301 ++ ":1: invalid syntax"))%string in
  _get_annotations "a.py" stream Style.error = Raise int_limit_error.
Proof. vm_compute. reflexivity. Qed.

(** C4, amended: [_get_annotations] returns a list unless [int] raises on a
    matching line (a line number of more than 4300 digits); that is the
    only way it fails.  A line that does not start with the path, or whose
    remainder matches neither pattern, is passed over: the call does what
    it does without that line, and when it returns, its list is what the
    lines before give followed by what the lines after give. *)
Theorem get_annotations_fails_only_in_int (path stream : string)
    (style : Style.t) :
  (existsb (over_limit path) (splitlines false stream) = false ->
   exists annotations, _get_annotations path stream style = Ok annotations)
  /\ (existsb (over_limit path) (splitlines false stream) = true ->
      _get_annotations path stream style = Raise int_limit_error)
  /\ forall before line after,
      splitlines false stream = before ++ line :: after ->
      skipped path line ->
      _get_annotations path stream style
      = _get_annotations_loop path style (before ++ after) []
      /\ forall annotations,
          _get_annotations path stream style = Ok annotations ->
          exists a1 a2,
            _get_annotations_loop path style before [] = Ok a1
            /\ _get_annotations_loop path style after [] = Ok a2
            /\ annotations = a1 ++ a2.
Proof.
  unfold _get_annotations. rewrite get_annotations_loop_eq.
  split; [| split].
  - intros ->. eexists. reflexivity.
  - now intros ->.
  - intros before line after Hsplit Hskip.
    rewrite Hsplit, !get_annotations_loop_eq, !existsb_app, !flat_map_app.
    simpl.
    rewrite (skipped_line_records _ _ _ _ Hskip),
            (skipped_not_over_limit _ _ Hskip).
    simpl. split; [reflexivity |].
    intros annotations.
    destruct (existsb (over_limit path) before); [discriminate |].
    destruct (existsb (over_limit path) after); [discriminate |].
    simpl. intros H. injection H as <-.
    now eexists; eexists.
Qed.

Lemma get_annotations_fails_only_in_int_witness :
  let l1 := "a.py:3:7: undefined name 'x'" in
  let l2 := "b.py:4:1: unused" in
  let l3 := "a.py:five: no number" in
  let stream := (l1 ++ String LF l2 ++ String LF l3)%string in
  (exists annotations,
      _get_annotations "a.py" stream Style.warning = Ok annotations)
  /\ _get_annotations "a.py" stream Style.warning
     = _get_annotations_loop "a.py" Style.warning [l1; l3] []
  /\ _get_annotations "a.py" stream Style.warning
     = _get_annotations_loop "a.py" Style.warning [l1; l2] [].
Proof.
  intros l1 l2 l3 stream.
  destruct (get_annotations_fails_only_in_int "a.py" stream Style.warning)
    as [Hok [_ Hskip]].
  split; [apply Hok; reflexivity |]. split.
  - apply (Hskip [l1] l2 [l3]); [reflexivity | left; reflexivity].
  - apply (Hskip [l1; l2] l3 []); [reflexivity | right; split; reflexivity].
Defined.

(** ** The records of the three parsers *)

Lemma line_records_shape (src : _Source.t) (style_of : string -> Style.t)
    (path line : string) :
  Forall (fun a => source a = src /\ exists msg, style a = style_of msg)
         (line_records src style_of path line).
Proof.
  unfold line_records. destruct (line_match path line) as [m |];
    constructor; [| constructor].
  unfold record_of_match. destruct (lastindex m =? 3)%nat; simpl;
    (split; [reflexivity | eexists; reflexivity]).
Qed.

Lemma flat_line_records_shape (src : _Source.t) (style_of : string -> Style.t)
    (path : string) (lines : list string) :
  Forall (fun a => source a = src /\ exists msg, style a = style_of msg)
         (flat_map (line_records src style_of path) lines).
Proof.
  apply Forall_flat_map. apply Forall_forall. intros l _.
  apply line_records_shape.
Qed.

Lemma get_annotations_shape (path stream : string) (st : Style.t)
    (annotations : list _AnalyzerAnnotation) :
  _get_annotations path stream st = Ok annotations ->
  Forall (fun a => source a = _Source.pyflakes /\ style a = st) annotations.
Proof.
  unfold _get_annotations. intros H.
  apply get_annotations_loop_ok in H. destruct H as [_ ->]. simpl.
  eapply Forall_impl;
    [| apply (flat_line_records_shape _Source.pyflakes (fun _ => st))].
  intros a [Hs [_ Hst]]. now split.
Qed.

(** [_pyflakes_annotations]: one call of pyflakes, then the two streams are
    read, the warnings first; a failure to read one is not caught. *)
Lemma pyflakes_annotations_run (h : Host) (path text : string) (s : state) :
  _pyflakes_annotations h path text s
  = (match _get_annotations path (fst (pyflakes_reporter h text path))
                            Style.warning with
     | Ok warnings =>
         match _get_annotations path (snd (pyflakes_reporter h text path))
                                Style.error with
         | Ok errors => Ok (warnings ++ errors)
         | Raise e => Raise e
         end
     | Raise e => Raise e
     end,
     mkState (trace s ++ [pyflakes_check text path]) (output_file s)).
Proof.
  unfold _pyflakes_annotations, bind, call, lift, ret.
  destruct (pyflakes_reporter h text path) as [ws es]. simpl.
  destruct (_get_annotations path ws Style.warning); [| reflexivity].
  now destruct (_get_annotations path es Style.error).
Qed.

Lemma parse_flake8_output_shape (path : string) (output : option string)
    (annotations : list _AnalyzerAnnotation) :
  _parse_flake8_output path output = Ok annotations ->
  Forall (fun a => source a = _Source.flake8
                   /\ exists msg, style a = get_style msg) annotations.
Proof.
  unfold _parse_flake8_output. destruct output as [report |]; [| discriminate].
  intros H. apply parse_flake8_output_loop_ok in H. destruct H as [_ ->].
  apply flat_line_records_shape.
Qed.

(** C10: a record is a line number, a text, a linter and a style; the pep8
    adapter builds pep8 records, [_get_annotations] (for pyflakes) builds
    pyflakes records and [_parse_flake8_output] builds flake8 records, each
    with a style that is warning or error. *)
Theorem parsers_build_common_records :
  (forall a : _AnalyzerAnnotation,
      a = mkAnnotation (line a) (text a) (source a) (style a)
      /\ (source a = _Source.pep8 \/ source a = _Source.pyflakes
          \/ source a = _Source.flake8)
      /\ (style a = Style.warning \/ style a = Style.error))
  /\ (forall annotations call,
         Forall (fun a => source a = _Source.pep8) annotations ->
         Forall (fun a => source a = _Source.pep8)
                (_Pep8AnnotationReport_error annotations call))
  /\ (forall h text ignore max_line_length s annotations s',
         _pep8_annotations h text ignore max_line_length s
         = (Ok annotations, s') ->
         Forall (fun a => source a = _Source.pep8) annotations)
  /\ (forall path stream st annotations,
         _get_annotations path stream st = Ok annotations ->
         Forall (fun a => source a = _Source.pyflakes /\ style a = st)
                annotations)
  /\ (forall h path text s annotations s',
         _pyflakes_annotations h path text s = (Ok annotations, s') ->
         Forall (fun a => source a = _Source.pyflakes) annotations)
  /\ (forall path output annotations,
         _parse_flake8_output path output = Ok annotations ->
         Forall (fun a => source a = _Source.flake8) annotations).
Proof.
  split; [| split; [| split; [| split; [| split]]]].
  - intros [n t src st]. split; [reflexivity |].
    split; [destruct src | destruct st]; auto.
  - intros annotations c H.
    now apply Pep8AnnotationReport_error_keeps.
  - intros h text ignore mll s annotations s' H.
    destruct (pep8_annotations_run h text ignore mll s) as [calls E].
    rewrite E in H. injection H as <- _.
    apply pep8_report_fold; [reflexivity | constructor].
  - intros path stream st annotations H.
    exact (get_annotations_shape path stream st annotations H).
  - intros h path text s annotations s' H.
    rewrite pyflakes_annotations_run in H.
    destruct (_get_annotations path (fst (pyflakes_reporter h text path))
                               Style.warning) as [ws |] eqn:Ew;
      [| discriminate H].
    destruct (_get_annotations path (snd (pyflakes_reporter h text path))
                               Style.error) as [es |] eqn:Ee;
      [| discriminate H].
    injection H as <- _.
    apply Forall_app. split;
      (eapply Forall_impl; [| eapply get_annotations_shape; eassumption]);
      intros a [Hs _]; exact Hs.
  - intros path output annotations H.
    eapply Forall_impl; [| apply (parse_flake8_output_shape _ _ _ H)].
    intros a [Hs _]; exact Hs.
Qed.

Lemma parsers_build_common_records_witness :
  Forall (fun a => source a = _Source.pyflakes /\ style a = Style.error)
         [mkAnnotation 3 "Col 7: invalid syntax" _Source.pyflakes Style.error]
  /\ Forall (fun a => source a = _Source.flake8)
            [mkAnnotation 3 "Col 7: E225 missing whitespace" _Source.flake8
                          Style.error;
             mkAnnotation 9 "W291 trailing whitespace" _Source.flake8
                          Style.warning].
Proof.
  split.
  - apply (proj1 (proj2 (proj2 (proj2 parsers_build_common_records)))
             "a.py" "a.py:3:7: invalid syntax" Style.error).
    reflexivity.
  - apply (proj2 (proj2 (proj2 (proj2 (proj2 parsers_build_common_records))))
             "a.py"
             (Some ("a.py:3:7: E225 missing whitespace"
                    ++ String LF "a.py:9: W291 trailing whitespace")%string)).
    reflexivity.
Defined.

(** ** flake8 runs *)

Lemma state_eta (s : state) : mkState (trace s) (output_file s) = s.
Proof. now destruct s. Qed.

Lemma flake8_run_one_eq (h : Host) (path file : string) (o : list string)
    (acc : list _AnalyzerAnnotation) (s : state) :
  _flake8_run_one h path file o acc s
  = let s1 := invoked s (flake8_argv path file o) in
    match flake8_application h (flake8_argv path file o) s1 with
    | (Some e, f) => (Raise e, mkState (trace s1) f)
    | (None, f) =>
        match _parse_flake8_output path f with
        | Ok found => (Ok (acc ++ found), mkState (trace s1) f)
        | Raise e => (Raise e, mkState (trace s1) f)
        end
    end.
Proof.
  unfold _flake8_run_one, bind, remove_if_exists, call, invoked, flake8_argv.
  simpl.
  destruct (flake8_application h _ _) as [[e |] f]; reflexivity.
Qed.

Lemma parse_flake8_output_cases (path : string) (f : option string) :
  (exists found, _parse_flake8_output path f = Ok found)
  \/ (exists e, _parse_flake8_output path f = Raise e
                /\ exn_is_Exception e = true).
Proof.
  destruct f as [report |]; simpl.
  - rewrite parse_flake8_output_loop_eq.
    destruct (existsb _ _); [right | left]; eexists; [split |]; reflexivity.
  - right. eexists. split; reflexivity.
Qed.

(** One turn of the loop when the run raises an [Exception]. *)
Lemma flake8_loop_raised (h : Host) (path file : string) (o : list string)
    (after : list (list string)) (acc : list _AnalyzerAnnotation) (s : state)
    (e : exn) (f : option string) :
  flake8_application h (flake8_argv path file o)
                     (invoked s (flake8_argv path file o)) = (Some e, f) ->
  exn_is_Exception e = true ->
  _flake8_annotations_loop h path file (o :: after) acc s
  = _flake8_annotations_loop h path file after acc
      (logged (invoked s (flake8_argv path file o)) e f).
Proof.
  intros Happ He. simpl. unfold bind at 1, try_except.
  rewrite flake8_run_one_eq. simpl. rewrite Happ, He.
  unfold bind, call, ret. reflexivity.
Qed.

(** One turn of the loop when the run returns and its report is read. *)
Lemma flake8_loop_returned (h : Host) (path file : string) (o : list string)
    (after : list (list string)) (acc found : list _AnalyzerAnnotation)
    (s : state) (f : option string) :
  flake8_application h (flake8_argv path file o)
                     (invoked s (flake8_argv path file o)) = (None, f) ->
  _parse_flake8_output path f = Ok found ->
  _flake8_annotations_loop h path file (o :: after) acc s
  = _flake8_annotations_loop h path file after (acc ++ found)
      (mkState (trace (invoked s (flake8_argv path file o))) f).
Proof.
  intros Happ Hparse. simpl. unfold bind at 1, try_except.
  rewrite flake8_run_one_eq. simpl. rewrite Happ, Hparse. reflexivity.
Qed.

(** One turn of the loop when the run returns and the report cannot be
    read. *)
Lemma flake8_loop_unread (h : Host) (path file : string) (o : list string)
    (after : list (list string)) (acc : list _AnalyzerAnnotation)
    (s : state) (f : option string) (e : exn) :
  flake8_application h (flake8_argv path file o)
                     (invoked s (flake8_argv path file o)) = (None, f) ->
  _parse_flake8_output path f = Raise e ->
  exn_is_Exception e = true ->
  _flake8_annotations_loop h path file (o :: after) acc s
  = _flake8_annotations_loop h path file after acc
      (logged (invoked s (flake8_argv path file o)) e f).
Proof.
  intros Happ Hparse He. simpl. unfold bind at 1, try_except.
  rewrite flake8_run_one_eq. simpl. rewrite Happ, Hparse, He.
  unfold bind, call, ret. reflexivity.
Qed.

(** When flake8 raises nothing but [Exception]s the loop returns: what it
    adds to [annotations] and what it does to the state do not depend on
    the list it starts with; every option set is run. *)
Lemma flake8_loop_total (h : Host) (path file : string) :
  raises_only_Exception h ->
  forall options s,
  exists found events f',
    (forall acc,
        _flake8_annotations_loop h path file options acc s
        = (Ok (acc ++ found), mkState (trace s ++ events) f'))
    /\ (forall o, In o options ->
                  In (flake8_run (flake8_argv path file o)) events)
    /\ ((forall argv st, exists e f, flake8_application h argv st = (Some e, f))
        -> found = [])
    /\ (forall e, In e events ->
                  (exists argv, e = flake8_run argv)
                  \/ (exists msg, e = log_error msg)).
Proof.
  intros Hexn options. induction options as [| o options IH]; intros s.
  - exists [], [], (output_file s). repeat split.
    + intros acc. simpl. unfold ret.
      now rewrite !app_nil_r, state_eta.
    + intros o [].
    + intros e [].
  - set (argv := flake8_argv path file o).
    destruct (flake8_application h argv (invoked s argv)) as [[e |] f] eqn:Happ.
    + (* the run raises *)
      pose proof (Hexn _ _ _ _ Happ) as He.
      destruct (IH (logged (invoked s argv) e f))
        as [found [events [f' [Hrun [Hall [Hnone Hkind]]]]]].
      exists found,
        (flake8_run argv
           :: log_error ("flake8 failed: " ++ exn_str e)%string :: events), f'.
      split; [| split; [| split]].
      * intros acc.
        rewrite (flake8_loop_raised h path file o options acc s e f Happ He).
        rewrite Hrun. unfold logged, invoked. simpl.
        now rewrite <- !app_assoc.
      * intros o' [<- | Hin]; [now left | right; right; now apply Hall].
      * exact Hnone.
      * intros e' [<- | [<- | Hin]]; [left | right | now apply Hkind];
          eexists; reflexivity.
    + (* the run returns *)
      destruct (parse_flake8_output_cases path f) as [[found Hp] | [e [Hp He]]].
      * destruct (IH (mkState (trace (invoked s argv)) f))
          as [found' [events [f' [Hrun [Hall [Hnone Hkind]]]]]].
        exists (found ++ found'), (flake8_run argv :: events), f'.
        split; [| split; [| split]].
        -- intros acc.
           rewrite (flake8_loop_returned h path file o options acc found s f
                      Happ Hp).
           rewrite Hrun. unfold invoked. simpl.
           now rewrite <- !app_assoc.
        -- intros o' [<- | Hin]; [now left | right; now apply Hall].
        -- intros Hfail. destruct (Hfail argv (invoked s argv)) as [e [f0 E]].
           congruence.
        -- intros e' [<- | Hin]; [left; eexists; reflexivity | now apply Hkind].
      * destruct (IH (logged (invoked s argv) e f))
          as [found [events [f' [Hrun [Hall [Hnone Hkind]]]]]].
        exists found,
          (flake8_run argv
             :: log_error ("flake8 failed: " ++ exn_str e)%string :: events), f'.
        split; [| split; [| split]].
        -- intros acc.
           rewrite (flake8_loop_unread h path file o options acc s f e
                      Happ Hp He).
           rewrite Hrun. unfold logged, invoked. simpl.
           now rewrite <- !app_assoc.
        -- intros o' [<- | Hin]; [now left | right; right; now apply Hall].
        -- exact Hnone.
        -- intros e' [<- | [<- | Hin]]; [left | right | now apply Hkind];
             eexists; reflexivity.
Qed.

(** The loop over [before ++ rest] is the loop over [before] followed by
    the loop over [rest]. *)
Lemma flake8_loop_app (h : Host) (path file : string)
    (before rest : list (list string)) :
  forall acc s,
    _flake8_annotations_loop h path file (before ++ rest) acc s
    = match _flake8_annotations_loop h path file before acc s with
      | (Ok a, s1) => _flake8_annotations_loop h path file rest a s1
      | (Raise e, s1) => (Raise e, s1)
      end.
Proof.
  induction before as [| o before IH]; intros acc s.
  - reflexivity.
  - simpl. unfold bind at 1 3.
    destruct (try_except _ _ s) as [[a | e] s1]; [apply IH | reflexivity].
Qed.

(** C5, as the spec words it, fails for an exception outside [Exception]:
    when flake8 leaves with SystemExit (as it does on an option it cannot
    parse) nothing is logged, the second option set is not run and no list
    is returned. *)
Lemma flake8_SystemExit_is_not_caught :
  let SystemExit := mkExn false "2" in
  let h := sample_host (Some "a.py") None
                       (fun _ _ => (Some SystemExit, None)) in
  _flake8_annotations h "/abs/a.py" [["--bad"]; []] (mkState [] None)
  = (Raise SystemExit,
     mkState [flake8_run ["/abs/a.py"; "--bad"; "-j"; "0";
                          "--output-file=/tmp/blackmamba.flake8.txt"]]
             None).
Proof. reflexivity. Qed.

(** C5, amended: when the temporary directory is known and flake8 raises
    nothing but instances of [Exception], [_flake8_annotations] returns a
    list whatever the runs do.  Every option set is run.  A run that raises
    is logged and adds nothing: the list is what the runs before it
    collected followed by what the runs after it collect, and those start
    from the state the handler leaves.  A run that returns adds the records
    of its report.  If all runs raise the list is empty. *)
Theorem flake8_failures_are_logged (h : Host) (path file : string)
    (options : list (list string)) (s : state) :
  os_path_join (_tmp h) "blackmamba.flake8.txt" = Ok file ->
  raises_only_Exception h ->
  exists annotations s',
    _flake8_annotations h path options s = (Ok annotations, s')
    /\ (forall o, In o options ->
                  In (flake8_run (flake8_argv path file o)) (trace s'))
    /\ ((forall argv st, exists e f, flake8_application h argv st = (Some e, f))
        -> annotations = [])
    /\ forall before o after,
        options = before ++ o :: after ->
        exists a1 s1,
          _flake8_annotations_loop h path file before [] s = (Ok a1, s1)
          /\ (forall e f,
                 flake8_application h (flake8_argv path file o)
                                    (invoked s1 (flake8_argv path file o))
                 = (Some e, f) ->
                 exists a2 s2,
                   _flake8_annotations_loop h path file after []
                     (logged (invoked s1 (flake8_argv path file o)) e f)
                   = (Ok a2, s2)
                   /\ annotations = a1 ++ a2
                   /\ trace s' = trace s2)
          /\ (forall f found,
                 flake8_application h (flake8_argv path file o)
                                    (invoked s1 (flake8_argv path file o))
                 = (None, f) ->
                 _parse_flake8_output path f = Ok found ->
                 exists a2 s2,
                   _flake8_annotations_loop h path file after []
                     (mkState (trace (invoked s1 (flake8_argv path file o))) f)
                   = (Ok a2, s2)
                   /\ annotations = a1 ++ found ++ a2
                   /\ trace s' = trace s2).
Proof.
  intros Hfile Hexn.
  destruct (flake8_loop_total h path file Hexn options s)
    as [found [events [f' [Hrun [Hall [Hnone _]]]]]].
  exists found, (mkState (trace s ++ events) None).
  split; [| split; [| split]].
  - unfold _flake8_annotations, bind, lift, remove_if_exists, ret.
    rewrite Hfile, Hrun. reflexivity.
  - intros o Hin. simpl. apply in_or_app. right. now apply Hall.
  - exact Hnone.
  - intros before o after ->.
    destruct (flake8_loop_total h path file Hexn before s)
      as [a1 [ev1 [f1 [Hrun1 _]]]].
    exists a1, (mkState (trace s ++ ev1) f1).
    pose proof (Hrun1 []) as Hbefore. simpl in Hbefore.
    split; [exact Hbefore |].
    pose proof (Hrun []) as Hwhole.
    rewrite flake8_loop_app, Hbefore in Hwhole. cbv beta iota in Hwhole.
    split.
    + intros e f Happ.
      rewrite (flake8_loop_raised h path file o after a1 _ e f Happ
                 (Hexn _ _ _ _ Happ)) in Hwhole.
      destruct (flake8_loop_total h path file Hexn after
                  (logged (invoked (mkState (trace s ++ ev1) f1)
                                   (flake8_argv path file o)) e f))
        as [a2 [ev2 [f2 [Hrun2 _]]]].
      rewrite Hrun2 in Hwhole. injection Hwhole as Ha Ht _.
      eexists. eexists. split; [exact (Hrun2 []) |].
      split; [now symmetry | simpl; now symmetry].
    + intros f found0 Happ Hparse.
      rewrite (flake8_loop_returned h path file o after a1 found0 _ f Happ
                 Hparse) in Hwhole.
      destruct (flake8_loop_total h path file Hexn after
                  (mkState (trace (invoked (mkState (trace s ++ ev1) f1)
                                           (flake8_argv path file o))) f))
        as [a2 [ev2 [f2 [Hrun2 _]]]].
      rewrite Hrun2 in Hwhole. injection Hwhole as Ha Ht _.
      eexists. eexists. split; [exact (Hrun2 []) |].
      split; [rewrite app_assoc; now symmetry | simpl; now symmetry].
Qed.

Lemma flake8_failures_are_logged_witness :
  let h := sample_host (Some "a.py") None
             (fun argv _ =>
                match argv with
                | [_; _; _; _] =>
                    (None, Some "/abs/a.py:2:1: W291 trailing whitespace")
                | _ => (Some (mkExn true "no such option"), None)
                end) in
  exists annotations s',
    _flake8_annotations h "/abs/a.py" [["--bad"]; []] (mkState [] None)
    = (Ok annotations, s')
    /\ In (flake8_run (flake8_argv "/abs/a.py" "/tmp/blackmamba.flake8.txt" []))
          (trace s')
    /\ exists a1 s1 a2 s2,
        _flake8_annotations_loop h "/abs/a.py" "/tmp/blackmamba.flake8.txt"
                                 [] [] (mkState [] None) = (Ok a1, s1)
        /\ _flake8_annotations_loop h "/abs/a.py" "/tmp/blackmamba.flake8.txt"
             [[]] []
             (logged (invoked s1 (flake8_argv "/abs/a.py"
                                              "/tmp/blackmamba.flake8.txt"
                                              ["--bad"]))
                     (mkExn true "no such option") None)
           = (Ok a2, s2)
        /\ annotations = a1 ++ a2.
Proof.
  intros h.
  assert (Hexn : raises_only_Exception h).
  { intros argv s e f H. unfold h, sample_host in H. simpl in H.
    destruct argv as [| ? [| ? [| ? [| ? [| ? ?]]]]];
      try discriminate H; injection H as <- _; reflexivity. }
  destruct (flake8_failures_are_logged
              h "/abs/a.py" "/tmp/blackmamba.flake8.txt" [["--bad"]; []]
              (mkState [] None) eq_refl Hexn)
    as [annotations [s' [E [Hruns [_ Hsplit]]]]].
  exists annotations, s'. split; [exact E |].
  split; [apply Hruns; right; left; reflexivity |].
  destruct (Hsplit [] ["--bad"] [[]] eq_refl) as [a1 [s1 [E1 [Hraised _]]]].
  injection E1 as <- <-.
  destruct (Hraised (mkExn true "no such option") None eq_refl)
    as [a2 [s2 [E2 [Ha _]]]].
  exists [], (mkState [] None), a2, s2.
  split; [reflexivity | split; [exact E2 | exact Ha]].
Defined.

(** ** The stages of main *)

Lemma editor_text_run (h : Host) (s : state) :
  exists text events,
    _editor_text h s = (Ok text, mkState (trace s ++ events) (output_file s))
    /\ Forall (fun e => is_preparation e = true) events.
Proof.
  unfold _editor_text, bind, call, ret.
  destruct (_remove_whitespaces h); simpl;
    eexists; eexists; rewrite <- !app_assoc; simpl;
    (split; [reflexivity | repeat constructor]).
Qed.

(** The flake8 loop leaves runs and log entries on the trace, also when an
    exception ends it; it enters flake8 for its first option set. *)
Lemma flake8_loop_events (h : Host) (path file : string) :
  forall options acc s,
  exists r events f',
    _flake8_annotations_loop h path file options acc s
    = (r, mkState (trace s ++ events) f')
    /\ Forall (fun e => is_flake8_run e = true
                        \/ exists msg, e = log_error msg) events
    /\ (options <> [] -> exists argv, In (flake8_run argv) events).
Proof.
  induction options as [| o options IH]; intros acc s.
  - exists (Ok acc), [], (output_file s). simpl. unfold ret.
    rewrite app_nil_r, state_eta.
    split; [reflexivity | split; [constructor | congruence]].
  - set (argv := flake8_argv path file o).
    assert (Hrun : forall e f a,
               exists r events f',
                 _flake8_annotations_loop h path file options a
                   (logged (invoked s argv) e f)
                 = (r, mkState (trace s ++ events) f')
                 /\ Forall (fun e => is_flake8_run e = true
                                     \/ exists msg, e = log_error msg) events
                 /\ exists argv, In (flake8_run argv) events).
    { intros e f a.
      destruct (IH a (logged (invoked s argv) e f))
        as [r [events [f' [E [Hk _]]]]].
      exists r,
        (flake8_run argv
           :: log_error ("flake8 failed: " ++ exn_str e)%string :: events), f'.
      split; [| split].
      - rewrite E. unfold logged, invoked. simpl. now rewrite <- !app_assoc.
      - constructor; [now left |].
        constructor; [right; eexists; reflexivity | exact Hk].
      - exists argv. now left. }
    assert (Hstop : forall (e : exn) (f : option string),
               exists (r : result (list _AnalyzerAnnotation)) events f',
                 (Raise e, mkState (trace (invoked s argv)) f)
                 = (r, mkState (trace s ++ events) f')
                 /\ Forall (fun e => is_flake8_run e = true
                                     \/ exists msg, e = log_error msg) events
                 /\ exists argv, In (flake8_run argv) events).
    { intros e f. exists (Raise e), [flake8_run argv], f.
      split; [reflexivity | split].
      - constructor; [now left | constructor].
      - exists argv. now left. }
    destruct (flake8_application h argv (invoked s argv)) as [[e |] f] eqn:Happ.
    + destruct (exn_is_Exception e) eqn:He.
      * rewrite (flake8_loop_raised h path file o options acc s e f Happ He).
        destruct (Hrun e f acc) as [r [events [f' [E [Hk Hin]]]]].
        exists r, events, f'. split; [exact E | split; [exact Hk | now intros _]].
      * destruct (Hstop e f) as [r [events [f' [E [Hk Hin]]]]].
        exists r, events, f'. split; [| split; [exact Hk | now intros _]].
        rewrite <- E. simpl. unfold bind at 1, try_except.
        rewrite flake8_run_one_eq. simpl. fold argv. now rewrite Happ, He.
    + destruct (_parse_flake8_output path f) as [found | e] eqn:Hp.
      * rewrite (flake8_loop_returned h path file o options acc found s f
                   Happ Hp).
        destruct (IH (acc ++ found) (mkState (trace (invoked s argv)) f))
          as [r [events [f' [E [Hk _]]]]].
        exists r, (flake8_run argv :: events), f'. split; [| split].
        -- fold argv. rewrite E. unfold invoked. simpl.
           now rewrite <- !app_assoc.
        -- constructor; [now left | exact Hk].
        -- intros _. exists argv. now left.
      * destruct (exn_is_Exception e) eqn:He.
        -- rewrite (flake8_loop_unread h path file o options acc s f e
                      Happ Hp He).
           destruct (Hrun e f acc) as [r [events [f' [E [Hk Hin]]]]].
           exists r, events, f'.
           split; [exact E | split; [exact Hk | now intros _]].
        -- destruct (Hstop e f) as [r [events [f' [E [Hk Hin]]]]].
           exists r, events, f'. split; [| split; [exact Hk | now intros _]].
           rewrite <- E. simpl. unfold bind at 1, try_except.
           rewrite flake8_run_one_eq. simpl. fold argv.
           now rewrite Happ, Hp, He.
Qed.

Lemma flake8_annotations_events (h : Host) (path : string)
    (options : list (list string)) (s : state) :
  exists r events f',
    _flake8_annotations h path options s = (r, mkState (trace s ++ events) f')
    /\ Forall (fun e => is_flake8_run e = true
                        \/ exists msg, e = log_error msg) events
    /\ (options <> [] -> _tmp h <> None ->
        exists argv, In (flake8_run argv) events).
Proof.
  unfold _flake8_annotations, bind at 1, lift.
  destruct (os_path_join (_tmp h) "blackmamba.flake8.txt") as [file | e] eqn:Ej.
  - destruct (flake8_loop_events h path file options [] s)
      as [r [events [f' [E [Hk Hin]]]]].
    unfold bind at 1. rewrite E.
    destruct r as [a | e].
    + exists (Ok a), events, None.
      split; [reflexivity | split; [exact Hk | intros Ho _; now apply Hin]].
    + exists (Raise e), events, f'.
      split; [reflexivity | split; [exact Hk | intros Ho _; now apply Hin]].
  - exists (Raise e), [], (output_file s).
    rewrite app_nil_r, state_eta.
    split; [reflexivity | split; [constructor |]].
    intros _ Htmp. unfold os_path_join in Ej.
    destruct (_tmp h) as [[| c d] |]; [discriminate Ej | | now elim Htmp].
    now destruct (endswith (String c d) "/").
Qed.

Lemma main_annotations_events (h : Host) (path text : string) (s : state) :
  exists r events f',
    main_annotations h path text s = (r, mkState (trace s ++ events) f')
    /\ Forall (fun e => is_linter_stage e = true) events
    /\ (options_truthy (config_flake8 h) = true ->
        Forall (fun e => is_pep8_run e = false /\ is_pyflakes_run e = false)
               events
        /\ (_tmp h <> None -> exists argv, In (flake8_run argv) events))
    /\ (options_truthy (config_flake8 h) = false ->
        events = [pep8_check_all (splitlines true text);
                  pyflakes_check text path]).
Proof.
  unfold main_annotations.
  destruct (options_truthy (config_flake8 h)) eqn:Ht.
  - destruct (flake8_annotations_events h (os_path_abspath h path)
                (options_list (config_flake8 h)) s)
      as [r [events [f' [E [Hk Hin]]]]].
    exists r, events, f'. split; [exact E |].
    split; [| split; [intros _; split | discriminate]].
    + eapply Forall_impl; [| exact Hk].
      intros e [He | [msg ->]]; [now destruct e | reflexivity].
    + eapply Forall_impl; [| exact Hk].
      intros e [He | [msg ->]]; [now destruct e | now split].
    + apply Hin. destruct (config_flake8 h) as [[| o l] |];
        simpl in *; congruence.
  - destruct (pep8_annotations_run h text (Some (_ignore_codes h))
                (Some (_max_line_length h)) s) as [calls E].
    unfold bind at 1. rewrite E.
    unfold bind at 1. rewrite pyflakes_annotations_run.
    destruct (_get_annotations path (fst (pyflakes_reporter h text path))
                               Style.warning) as [ws | e].
    2: { exists (Raise e). eexists. eexists. simpl.
         split; [rewrite <- app_assoc; reflexivity |].
         split; [repeat constructor | split; [discriminate | reflexivity]]. }
    destruct (_get_annotations path (snd (pyflakes_reporter h text path))
                               Style.error) as [es | e].
    2: { exists (Raise e). eexists. eexists. simpl.
         split; [rewrite <- app_assoc; reflexivity |].
         split; [repeat constructor | split; [discriminate | reflexivity]]. }
    eexists. eexists. eexists. simpl. split; [| split; [| split]].
    + unfold ret. rewrite <- app_assoc. reflexivity.
    + repeat constructor.
    + discriminate.
    + reflexivity.
Qed.

Lemma annotate_groups_events (groups : list (Z * list _AnalyzerAnnotation)) :
  forall scroll s,
  exists r events,
    annotate_groups groups scroll s
    = (r, mkState (trace s ++ events) (output_file s))
    /\ Forall (fun e => is_annotation e = true) events.
Proof.
  induction groups as [| [l a] groups IH]; intros scroll s; simpl.
  - exists (Ok tt), []. unfold ret. rewrite app_nil_r, state_eta.
    split; [reflexivity | constructor].
  - unfold bind at 1, _annotate.
    destruct (sorted __lt__ true a) as [| first rest].
    + exists (Raise (IndexError "list index out of range")), [].
      unfold raise. rewrite app_nil_r, state_eta.
      split; [reflexivity | constructor].
    + unfold call.
      match goal with
      | |- context [annotate_groups groups false ?s1] =>
          destruct (IH false s1) as [r [events [E Hk]]]
      end.
      rewrite E. simpl. eexists. eexists. split.
      * rewrite <- app_assoc. reflexivity.
      * constructor; [reflexivity | exact Hk].
Qed.

Lemma main_report_events (h : Host) (selection : option (Z * Z))
    (annotations : list _AnalyzerAnnotation) (s : state) :
  exists r events,
    main_report h selection annotations s
    = (r, mkState (trace s ++ events) (output_file s))
    /\ Forall (fun e => is_report e = true) events.
Proof.
  unfold main_report. destruct annotations as [| a annotations].
  - unfold bind, call, ret.
    destruct selection as [[start stop] |]; simpl;
      eexists; eexists; rewrite <- ?app_assoc;
      (split; [reflexivity | repeat constructor]).
  - destruct (annotate_groups_events
                (groupby (sorted_key line (a :: annotations)) line) true s)
      as [r [events [E Hk]]].
    exists r, events. split; [exact E |].
    eapply Forall_impl; [| exact Hk]. intros e He. now destruct e.
Qed.

(** [main] on a Python file: the path is read, the annotations are cleared,
    the text is fetched and saved, the linters run, the result is shown. *)
Lemma main_stages (h : Host) (s : state) (path : string) :
  host_path h = Some path ->
  python_file h = true ->
  exists r prepare lint emit f',
    main h s
    = (r, mkState (trace s
                   ++ [editor_get_path; editor_clear_annotations]
                   ++ prepare ++ lint ++ emit) f')
    /\ Forall (fun e => is_preparation e = true) prepare
    /\ Forall (fun e => is_linter_stage e = true) lint
    /\ Forall (fun e => is_report e = true) emit
    /\ (options_truthy (config_flake8 h) = true ->
        Forall (fun e => is_pep8_run e = false /\ is_pyflakes_run e = false)
               lint
        /\ (_tmp h <> None -> exists argv, In (flake8_run argv) lint))
    /\ (options_truthy (config_flake8 h) = false ->
        exists text,
          lint = [pep8_check_all (splitlines true text);
                  pyflakes_check text path]).
Proof.
  intros Hpath Hpy. unfold python_file in Hpy. rewrite Hpath in Hpy.
  destruct path as [| c p]; [discriminate Hpy |].
  unfold main. rewrite Hpath, Hpy. simpl negb. cbv iota.
  unfold bind at 1, call at 1. cbv beta iota.
  unfold bind at 1, call at 1. cbv beta iota.
  unfold bind at 1, call at 1. cbv beta iota.
  match goal with
  | |- context [bind (_editor_text h) _ ?s1] =>
      destruct (editor_text_run h s1) as [text [ev1 [E1 H1]]];
      unfold bind at 1; rewrite E1
  end.
  match goal with
  | |- context [bind (main_annotations h ?q text) _ ?s2] =>
      destruct (main_annotations_events h q text s2)
        as [r [ev2 [f2 [E2 [H2 [Ht Hf]]]]]];
      unfold bind at 1; rewrite E2
  end.
  destruct r as [annotations | e].
  - match goal with
    | |- context [main_report h ?sel annotations ?s3] =>
        destruct (main_report_events h sel annotations s3)
          as [r [ev3 [E3 H3]]];
        rewrite E3
    end.
    exists r, (editor_get_selection :: ev1), ev2, ev3, f2.
    split; [| split; [| split; [| split; [| split]]]].
    + simpl. rewrite <- !app_assoc. reflexivity.
    + constructor; [reflexivity | exact H1].
    + exact H2.
    + exact H3.
    + exact Ht.
    + intros Hc. exists text. now apply Hf.
  - exists (Raise e), (editor_get_selection :: ev1), ev2, [], f2.
    split; [| split; [| split; [| split; [| split]]]].
    + simpl. rewrite <- !app_assoc, app_nil_r. reflexivity.
    + constructor; [reflexivity | exact H1].
    + exact H2.
    + constructor.
    + exact Ht.
    + intros Hc. exists text. now apply Hf.
Qed.

(** [main] on anything else only reads the path. *)
Lemma main_not_python (h : Host) (s : state) :
  python_file h = false ->
  main h s = (Ok tt, mkState (trace s ++ [editor_get_path]) (output_file s)).
Proof.
  unfold python_file, main. intros H.
  unfold bind, call. simpl.
  destruct (host_path h) as [[| c p] |]; try reflexivity.
  now rewrite H.
Qed.

Lemma filter_none {A : Type} (p : A -> bool) (l : list A) :
  Forall (fun x => p x = false) l -> filter p l = [].
Proof.
  induction 1 as [| x l Hx _ IH]; simpl; [reflexivity | now rewrite Hx].
Qed.

Lemma preparation_is_no_run (e : event) :
  is_preparation e = true ->
  is_linter_run e = false /\ is_annotation e = false
  /\ e <> editor_clear_annotations.
Proof. destruct e; simpl; intros H; try discriminate H; now repeat split. Qed.

Lemma linter_stage_is_no_annotation (e : event) :
  is_linter_stage e = true ->
  is_annotation e = false /\ e <> editor_clear_annotations.
Proof. destruct e; simpl; intros H; try discriminate H; now repeat split. Qed.

Lemma report_is_no_run (e : event) :
  is_report e = true ->
  is_linter_run e = false /\ e <> editor_clear_annotations.
Proof. destruct e; simpl; intros H; try discriminate H; now repeat split. Qed.

(** C6, as the spec words it, fails on a file that is no Python file: flake8
    is not configured, and neither pep8 nor pyflakes is run. *)
Lemma main_on_other_file_runs_no_linter :
  let h := sample_host (Some "notes.txt") None (fun _ _ => (None, None)) in
  options_truthy (config_flake8 h) = false
  /\ main h (mkState [] None) = (Ok tt, mkState [editor_get_path] None).
Proof. split; reflexivity. Qed.

(** C6, amended: in a run of [main] on a path that ends in ".py", if the
    configured flake8 options are truthy then pep8 and pyflakes are not run
    and flake8 is (once the temporary directory is known); otherwise pep8
    and pyflakes are each run once and flake8 is not.  On any other path no
    linter is run. *)
Theorem main_runs_flake8_or_pep8_and_pyflakes (h : Host) (s : state) :
  exists r events f',
    main h s = (r, mkState (trace s ++ events) f')
    /\ (python_file h = false -> filter is_linter_run events = [])
    /\ (python_file h = true ->
        options_truthy (config_flake8 h) = true ->
        Forall (fun e => is_pep8_run e = false /\ is_pyflakes_run e = false)
               events
        /\ (_tmp h <> None -> exists argv, In (flake8_run argv) events))
    /\ (python_file h = true ->
        options_truthy (config_flake8 h) = false ->
        Forall (fun e => is_flake8_run e = false) events
        /\ exists text path,
            host_path h = Some path
            /\ filter is_linter_run events
               = [pep8_check_all (splitlines true text);
                  pyflakes_check text path]).
Proof.
  destruct (python_file h) eqn:Hpy.
  - assert (Hp : exists path, host_path h = Some path).
    { unfold python_file in Hpy. destruct (host_path h) as [p |];
        [now exists p | discriminate]. }
    destruct Hp as [path Hpath].
    destruct (main_stages h s path Hpath Hpy)
      as [r [prepare [lint [emit [f' [E [H1 [H2 [H3 [Ht Hf]]]]]]]]]].
    exists r, ([editor_get_path; editor_clear_annotations]
               ++ prepare ++ lint ++ emit), f'.
    split; [exact E |]. split; [discriminate |]. split.
    + intros _ Hc. destruct (Ht Hc) as [Hl Hin]. split.
      * repeat (apply Forall_app; split).
        -- repeat constructor.
        -- eapply Forall_impl; [| exact H1]. intros e He.
           destruct e; try discriminate He; now split.
        -- exact Hl.
        -- eapply Forall_impl; [| exact H3]. intros e He.
           destruct e; try discriminate He; now split.
      * intros Htmp. destruct (Hin Htmp) as [argv Ha]. exists argv.
        apply in_or_app. right. apply in_or_app. right.
        apply in_or_app. now left.
    + intros _ Hc. destruct (Hf Hc) as [text ->]. split.
      * repeat (apply Forall_app; split).
        -- repeat constructor.
        -- eapply Forall_impl; [| exact H1]. intros e He.
           now destruct e.
        -- repeat constructor.
        -- eapply Forall_impl; [| exact H3]. intros e He.
           now destruct e.
      * exists text, path. split; [exact Hpath |].
        rewrite !filter_app.
        rewrite (filter_none is_linter_run prepare),
                (filter_none is_linter_run emit).
        -- reflexivity.
        -- eapply Forall_impl; [| exact H3]. intros e He.
           now apply report_is_no_run.
        -- eapply Forall_impl; [| exact H1]. intros e He.
           now apply preparation_is_no_run.
  - exists (Ok tt), [editor_get_path], (output_file s).
    split; [now apply main_not_python |].
    split; [reflexivity | split; discriminate].
Qed.

Lemma main_runs_flake8_or_pep8_and_pyflakes_witness :
  let app := fun (_ : list string) (_ : state) =>
               (@None exn, Some "/abs/a.py:1:1: W291 trailing whitespace") in
  let s0 := mkState [] None in
  (exists r events f',
      main (sample_host (Some "a.py") (Some [[]]) app) s0
      = (r, mkState (trace s0 ++ events) f')
      /\ Forall (fun e => is_pep8_run e = false /\ is_pyflakes_run e = false)
                events
      /\ exists argv, In (flake8_run argv) events)
  /\ (exists r events f',
         main (sample_host (Some "a.py") None app) s0
         = (r, mkState (trace s0 ++ events) f')
         /\ Forall (fun e => is_flake8_run e = false) events
         /\ exists text path,
             filter is_linter_run events
             = [pep8_check_all (splitlines true text);
                pyflakes_check text path])
  /\ (exists r events f',
         main (sample_host (Some "notes.txt") (Some [[]]) app) s0
         = (r, mkState (trace s0 ++ events) f')
         /\ filter is_linter_run events = []).
Proof.
  intros app s0. split; [| split].
  - destruct (main_runs_flake8_or_pep8_and_pyflakes
                (sample_host (Some "a.py") (Some [[]]) app) s0)
      as [r [events [f' [E [_ [Ht _]]]]]].
    exists r, events, f'. split; [exact E |].
    destruct (Ht eq_refl eq_refl) as [Hno Hin].
    split; [exact Hno | apply Hin; discriminate].
  - destruct (main_runs_flake8_or_pep8_and_pyflakes
                (sample_host (Some "a.py") None app) s0)
      as [r [events [f' [E [_ [_ Hf]]]]]].
    exists r, events, f'. split; [exact E |].
    destruct (Hf eq_refl eq_refl) as [Hno [text [path [_ Hruns]]]].
    split; [exact Hno | now exists text, path].
  - destruct (main_runs_flake8_or_pep8_and_pyflakes
                (sample_host (Some "notes.txt") (Some [[]]) app) s0)
      as [r [events [f' [E [Hother _]]]]].
    exists r, events, f'. split; [exact E | now apply Hother].
Defined.

(** ** Sorting *)

Lemma StronglySorted_app {A : Type} (R : A -> A -> Prop) (l1 l2 : list A) :
  StronglySorted R l1 -> StronglySorted R l2 ->
  (forall x y, In x l1 -> In y l2 -> R x y) ->
  StronglySorted R (l1 ++ l2).
Proof.
  intros H1 H2 H12. induction H1 as [| a l1 H1 IH Ha]; simpl.
  - exact H2.
  - constructor.
    + apply IH. intros x y Hx Hy. apply H12; [now right | exact Hy].
    + apply Forall_app. split; [exact Ha |].
      apply Forall_forall. intros y Hy. apply H12; [now left | exact Hy].
Qed.

Lemma StronglySorted_rev {A : Type} (R : A -> A -> Prop) (l : list A) :
  StronglySorted R l -> StronglySorted (fun x y => R y x) (rev l).
Proof.
  induction 1 as [| a l H IH Ha]; simpl.
  - constructor.
  - apply StronglySorted_app.
    + exact IH.
    + repeat constructor.
    + intros x y Hx [<- | []]. rewrite Forall_forall in Ha.
      apply Ha. now apply in_rev.
Qed.

Lemma StronglySorted_impl {A : Type} (R R' : A -> A -> Prop) (l : list A) :
  (forall x y, In x l -> In y l -> R x y -> R' x y) ->
  StronglySorted R l -> StronglySorted R' l.
Proof.
  intros HR H. induction H as [| a l H IH Ha].
  - constructor.
  - constructor.
    + apply IH. intros x y Hx Hy. apply HR; now right.
    + rewrite Forall_forall in *. intros y Hy.
      apply HR; [now left | now right | now apply Ha].
Qed.

Section Sorting.
Context {A : Type} (lt : A -> A -> bool) (rank : A -> Z).

Lemma insort_perm (x : A) (l : list A) : Permutation (insort lt x l) (x :: l).
Proof.
  induction l as [| y l IH]; simpl.
  - reflexivity.
  - destruct (lt x y); [reflexivity |].
    rewrite IH. apply perm_swap.
Qed.

Lemma fold_insort_perm (l : list A) :
  forall acc,
    Permutation (fold_left (fun acc x => insort lt x acc) l acc) (acc ++ l).
Proof.
  induction l as [| x l IH]; intros acc; simpl.
  - now rewrite app_nil_r.
  - rewrite IH, insort_perm. apply Permutation_middle.
Qed.

Lemma sort_with_perm (l : list A) : Permutation (sort_with lt l) l.
Proof. unfold sort_with. now rewrite fold_insort_perm. Qed.

Lemma sorted_perm (reverse : bool) (l : list A) :
  Permutation (sorted lt reverse l) l.
Proof.
  unfold sorted. destruct reverse.
  - now rewrite <- Permutation_rev, sort_with_perm, <- Permutation_rev.
  - apply sort_with_perm.
Qed.

Lemma insort_sorted (x : A) (l : list A) :
  (forall y, In y l -> lt x y = (rank x <? rank y)%Z) ->
  StronglySorted (fun a b => (rank a <= rank b)%Z) l ->
  StronglySorted (fun a b => (rank a <= rank b)%Z) (insort lt x l).
Proof.
  intros Hx H. induction H as [| y l H IH Hy]; simpl.
  - repeat constructor.
  - rewrite (Hx y) by now left.
    destruct (rank x <? rank y)%Z eqn:E.
    + apply Z.ltb_lt in E. constructor; [now constructor |].
      constructor; [lia |].
      eapply Forall_impl; [| exact Hy]. simpl. intros; lia.
    + apply Z.ltb_ge in E. constructor.
      * apply IH. intros z Hz. apply Hx. now right.
      * eapply Permutation_Forall;
          [symmetry; apply insort_perm |].
        constructor; [exact E | exact Hy].
Qed.

Lemma fold_insort_sorted (l : list A) :
  forall acc,
    compares_by_rank lt rank (acc ++ l) ->
    StronglySorted (fun a b => (rank a <= rank b)%Z) acc ->
    StronglySorted (fun a b => (rank a <= rank b)%Z)
                   (fold_left (fun acc x => insort lt x acc) l acc).
Proof.
  induction l as [| x l IH]; intros acc Hc Hs; simpl.
  - exact Hs.
  - assert (Hp : Permutation (insort lt x acc ++ l) (acc ++ x :: l)).
    { rewrite insort_perm. apply Permutation_middle. }
    apply IH.
    + intros a b Ha Hb.
      apply Hc; eapply Permutation_in; eauto.
    + apply insort_sorted; [| exact Hs].
      intros y Hy. apply Hc; apply in_or_app; [right; now left | now left].
Qed.

Lemma sort_with_sorted (l : list A) :
  compares_by_rank lt rank l ->
  StronglySorted (fun a b => (rank a <= rank b)%Z) (sort_with lt l).
Proof.
  intros Hc. apply fold_insort_sorted; [exact Hc | constructor].
Qed.

(** With [reverse=True] no element is below a later one. *)
Lemma sorted_reverse_descending (l : list A) :
  compares_by_rank lt rank l ->
  StronglySorted (fun a b => lt a b = false) (sorted lt true l).
Proof.
  intros Hc. unfold sorted.
  assert (Hr : compares_by_rank lt rank (rev l)).
  { intros a b Ha Hb. apply Hc; now apply in_rev. }
  pose proof (StronglySorted_rev _ _ (sort_with_sorted (rev l) Hr)) as H.
  eapply StronglySorted_impl; [| exact H].
  intros a b Ha Hb Hab. simpl in Hab.
  assert (Hin : forall z, In z (rev (sort_with lt (rev l))) -> In z l).
  { intros z Hz. apply in_rev in Hz.
    apply (Permutation_in _ (sort_with_perm (rev l))) in Hz.
    now apply in_rev. }
  rewrite (Hc a b) by now apply Hin.
  now apply Z.ltb_ge.
Qed.

Lemma sorted_ascending (l : list A) :
  compares_by_rank lt rank l ->
  StronglySorted (fun a b => (rank a <= rank b)%Z) (sorted lt false l).
Proof. apply sort_with_sorted. Qed.
End Sorting.

(** ** Grouping *)

Lemma filter_all {A : Type} (p : A -> bool) (l : list A) :
  Forall (fun x => p x = true) l -> filter p l = l.
Proof.
  induction 1 as [| x l Hx _ IH]; simpl; [reflexivity |].
  now rewrite Hx, IH.
Qed.

Lemma Permutation_filter {A : Type} (p : A -> bool) (l l' : list A) :
  Permutation l l' -> Permutation (filter p l) (filter p l').
Proof.
  induction 1 as [| x l l' H IH | x y l | l l' l'' H1 IH1 H2 IH2]; simpl.
  - constructor.
  - destruct (p x); [now constructor | exact IH].
  - destruct (p x), (p y); try reflexivity. apply perm_swap.
  - now transitivity (filter p l').
Qed.

(** On a list sorted by key, [groupby] gives one group per key, the keys in
    increasing order, and each group holds exactly the elements of its
    key. *)
Lemma groupby_from_spec {A : Type} (key : A -> Z) (l : list A) :
  forall k g,
    g <> [] ->
    Forall (fun a => key a = k) g ->
    StronglySorted (fun a b => (key a <= key b)%Z) l ->
    Forall (fun a => (k <= key a)%Z) l ->
    StronglySorted Z.lt (map fst (groupby_from key k g l))
    /\ Forall (fun kg => (k <= fst kg)%Z /\ snd kg <> []
                         /\ snd kg
                            = filter (fun a => (key a =? fst kg)%Z) (g ++ l))
              (groupby_from key k g l)
    /\ (forall a, In a (g ++ l) ->
                  In (key a) (map fst (groupby_from key k g l))).
Proof.
  induction l as [| x l IH]; intros k g Hg Hk Hs Hle; simpl.
  - split; [| split].
    + repeat constructor.
    + constructor; [| constructor]. simpl.
      split; [lia | split; [exact Hg |]].
      rewrite app_nil_r. symmetry. apply filter_all.
      eapply Forall_impl; [| exact Hk]. intros a Ha. now apply Z.eqb_eq.
    + intros a Ha. rewrite app_nil_r in Ha. left.
      rewrite Forall_forall in Hk. symmetry. now apply Hk.
  - apply StronglySorted_inv in Hs. destruct Hs as [Hs Hx].
    apply Forall_inv in Hle as Hkx. apply Forall_inv_tail in Hle.
    destruct (key x =? k)%Z eqn:E.
    + apply Z.eqb_eq in E.
      destruct (IH k (g ++ [x])) as [H1 [H2 H3]].
      * now destruct g.
      * apply Forall_app. split; [exact Hk | now constructor].
      * exact Hs.
      * exact Hle.
      * rewrite <- app_assoc in H2, H3. simpl in H2, H3. now split.
    + apply Z.eqb_neq in E.
      destruct (IH (key x) [x]) as [H1 [H2 H3]].
      * discriminate.
      * now constructor.
      * exact Hs.
      * exact Hx.
      * simpl. split; [| split].
        -- constructor; [exact H1 |].
           apply Forall_forall. intros k' Hk'. apply in_map_iff in Hk'.
           destruct Hk' as [kg [<- Hin]].
           rewrite Forall_forall in H2. destruct (H2 kg Hin) as [Hge _]. lia.
        -- constructor.
           ++ simpl. split; [lia | split; [exact Hg |]].
              rewrite filter_app, (filter_all _ g), (filter_none _ (x :: l)).
              ** now rewrite app_nil_r.
              ** constructor; [apply Z.eqb_neq; exact E |].
                 eapply Forall_impl; [| exact Hx]. simpl.
                 intros a Ha. apply Z.eqb_neq. lia.
              ** eapply Forall_impl; [| exact Hk].
                 intros a Ha. now apply Z.eqb_eq.
           ++ eapply Forall_impl; [| exact H2]. simpl.
              intros kg [Hge [Hne Hf]]. split; [lia | split; [exact Hne |]].
              rewrite Hf, filter_app, (filter_none _ g); [reflexivity |].
              eapply Forall_impl; [| exact Hk]. simpl.
              intros a Ha. apply Z.eqb_neq. lia.
        -- intros a Ha. apply in_app_or in Ha. destruct Ha as [Ha | Ha].
           ++ left. rewrite Forall_forall in Hk. symmetry. now apply Hk.
           ++ right. now apply H3.
Qed.

Lemma Forall2_map_fst {A B C : Type} (P : A * B -> Prop)
    (Q : A * B -> C -> Prop) (R : A -> C -> Prop)
    (l : list (A * B)) (l' : list C) :
  (forall x y, P x -> Q x y -> R (fst x) y) ->
  Forall P l -> Forall2 Q l l' -> Forall2 R (map fst l) l'.
Proof.
  intros HR HP HQ. induction HQ as [| x y l l' Hxy _ IH]; simpl.
  - constructor.
  - apply Forall_inv in HP as Hx. apply Forall_inv_tail in HP.
    constructor; [now apply HR | now apply IH].
Qed.

(** ** The last stage of main *)

Lemma annotate_groups_run (groups : list (Z * list _AnalyzerAnnotation)) :
  Forall (fun kg => snd kg <> []) groups ->
  forall scroll s,
  exists emitted,
    annotate_groups groups scroll s
    = (Ok tt, mkState (trace s ++ emitted) (output_file s))
    /\ Forall2
         (fun kg e =>
            exists first rest sc,
              sorted __lt__ true (snd kg) = first :: rest
              /\ e = editor_annotate_line
                       (fst kg)
                       (join comma_newline (map text (first :: rest)))
                       (style first) true sc)
         groups emitted.
Proof.
  induction 1 as [| [l a] groups Ha _ IH]; intros scroll s; simpl.
  - exists []. unfold ret. rewrite app_nil_r, state_eta.
    split; [reflexivity | constructor].
  - unfold bind at 1, _annotate.
    destruct (sorted __lt__ true a) as [| first rest] eqn:Es.
    + exfalso. apply Ha. simpl.
      pose proof (sorted_perm __lt__ true a) as Hp. rewrite Es in Hp.
      now apply Permutation_nil in Hp.
    + unfold call.
      match goal with
      | |- context [annotate_groups groups false ?s1] =>
          destruct (IH false s1) as [emitted [E HF]]
      end.
      rewrite E. simpl. eexists. split.
      * rewrite <- app_assoc. reflexivity.
      * constructor; [| exact HF].
        exists first, rest, scroll. simpl. now split.
Qed.

Lemma lt_compares_by_priority (l : list _AnalyzerAnnotation) :
  from_one_run l -> compares_by_rank __lt__ priority l.
Proof.
  intros [H | H] a b Ha Hb; rewrite Forall_forall in H;
    pose proof (H a Ha) as Pa; pose proof (H b Hb) as Pb;
    unfold __lt__, priority.
  - rewrite Pa, Pb. now destruct (style a), (style b).
  - destruct Pa as [Pa | [Pa Sa]], Pb as [Pb | [Pb Sb]];
      rewrite Pa, Pb; try rewrite Sa; try rewrite Sb;
      now destruct (style a), (style b).
Qed.

Lemma flake8_loop_sources (h : Host) (path file : string)
    (options : list (list string)) :
  forall acc s r s',
    Forall (fun a => source a = _Source.flake8) acc ->
    _flake8_annotations_loop h path file options acc s = (Ok r, s') ->
    Forall (fun a => source a = _Source.flake8) r.
Proof.
  induction options as [| o options IH]; intros acc s r s' Hacc H.
  - simpl in H. unfold ret in H. now injection H as <- _.
  - set (argv := flake8_argv path file o) in *.
    destruct (flake8_application h argv (invoked s argv)) as [[e |] f] eqn:Happ.
    + destruct (exn_is_Exception e) eqn:He.
      * rewrite (flake8_loop_raised h path file o options acc s e f Happ He)
          in H.
        now apply IH in H.
      * simpl in H. unfold bind at 1, try_except in H.
        rewrite flake8_run_one_eq in H. simpl in H. fold argv in H.
        rewrite Happ, He in H. discriminate H.
    + destruct (_parse_flake8_output path f) as [found | e] eqn:Hp.
      * rewrite (flake8_loop_returned h path file o options acc found s f
                   Happ Hp) in H.
        apply IH in H; [exact H |].
        apply Forall_app. split; [exact Hacc |].
        eapply Forall_impl; [| apply (parse_flake8_output_shape _ _ _ Hp)].
        now intros a [Ha _].
      * destruct (exn_is_Exception e) eqn:He.
        -- rewrite (flake8_loop_unread h path file o options acc s f e
                      Happ Hp He) in H.
           now apply IH in H.
        -- simpl in H. unfold bind at 1, try_except in H.
           rewrite flake8_run_one_eq in H. simpl in H. fold argv in H.
           rewrite Happ, Hp, He in H. discriminate H.
Qed.

(** What the linter stage hands on comes from flake8 alone, or from
    pyflakes and pep8, whose records are warnings. *)
Lemma main_annotations_from_one_run (h : Host) (path text : string)
    (s s' : state) (annotations : list _AnalyzerAnnotation) :
  main_annotations h path text s = (Ok annotations, s') ->
  from_one_run annotations.
Proof.
  unfold main_annotations.
  destruct (options_truthy (config_flake8 h)).
  - intros H. left.
    unfold _flake8_annotations, bind at 1, lift in H.
    destruct (os_path_join (_tmp h) "blackmamba.flake8.txt") as [file | e];
      [| discriminate H].
    unfold bind at 1 in H.
    destruct (_flake8_annotations_loop h (os_path_abspath h path) file
                (options_list (config_flake8 h)) [] s) as [[r | e] s1] eqn:E;
      [| discriminate H].
    unfold bind, remove_if_exists, ret in H. injection H as <- _.
    apply (flake8_loop_sources _ _ _ _ _ _ _ _ (Forall_nil _) E).
  - intros H. right.
    destruct (pep8_annotations_run h text (Some (_ignore_codes h))
                (Some (_max_line_length h)) s) as [calls E].
    unfold bind at 1 in H. rewrite E in H.
    unfold bind at 1 in H. rewrite pyflakes_annotations_run in H.
    destruct (_get_annotations path (fst (pyflakes_reporter h text path))
                               Style.warning) as [ws |] eqn:Ew;
      [| discriminate H].
    destruct (_get_annotations path (snd (pyflakes_reporter h text path))
                               Style.error) as [es |] eqn:Ee;
      [| discriminate H].
    unfold ret in H. injection H as <- _.
    apply Forall_app. split.
    + apply pep8_report_fold; [intros n t; right; now split | constructor].
    + apply Forall_app. split;
        (eapply Forall_impl; [| eapply get_annotations_shape; eassumption]);
        intros a [Ha _]; now left.
Qed.

(** The last stage on a non-empty list of one run: one annotation per
    distinct line, lines increasing, each with the texts of the records of
    its line joined, none of them below a later one. *)
Lemma main_report_merges_per_line (h : Host) (selection : option (Z * Z))
    (annotations : list _AnalyzerAnnotation) (s1 : state) :
  from_one_run annotations ->
  annotations <> [] ->
  exists lines emitted,
    main_report h selection annotations s1
    = (Ok tt, mkState (trace s1 ++ emitted) (output_file s1))
    /\ StronglySorted Z.lt lines
    /\ (forall l, In l lines <-> In l (map line annotations))
    /\ Forall2
         (fun l e =>
            exists first rest scroll,
              e = editor_annotate_line
                    l (join comma_newline (map text (first :: rest)))
                    (style first) true scroll
              /\ Permutation (first :: rest)
                             (filter (fun a => (line a =? l)%Z) annotations)
              /\ StronglySorted (fun a b => __lt__ a b = false)
                                (first :: rest))
         lines emitted.
Proof.
  intros Hone Hne.
  pose proof (lt_compares_by_priority _ Hone) as Hcmp.
  unfold main_report.
  destruct annotations as [| a0 l0]; [now elim Hne |].
  remember (a0 :: l0) as annotations eqn:Ea.
  remember (sorted_key line annotations) as by_line eqn:Eb.
  assert (Hperm : Permutation by_line annotations)
    by (rewrite Eb; apply sorted_perm).
  assert (Hsorted : StronglySorted (fun a b => (line a <= line b)%Z) by_line).
  { rewrite Eb. apply (sorted_ascending _ line). intros a b _ _. reflexivity. }
  destruct by_line as [| x l'].
  { apply Permutation_nil in Hperm. congruence. }
  unfold groupby.
  apply StronglySorted_inv in Hsorted. destruct Hsorted as [Hs Hx].
  destruct (groupby_from_spec line l' (line x) [x]) as [H1 [H2 H3]];
    [discriminate | now constructor | exact Hs | exact Hx |].
  set (groups := groupby_from line (line x) [x] l') in *.
  destruct (annotate_groups_run groups) with (scroll := true) (s := s1)
    as [emitted [E HF]].
  { eapply Forall_impl; [| exact H2]. now intros kg [_ [Hn _]]. }
  exists (map fst groups), emitted.
  split; [exact E |]. split; [exact H1 |]. split.
  - intros l. split.
    + intros Hl. apply in_map_iff in Hl. destruct Hl as [kg [<- Hin]].
      rewrite Forall_forall in H2. destruct (H2 kg Hin) as [_ [Hn Hf]].
      destruct (snd kg) as [| a g] eqn:Eg; [now elim Hn |].
      assert (Ha : In a (filter (fun a => (line a =? fst kg)%Z) ([x] ++ l')))
        by (rewrite <- Hf; now left).
      apply filter_In in Ha. destruct Ha as [Ha Hk].
      apply Z.eqb_eq in Hk. rewrite <- Hk. apply in_map.
      apply (Permutation_in _ Hperm). exact Ha.
    + intros Hl. apply in_map_iff in Hl. destruct Hl as [a [<- Ha]].
      apply H3. apply (Permutation_in _ (Permutation_sym Hperm)). exact Ha.
  - eapply Forall2_map_fst; [| exact H2 | exact HF].
    intros kg e [_ [_ Hf]] [first [rest [sc [Es ->]]]].
    change ([x] ++ l') with (x :: l') in Hf.
    exists first, rest, sc. split; [reflexivity |].
    assert (Hg : Permutation (snd kg)
                   (filter (fun a => (line a =? fst kg)%Z) annotations)).
    { rewrite Hf. now apply Permutation_filter. }
    split.
    + rewrite <- Es, <- Hg. apply sorted_perm.
    + rewrite <- Es. apply (sorted_reverse_descending _ priority).
      intros a b Ha Hb. apply Hcmp.
      * apply (Permutation_in _ Hg) in Ha. now apply filter_In in Ha.
      * apply (Permutation_in _ Hg) in Hb. now apply filter_In in Hb.
Qed.

(** C2: a non-empty list of records produced in [main] is shown as one
    annotation per distinct line, lines increasing.  The text of the
    annotation of a line joins, with a comma and a line feed, the texts of
    the records of that line, arranged so that no record is below a later
    one; its style is the style of the first of them. *)
Theorem one_annotation_per_line (h : Host) (path code : string)
    (s s1 : state) (selection : option (Z * Z))
    (annotations : list _AnalyzerAnnotation) :
  main_annotations h path code s = (Ok annotations, s1) ->
  annotations <> [] ->
  exists lines emitted,
    main_report h selection annotations s1
    = (Ok tt, mkState (trace s1 ++ emitted) (output_file s1))
    /\ StronglySorted Z.lt lines
    /\ (forall l, In l lines <-> In l (map line annotations))
    /\ Forall2
         (fun l e =>
            exists first rest scroll,
              e = editor_annotate_line
                    l (join comma_newline (map text (first :: rest)))
                    (style first) true scroll
              /\ Permutation (first :: rest)
                             (filter (fun a => (line a =? l)%Z) annotations)
              /\ StronglySorted (fun a b => __lt__ a b = false)
                                (first :: rest))
         lines emitted.
Proof.
  intros Hrun Hne.
  apply main_report_merges_per_line; [| exact Hne].
  exact (main_annotations_from_one_run _ _ _ _ _ _ Hrun).
Qed.

Lemma one_annotation_per_line_witness :
  let h := sample_host (Some "a.py") None (fun _ _ => (None, None)) in
  let s0 := mkState [] None in
  let annotations :=
    match fst (main_annotations h "a.py" "import os" s0) with
    | Ok found => found
    | Raise _ => []
    end in
  let s1 := snd (main_annotations h "a.py" "import os" s0) in
  exists lines emitted,
    main_report h None annotations s1
    = (Ok tt, mkState (trace s1 ++ emitted) (output_file s1))
    /\ StronglySorted Z.lt lines
    /\ (forall l, In l lines <-> In l (map line annotations))
    /\ Forall2
         (fun l e =>
            exists first rest scroll,
              e = editor_annotate_line
                    l (join comma_newline (map text (first :: rest)))
                    (style first) true scroll
              /\ Permutation (first :: rest)
                             (filter (fun a => (line a =? l)%Z) annotations)
              /\ StronglySorted (fun a b => __lt__ a b = false)
                                (first :: rest))
         lines emitted.
Proof.
  intros h s0 annotations s1.
  apply (one_annotation_per_line h "a.py" "import os" s0 s1 None annotations).
  - reflexivity.
  - discriminate.
Defined.

(** ** Trailing white space *)

Lemma blank_is_space (c : ascii) : is_space_or_tab c = true -> is_space c = true.
Proof.
  unfold is_space_or_tab, is_space.
  destruct (nat_of_ascii c) as [| n]; [discriminate |].
  do 32 (destruct n as [| n]; try discriminate; try reflexivity).
Qed.

Lemma blank_is_not_LF (c : ascii) : is_space_or_tab c = true -> Ascii.eqb c LF = false.
Proof.
  intros H. destruct (Ascii.eqb c LF) eqn:E; [| reflexivity].
  apply Ascii.eqb_eq in E. subst c. discriminate H.
Qed.

Lemma string_filter_app (cls : ascii -> bool) (a b : string) :
  string_filter cls (a ++ b)
  = (string_filter cls a ++ string_filter cls b)%string.
Proof.
  induction a as [| x a IH]; simpl; [reflexivity |].
  destruct (cls x); simpl; now rewrite IH.
Qed.

Lemma string_filter_none (cls other : ascii -> bool) (s : string) :
  (forall c, other c = true -> cls c = false) ->
  string_forallb other s = true -> string_filter cls s = "".
Proof.
  intros H. induction s as [| x s IH]; simpl; [reflexivity |].
  intros Hs. apply andb_true_iff in Hs. destruct Hs as [Hx Hs].
  rewrite (H x Hx). now apply IH.
Qed.

(** Blanks in front of a character that is neither a blank nor a LF end no
    line. *)
Lemma no_blank_at_line_end_prefix (pending : string) (c : ascii) (r : string) :
  string_forallb is_space_or_tab pending = true ->
  is_space_or_tab c = false -> Ascii.eqb c LF = false ->
  no_blank_at_line_end r = true ->
  no_blank_at_line_end (pending ++ String c r) = true.
Proof.
  intros Hp Hc Hlf Hr. induction pending as [| x pending IH].
  - simpl. now rewrite Hc, Hr.
  - simpl in Hp. apply andb_true_iff in Hp. destruct Hp as [Hx Hp].
    change ((String x pending ++ String c r)%string)
      with (String x (pending ++ String c r)%string).
    cbn [no_blank_at_line_end]. rewrite Hx, (IH Hp), andb_true_r.
    destruct pending as [| y pending]; simpl.
    + now rewrite Hlf.
    + simpl in Hp. apply andb_true_iff in Hp. destruct Hp as [Hy _].
      now rewrite (blank_is_not_LF y Hy).
Qed.

Lemma remove_trailing_whitespaces_from_clean (text : string) :
  forall pending,
    string_forallb is_space_or_tab pending = true ->
    no_blank_at_line_end (_remove_trailing_whitespaces_from pending text) = true.
Proof.
  induction text as [| c text IH]; intros pending Hp; simpl.
  - reflexivity.
  - destruct (is_space_or_tab c) eqn:Ec.
    + apply IH. rewrite string_forallb_app, Hp. simpl. now rewrite Ec.
    + destruct (Ascii.eqb c LF) eqn:Elf.
      * cbn [no_blank_at_line_end]. rewrite Ec. simpl. now apply IH.
      * apply no_blank_at_line_end_prefix; try assumption. now apply IH.
Qed.

Lemma remove_trailing_whitespaces_from_filter (cls : ascii -> bool)
    (text : string) :
  (forall c, is_space_or_tab c = true -> cls c = false) ->
  forall pending,
    string_forallb is_space_or_tab pending = true ->
    string_filter cls (_remove_trailing_whitespaces_from pending text)
    = string_filter cls text.
Proof.
  intros Hcls. induction text as [| c text IH]; intros pending Hp; simpl.
  - reflexivity.
  - destruct (is_space_or_tab c) eqn:Ec.
    + rewrite (Hcls c Ec). apply IH.
      rewrite string_forallb_app, Hp. simpl. now rewrite Ec.
    + destruct (Ascii.eqb c LF) eqn:Elf.
      * simpl. now rewrite (IH "" eq_refl).
      * rewrite string_filter_app.
        rewrite (string_filter_none cls is_space_or_tab pending Hcls Hp).
        simpl. now rewrite (IH "" eq_refl).
Qed.

Lemma no_blank_at_line_end_suffix (a b : string) :
  no_blank_at_line_end (a ++ b) = true -> no_blank_at_line_end b = true.
Proof.
  induction a as [| x a IH]; simpl; [trivial |].
  intros H. apply andb_true_iff in H. now apply IH.
Qed.

(** A text in which no blank ends a line is left as it is. *)
Lemma remove_trailing_whitespaces_from_fixed (text : string) :
  forall pending,
    string_forallb is_space_or_tab pending = true ->
    no_blank_at_line_end (pending ++ text) = true ->
    _remove_trailing_whitespaces_from pending text = (pending ++ text)%string.
Proof.
  induction text as [| c text IH]; intros pending Hp Hc; simpl.
  - destruct pending as [| x pending]; [reflexivity | exfalso].
    rewrite append_empty_r in Hc.
    induction pending as [| y pending IHp] in x, Hp, Hc |- *.
    + simpl in Hp, Hc. apply andb_true_iff in Hp. destruct Hp as [Hx _].
      rewrite Hx in Hc. discriminate Hc.
    + simpl in Hp. apply andb_true_iff in Hp. destruct Hp as [_ Hp].
      cbn [no_blank_at_line_end] in Hc. apply andb_true_iff in Hc.
      destruct Hc as [_ Hc]. exact (IHp y Hp Hc).
  - destruct (is_space_or_tab c) eqn:Ec.
    + rewrite IH.
      * now rewrite append_assoc.
      * rewrite string_forallb_app, Hp. simpl. now rewrite Ec.
      * now rewrite append_assoc.
    + pose proof (no_blank_at_line_end_suffix _ _ Hc) as Hs.
      cbn [no_blank_at_line_end] in Hs. rewrite Ec in Hs. simpl in Hs.
      destruct (Ascii.eqb c LF) eqn:Elf.
      * rewrite (IH "" eq_refl Hs).
        destruct pending as [| x pending]; [reflexivity | exfalso].
        apply Ascii.eqb_eq in Elf. subst c. clear IH Hs Ec.
        induction pending as [| y pending IHp] in x, Hp, Hc |- *.
        -- simpl in Hp, Hc. apply andb_true_iff in Hp. destruct Hp as [Hx _].
           rewrite Hx in Hc. discriminate Hc.
        -- simpl in Hp. apply andb_true_iff in Hp. destruct Hp as [_ Hp].
           change ((String x (String y pending) ++ String LF text)%string)
             with (String x (String y pending ++ String LF text)%string) in Hc.
           cbn [no_blank_at_line_end] in Hc. apply andb_true_iff in Hc.
           destruct Hc as [_ Hc]. exact (IHp y Hp Hc).
      * now rewrite (IH "" eq_refl Hs).
Qed.

(** What the checker says, in words: a blank or tab is followed by a
    character, and that character is no LF. *)
Lemma no_blank_at_line_end_spec (s : string) :
  no_blank_at_line_end s = true ->
  forall a c b,
    s = (a ++ String c b)%string -> is_space_or_tab c = true ->
    exists c' b', b = String c' b' /\ c' <> LF.
Proof.
  intros Hs a c b -> Hc.
  apply no_blank_at_line_end_suffix in Hs.
  cbn [no_blank_at_line_end] in Hs. rewrite Hc in Hs.
  apply andb_true_iff in Hs. destruct Hs as [Hs _].
  destruct b as [| c' b']; [discriminate Hs |].
  exists c', b'. split; [reflexivity |].
  intros ->. discriminate Hs.
Qed.

(** X1: after [_remove_trailing_whitespaces] no line ends in a blank or a
    tab: every blank or tab that is left is followed by a character other
    than LF. *)
Theorem remove_trailing_whitespaces_cleans_lines (text a b : string) (c : ascii) :
  _remove_trailing_whitespaces text = (a ++ String c b)%string ->
  is_space_or_tab c = true ->
  exists c' b', b = String c' b' /\ c' <> LF.
Proof.
  intros E Hc.
  apply (no_blank_at_line_end_spec (_remove_trailing_whitespaces text)
           (remove_trailing_whitespaces_from_clean text "" eq_refl) a c b E Hc).
Qed.

Lemma remove_trailing_whitespaces_cleans_lines_witness :
  _remove_trailing_whitespaces ("x = 1  " ++ String LF "y = 2 ")
  = ("x" ++ String " " ("= 1" ++ String LF "y = 2"))%string
  /\ exists c' b', ("= 1" ++ String LF "y = 2")%string = String c' b' /\ c' <> LF.
Proof.
  split; [reflexivity |].
  apply (remove_trailing_whitespaces_cleans_lines
           ("x = 1  " ++ String LF "y = 2 ") "x"
           ("= 1" ++ String LF "y = 2") " "); reflexivity.
Defined.

(** X2: [_remove_trailing_whitespaces] removes blanks and tabs only: the
    other characters, line feeds among them, are kept in their order. *)
Theorem remove_trailing_whitespaces_keeps_the_rest (text : string) :
  string_filter (fun c => negb (is_space_or_tab c))
                (_remove_trailing_whitespaces text)
  = string_filter (fun c => negb (is_space_or_tab c)) text.
Proof.
  apply remove_trailing_whitespaces_from_filter; [| reflexivity].
  intros c Hc. now rewrite Hc.
Qed.

(** X3: [_remove_trailing_whitespaces] changes a text exactly when some
    blank or tab ends one of its lines; applied twice it does what it does
    applied once. *)
Theorem remove_trailing_whitespaces_idempotent (text : string) :
  (_remove_trailing_whitespaces text = text
   <-> no_blank_at_line_end text = true)
  /\ _remove_trailing_whitespaces (_remove_trailing_whitespaces text)
     = _remove_trailing_whitespaces text.
Proof.
  split; [split |].
  - intros E. rewrite <- E.
    now apply remove_trailing_whitespaces_from_clean.
  - intros H. now apply (remove_trailing_whitespaces_from_fixed text "").
  - apply (remove_trailing_whitespaces_from_fixed _ "" eq_refl).
    now apply remove_trailing_whitespaces_from_clean.
Qed.

Lemma remove_trailing_lines_split (text : string) :
  exists ws,
    text = (_remove_trailing_lines text ++ ws)%string
    /\ string_forallb is_space ws = true.
Proof.
  induction text as [| c text [ws [E Hws]]]; simpl.
  - now exists "".
  - destruct (_remove_trailing_lines text) as [| y r] eqn:Er.
    + simpl in E. subst ws. destruct (is_space c) eqn:Ec.
      * exists (String c text). simpl. now rewrite Ec.
      * now exists text.
    + exists ws. split; [| exact Hws]. simpl. now rewrite E at 1.
Qed.

Lemma remove_trailing_lines_end (text : string) :
  forall a c,
    _remove_trailing_lines text = (a ++ String c "")%string ->
    is_space c = false.
Proof.
  induction text as [| x text IH]; intros a c E; simpl in E.
  - now destruct a.
  - destruct (_remove_trailing_lines text) as [| y r] eqn:Er.
    + destruct (is_space x) eqn:Ex.
      * now destruct a.
      * destruct a as [| a0 a]; simpl in E.
        -- now injection E as <-.
        -- injection E as _ E. now destruct a.
    + destruct a as [| a0 a]; simpl in E.
      * discriminate E.
      * injection E as _ E. now apply (IH a c).
Qed.

(** X4: [_remove_trailing_lines] cuts off the white space at the end of the
    text and nothing else: the text is the result followed by white space,
    and the result does not end in white space. *)
Theorem remove_trailing_lines_cuts_the_end (text : string) :
  (exists ws,
      text = (_remove_trailing_lines text ++ ws)%string
      /\ string_forallb is_space ws = true)
  /\ (forall a c,
         _remove_trailing_lines text = (a ++ String c "")%string ->
         is_space c = false).
Proof.
  split; [apply remove_trailing_lines_split | apply remove_trailing_lines_end].
Qed.

Lemma remove_trailing_lines_cuts_the_end_witness :
  _remove_trailing_lines ("x = 1" ++ String LF (String LF " "))
  = ("x = " ++ String "1" "")%string
  /\ is_space "1" = false.
Proof.
  split; [reflexivity |].
  apply (proj2 (remove_trailing_lines_cuts_the_end
                  ("x = 1" ++ String LF (String LF " "))) "x = " "1"%char).
  reflexivity.
Defined.

Lemma no_blank_at_line_end_cut (a ws : string) :
  no_blank_at_line_end (a ++ ws) = true ->
  (forall a' c, a = (a' ++ String c "")%string -> is_space_or_tab c = false) ->
  no_blank_at_line_end a = true.
Proof.
  induction a as [| x a IH]; intros H Hend; [reflexivity |].
  change ((String x a ++ ws)%string) with (String x (a ++ ws)%string) in H.
  cbn [no_blank_at_line_end] in *.
  apply andb_true_iff in H. destruct H as [Hx H].
  rewrite IH; [| exact H |].
  - rewrite andb_true_r. destruct a as [| y a].
    + now rewrite (Hend "" x eq_refl).
    + exact Hx.
  - intros a' c ->. apply (Hend (String x a') c). reflexivity.
Qed.

(** X5: with [analyzer.remove_whitespaces] on (the default), [_editor_text]
    replaces the whole buffer by the text without its trailing white space,
    saves, and returns that text with one LF added; the written text keeps
    every visible character, does not end in white space and has no line
    that ends in a blank or tab.  With the setting off it saves and returns
    the text untouched.  It saves exactly once either way. *)
Theorem editor_text_strips_and_saves (h : Host) (s : state) :
  (_remove_whitespaces h = true ->
   exists written,
     _editor_text h s
     = (Ok (written ++ String LF "")%string,
        mkState (trace s
                 ++ [editor_get_text;
                     editor_replace_text
                       0 (Z.of_nat (String.length (host_text h))) written;
                     tab_save])
                (output_file s))
     /\ string_filter is_visible written
        = string_filter is_visible (host_text h)
     /\ (forall a c,
            written = (a ++ String c "")%string -> is_space c = false)
     /\ (forall a c b,
            written = (a ++ String c b)%string -> is_space_or_tab c = true ->
            exists c' b', b = String c' b' /\ c' <> LF))
  /\ (_remove_whitespaces h = false ->
      _editor_text h s
      = (Ok (host_text h),
         mkState (trace s ++ [editor_get_text; tab_save]) (output_file s))).
Proof.
  split; intros Hc; unfold _editor_text, bind, call, ret; rewrite Hc; simpl.
  - set (stripped := _remove_trailing_whitespaces (host_text h)).
    exists (_remove_trailing_lines stripped).
    destruct (remove_trailing_lines_split stripped) as [ws [E Hws]].
    split; [| split; [| split]].
    + now rewrite <- !app_assoc.
    + transitivity (string_filter is_visible stripped).
      * rewrite E at 2. rewrite string_filter_app.
        rewrite (string_filter_none is_visible is_space ws),
                append_empty_r; [reflexivity | | exact Hws].
        intros c H. unfold is_visible. now rewrite H.
      * apply remove_trailing_whitespaces_from_filter; [| reflexivity].
        intros c H. unfold is_visible. now rewrite (blank_is_space c H).
    + apply remove_trailing_lines_end.
    + apply no_blank_at_line_end_spec.
      apply (no_blank_at_line_end_cut _ ws).
      * rewrite <- E. now apply remove_trailing_whitespaces_from_clean.
      * intros a' c Ha.
        pose proof (remove_trailing_lines_end stripped a' c Ha) as Hs.
        destruct (is_space_or_tab c) eqn:Eb; [| reflexivity].
        now rewrite (blank_is_space c Eb) in Hs.
  - now rewrite <- !app_assoc.
Qed.

Lemma editor_text_strips_and_saves_witness :
  let h := sample_host (Some "a.py") None (fun _ _ => (None, None)) in
  exists written,
    _editor_text h (mkState [] None)
    = (Ok (written ++ String LF "")%string,
       mkState [editor_get_text; editor_replace_text 0 11 written; tab_save]
               None)
    /\ string_filter is_visible written = "importos".
Proof.
  intros h.
  destruct (proj1 (editor_text_strips_and_saves h (mkState [] None)) eq_refl)
    as [written [E [Hv _]]].
  exists written. split; [exact E | exact Hv].
Defined.

(** ** main, stage by stage *)

(** [main] on a Python file is its stages one after the other: the text
    [_editor_text] returns goes to the linters and what they find goes to
    the last stage. *)
Lemma main_run_exact (h : Host) (s : state) (path : string) :
  host_path h = Some path ->
  python_file h = true ->
  main h s
  = match _editor_text h
            (mkState (trace s ++ [editor_get_path; editor_clear_annotations;
                                  editor_get_selection])
                     (output_file s)) with
    | (Ok text, s2) =>
        match main_annotations h path text s2 with
        | (Ok annotations, s3) =>
            main_report h (host_selection h) annotations s3
        | (Raise e, s3) => (Raise e, s3)
        end
    | (Raise e, s2) => (Raise e, s2)
    end.
Proof.
  intros Hpath Hpy. unfold python_file in Hpy. rewrite Hpath in Hpy.
  destruct path as [| c p]; [discriminate Hpy |].
  unfold main. rewrite Hpath, Hpy. simpl negb. cbv iota.
  unfold bind, call. simpl. rewrite <- !app_assoc. reflexivity.
Qed.

Lemma editor_text_ends_with_save (h : Host) (s : state) :
  exists text prep,
    _editor_text h s
    = (Ok text, mkState (trace s ++ prep ++ [tab_save]) (output_file s))
    /\ Forall (fun e => is_preparation e = true /\ e <> tab_save) prep.
Proof.
  unfold _editor_text, bind, call, ret.
  destruct (_remove_whitespaces h); simpl.
  - eexists.
    exists [editor_get_text;
            editor_replace_text
              0 (Z.of_nat (String.length (host_text h)))
              (_remove_trailing_lines
                 (_remove_trailing_whitespaces (host_text h)))].
    rewrite <- !app_assoc. simpl. split; [reflexivity |].
    repeat constructor; discriminate.
  - eexists. exists [editor_get_text].
    rewrite <- !app_assoc. simpl. split; [reflexivity |].
    repeat constructor; discriminate.
Qed.

(** X6: in a run of [main] on a Python file the buffer is saved exactly
    once: after every change [main] makes to it and before any linter is
    run. *)
Theorem main_saves_once_before_linting (h : Host) (s : state) :
  python_file h = true ->
  exists r before after f',
    main h s = (r, mkState (trace s ++ before ++ [tab_save] ++ after) f')
    /\ Forall (fun e => is_linter_run e = false /\ e <> tab_save) before
    /\ Forall (fun e => e <> tab_save
                        /\ forall a b t, e <> editor_replace_text a b t)
              after.
Proof.
  intros Hpy.
  assert (Hp : exists path, host_path h = Some path).
  { unfold python_file in Hpy. destruct (host_path h) as [p |];
      [now exists p | discriminate]. }
  destruct Hp as [path Hpath].
  rewrite (main_run_exact h s path Hpath Hpy).
  match goal with
  | |- context [_editor_text h ?s1] =>
      destruct (editor_text_ends_with_save h s1) as [text [prep [E Hprep]]];
      rewrite E
  end.
  match goal with
  | |- context [main_annotations h path text ?s2] =>
      destruct (main_annotations_events h path text s2)
        as [r [lint [f2 [E2 [Hlint _]]]]];
      rewrite E2
  end.
  assert (Hafter : forall evs,
             Forall (fun e => is_linter_stage e = true \/ is_report e = true)
                    evs ->
             Forall (fun e => e <> tab_save
                              /\ forall a b t, e <> editor_replace_text a b t)
                    evs).
  { intros evs H. eapply Forall_impl; [| exact H].
    intros e [He | He]; destruct e; try discriminate He;
      (split; [discriminate | intros; discriminate]). }
  assert (Hbefore :
            Forall (fun e => is_linter_run e = false /\ e <> tab_save)
                   ([editor_get_path; editor_clear_annotations;
                     editor_get_selection] ++ prep)).
  { apply Forall_app. split.
    - repeat constructor; discriminate.
    - eapply Forall_impl; [| exact Hprep]. intros e [He Hne].
      split; [now apply preparation_is_no_run | exact Hne]. }
  destruct r as [annotations | e].
  - match goal with
    | |- context [main_report h ?sel annotations ?s3] =>
        destruct (main_report_events h sel annotations s3)
          as [r [emit [E3 Hemit]]];
        rewrite E3
    end.
    exists r, ([editor_get_path; editor_clear_annotations;
                editor_get_selection] ++ prep), (lint ++ emit), f2.
    split; [| split; [exact Hbefore |]].
    + simpl. rewrite <- !app_assoc. reflexivity.
    + apply Hafter. apply Forall_app. split.
      * eapply Forall_impl; [| exact Hlint]. now left.
      * eapply Forall_impl; [| exact Hemit]. now right.
  - exists (Raise e), ([editor_get_path; editor_clear_annotations;
                        editor_get_selection] ++ prep), lint, f2.
    split; [| split; [exact Hbefore |]].
    + simpl. rewrite <- !app_assoc. reflexivity.
    + apply Hafter. eapply Forall_impl; [| exact Hlint]. now left.
Qed.

Lemma main_saves_once_before_linting_witness :
  let h := sample_host (Some "a.py") None (fun _ _ => (None, None)) in
  exists r before after f',
    main h (mkState [] None) = (r, mkState (before ++ [tab_save] ++ after) f')
    /\ Forall (fun e => is_linter_run e = false /\ e <> tab_save) before
    /\ Forall (fun e => e <> tab_save
                        /\ forall a b t, e <> editor_replace_text a b t)
              after.
Proof.
  intros h.
  exact (main_saves_once_before_linting h (mkState [] None) eq_refl).
Defined.

(** X7: without flake8 options, [main] on a Python file runs pep8 on the
    lines of the text [_editor_text] returns, and then pyflakes on that same
    text under the editor's path. *)
Theorem main_checks_the_text_of_editor_text (h : Host) (s : state)
    (path : string) :
  host_path h = Some path ->
  python_file h = true ->
  options_truthy (config_flake8 h) = false ->
  exists text prep r emit f',
    _editor_text h (mkState (trace s ++ [editor_get_path;
                                         editor_clear_annotations;
                                         editor_get_selection])
                            (output_file s))
    = (Ok text,
       mkState ((trace s ++ [editor_get_path; editor_clear_annotations;
                             editor_get_selection]) ++ prep)
               (output_file s))
    /\ main h s
       = (r, mkState (trace s
                      ++ [editor_get_path; editor_clear_annotations;
                          editor_get_selection]
                      ++ prep
                      ++ [pep8_check_all (splitlines true text);
                          pyflakes_check text path]
                      ++ emit) f')
    /\ Forall (fun e => is_report e = true) emit.
Proof.
  intros Hpath Hpy Hc.
  rewrite (main_run_exact h s path Hpath Hpy).
  match goal with
  | |- context [_editor_text h ?s1] =>
      destruct (editor_text_run h s1) as [text [prep [E _]]]
  end.
  exists text, prep. rewrite E.
  match goal with
  | |- context [main_annotations h path text ?s2] =>
      destruct (main_annotations_events h path text s2)
        as [r [lint [f2 [E2 [_ [_ Hf]]]]]];
      rewrite E2
  end.
  rewrite (Hf Hc) in *.
  destruct r as [annotations | e].
  - match goal with
    | |- context [main_report h ?sel annotations ?s3] =>
        destruct (main_report_events h sel annotations s3)
          as [r [emit [E3 Hemit]]];
        rewrite E3
    end.
    exists r, emit, f2. split; [reflexivity | split; [| exact Hemit]].
    simpl. rewrite <- !app_assoc. reflexivity.
  - exists (Raise e), [], f2. split; [reflexivity | split; [| constructor]].
    simpl. rewrite <- !app_assoc. reflexivity.
Qed.

Lemma main_checks_the_text_of_editor_text_witness :
  let h := sample_host (Some "a.py") None (fun _ _ => (None, None)) in
  exists text prep r emit f',
    _editor_text h (mkState [editor_get_path; editor_clear_annotations;
                             editor_get_selection] None)
    = (Ok text,
       mkState ([editor_get_path; editor_clear_annotations;
                 editor_get_selection] ++ prep) None)
    /\ main h (mkState [] None)
       = (r, mkState ([editor_get_path; editor_clear_annotations;
                       editor_get_selection]
                      ++ prep
                      ++ [pep8_check_all (splitlines true text);
                          pyflakes_check text "a.py"]
                      ++ emit) f')
    /\ Forall (fun e => is_report e = true) emit.
Proof.
  intros h.
  exact (main_checks_the_text_of_editor_text h (mkState [] None) "a.py"
           eq_refl eq_refl eq_refl).
Defined.

(** ** Groups and their annotations *)

(** The groups [main] forms from a non-empty list: none is empty, their
    lines increase, each is the part of the sorted list on its line, and
    every record's line has a group. *)
Lemma groups_of_sorted_records (annotations : list _AnalyzerAnnotation) :
  annotations <> [] ->
  groupby (sorted_key line annotations) line <> []
  /\ StronglySorted Z.lt (map fst (groupby (sorted_key line annotations) line))
  /\ Forall (fun kg =>
               snd kg <> []
               /\ snd kg = filter (fun a => (line a =? fst kg)%Z)
                                  (sorted_key line annotations))
            (groupby (sorted_key line annotations) line)
  /\ (forall a, In a annotations ->
                In (line a)
                   (map fst (groupby (sorted_key line annotations) line))).
Proof.
  intros Hne.
  assert (Hperm : Permutation (sorted_key line annotations) annotations)
    by apply sorted_perm.
  assert (Hsorted : StronglySorted (fun a b => (line a <= line b)%Z)
                                   (sorted_key line annotations)).
  { apply (sorted_ascending _ line). intros a b _ _. reflexivity. }
  destruct (sorted_key line annotations) as [| x l'] eqn:Eb.
  { apply Permutation_nil in Hperm. congruence. }
  unfold groupby.
  apply StronglySorted_inv in Hsorted. destruct Hsorted as [Hs Hx].
  destruct (groupby_from_spec line l' (line x) [x]) as [H1 [H2 H3]];
    [discriminate | now constructor | exact Hs | exact Hx |].
  assert (Hin : forall a, In a annotations ->
                          In (line a)
                             (map fst (groupby_from line (line x) [x] l'))).
  { intros a Ha. apply H3.
    apply (Permutation_in _ (Permutation_sym Hperm)). exact Ha. }
  split; [| split; [exact H1 | split; [| exact Hin]]].
  - destruct annotations as [| a0 l0]; [now elim Hne |].
    intros E. specialize (Hin a0 (or_introl eq_refl)). now rewrite E in Hin.
  - eapply Forall_impl; [| exact H2]. now intros kg [_ [Hn Hf]].
Qed.

Lemma annotate_groups_no_scroll (groups : list (Z * list _AnalyzerAnnotation)) :
  Forall (fun kg => snd kg <> []) groups ->
  forall scroll s,
  exists emitted,
    annotate_groups groups scroll s
    = (Ok tt, mkState (trace s ++ emitted) (output_file s))
    /\ List.length emitted = List.length groups
    /\ match emitted with
       | [] => True
       | e :: rest =>
           (exists l t st, e = editor_annotate_line l t st true scroll)
           /\ Forall (fun e =>
                        exists l t st, e = editor_annotate_line l t st true false)
                     rest
       end.
Proof.
  induction 1 as [| [l a] groups Ha _ IH]; intros scroll s; simpl.
  - exists []. unfold ret. rewrite app_nil_r, state_eta. now repeat split.
  - unfold bind at 1, _annotate.
    destruct (sorted __lt__ true a) as [| first rest] eqn:Es.
    + exfalso. apply Ha. simpl.
      pose proof (sorted_perm __lt__ true a) as Hp. rewrite Es in Hp.
      now apply Permutation_nil in Hp.
    + unfold call.
      match goal with
      | |- context [annotate_groups groups false ?s1] =>
          destruct (IH false s1) as [emitted [E [Hlen Hflags]]]
      end.
      rewrite E. simpl. eexists. split; [| split].
      * rewrite <- app_assoc. reflexivity.
      * simpl. now rewrite Hlen.
      * split; [now eexists; eexists; eexists |].
        destruct emitted as [| e emitted]; [constructor |].
        destruct Hflags as [He Hrest]. now constructor.
Qed.

(** X8: the lines [main] annotates are shown expanded, and the editor is
    asked to scroll to the first of them only: the first annotation is
    placed with [scroll] on, every later one with [scroll] off. *)
Theorem main_scrolls_to_the_first_annotation (h : Host)
    (selection : option (Z * Z)) (annotations : list _AnalyzerAnnotation)
    (s : state) :
  annotations <> [] ->
  exists l t st rest,
    main_report h selection annotations s
    = (Ok tt,
       mkState (trace s ++ editor_annotate_line l t st true true :: rest)
               (output_file s))
    /\ Forall (fun e => exists l t st, e = editor_annotate_line l t st true false)
              rest.
Proof.
  intros Hne.
  destruct (groups_of_sorted_records annotations Hne) as [Hg [_ [Hall _]]].
  destruct (annotate_groups_no_scroll
              (groupby (sorted_key line annotations) line)) with
    (scroll := true) (s := s) as [emitted [E [Hlen Hflags]]].
  { eapply Forall_impl; [| exact Hall]. now intros kg [Hn _]. }
  unfold main_report. destruct annotations as [| a0 l0]; [now elim Hne |].
  rewrite E.
  destruct emitted as [| e rest].
  - destruct (groupby (sorted_key line (a0 :: l0)) line);
      [now elim Hg | discriminate Hlen].
  - destruct Hflags as [[l [t [st ->]]] Hrest].
    now exists l, t, st, rest.
Qed.

Lemma main_scrolls_to_the_first_annotation_witness :
  let a := mkAnnotation 4 "E225 missing whitespace" _Source.pep8 Style.warning in
  let b := mkAnnotation 2 "undefined name 'x'" _Source.pyflakes Style.warning in
  exists l t st rest,
    main_report (sample_host (Some "a.py") None (fun _ _ => (None, None)))
                None [a; b] (mkState [] None)
    = (Ok tt, mkState (editor_annotate_line l t st true true :: rest) None)
    /\ Forall (fun e => exists l t st, e = editor_annotate_line l t st true false)
              rest.
Proof.
  intros a b.
  apply (main_scrolls_to_the_first_annotation
           (sample_host (Some "a.py") None (fun _ _ => (None, None)))
           None [a; b] (mkState [] None)).
  discriminate.
Defined.

(** X9: [main] on a Python file ends in one of two ways.  When the linters
    found nothing it puts the selection back, if there was one, and shows
    the alert "No Issues Found"; it places no annotation.  When they found
    something it places annotations, at least one, and shows no alert. *)
Theorem main_alerts_when_nothing_is_found (h : Host) (s s2 s3 : state)
    (path code : string) (annotations : list _AnalyzerAnnotation) :
  host_path h = Some path ->
  python_file h = true ->
  _editor_text h (mkState (trace s ++ [editor_get_path;
                                       editor_clear_annotations;
                                       editor_get_selection])
                          (output_file s))
  = (Ok code, s2) ->
  main_annotations h path code s2 = (Ok annotations, s3) ->
  (annotations = [] ->
   main h s
   = (Ok tt,
      mkState (trace s3
               ++ match host_selection h with
                  | Some (start, _) => [editor_set_selection start true]
                  | None => []
                  end
               ++ [console_hud_alert "No Issues Found" "iob:checkmark_32"
                                     (_hud_alert_delay h)])
              (output_file s3)))
  /\ (annotations <> [] ->
      exists first rest,
        main h s
        = (Ok tt, mkState (trace s3 ++ first :: rest) (output_file s3))
        /\ Forall (fun e => is_annotation e = true) (first :: rest)).
Proof.
  intros Hpath Hpy Etext Elint.
  rewrite (main_run_exact h s path Hpath Hpy), Etext, Elint.
  split.
  - intros ->. unfold main_report, bind, call, ret.
    destruct (host_selection h) as [[start stop] |]; simpl;
      now rewrite <- ?app_assoc.
  - intros Hne.
    destruct (groups_of_sorted_records annotations Hne) as [Hg [_ [Hall _]]].
    destruct (annotate_groups_no_scroll
                (groupby (sorted_key line annotations) line)) with
      (scroll := true) (s := s3) as [emitted [E [Hlen Hflags]]].
    { eapply Forall_impl; [| exact Hall]. now intros kg [Hn _]. }
    unfold main_report. destruct annotations as [| a0 l0]; [now elim Hne |].
    rewrite E.
    destruct emitted as [| e rest].
    + destruct (groupby (sorted_key line (a0 :: l0)) line);
        [now elim Hg | discriminate Hlen].
    + exists e, rest. split; [reflexivity |].
      destruct Hflags as [[l [t [st ->]]] Hrest].
      constructor; [reflexivity |].
      eapply Forall_impl; [| exact Hrest]. now intros e [l' [t' [st' ->]]].
Qed.

Lemma main_alerts_when_nothing_is_found_witness :
  let h := sample_host (Some "a.py") None (fun _ _ => (None, None)) in
  let s := mkState [] None in
  let r1 := _editor_text h (mkState [editor_get_path; editor_clear_annotations;
                                     editor_get_selection] None) in
  let code := match fst r1 with Ok t => t | Raise _ => "" end in
  let r2 := main_annotations h "a.py" code (snd r1) in
  let annotations := match fst r2 with Ok found => found | Raise _ => [] end in
  exists first rest,
    main h s
    = (Ok tt, mkState (trace (snd r2) ++ first :: rest) (output_file (snd r2)))
    /\ Forall (fun e => is_annotation e = true) (first :: rest).
Proof.
  intros h s r1 code r2 annotations.
  apply (proj2 (main_alerts_when_nothing_is_found
                  h s (snd r1) (snd r2) "a.py" code annotations
                  eq_refl eq_refl eq_refl eq_refl)).
  discriminate.
Defined.

Lemma Forall2_Forall_r {A B : Type} (P : A -> B -> Prop) (Q : B -> Prop)
    (l : list A) (l' : list B) :
  (forall x y, P x y -> Q y) -> Forall2 P l l' -> Forall Q l'.
Proof.
  intros HQ H. induction H as [| x y l l' Hxy _ IH]; constructor;
    [now apply (HQ x) | exact IH].
Qed.

(** C8, as the spec words it, fails on runs that do not reach every step.
    With flake8 options and neither TMPDIR nor TMP set, [main] clears the
    annotations and raises before any linter is invoked.  Without flake8
    options, on a file whose syntax error pyflakes reports by echoing a
    source line that reads as a report line with a line number of 4301
    digits, the linters are invoked but reading the report raises: no
    record is merged and no annotation emitted.  And on a file in which the
    linters find nothing, no annotation is emitted either: the alert is
    shown. *)
Lemma main_can_stop_before_linting_or_annotating :
  let s0 := mkState [] None in
  let h1 := mkHost (Some "a.py") "x = 1" None (Some [["--select=E"]])
                   None None (Some false) None None None (fun p => p)
                   (fun _ _ _ => []) (fun _ _ => ("", ""))
                   (fun _ _ => (None, None)) in
  let code := ("a.py:" ++ repeat_char "1" 4301 ++ ": x")%string in
  let h2 := mkHost (Some "a.py") code None None
                   None None (Some false) None None None (fun p => p)
                   (fun _ _ _ => [])
                   (fun text p =>
                      ("", (p ++ ":1:1: invalid syntax" ++ String LF text)
                           %string))
                   (fun _ _ => (None, None)) in
  let h3 := mkHost (Some "a.py") "x = 1" None None
                   None None (Some false) None None None (fun p => p)
                   (fun _ _ _ => []) (fun _ _ => ("", ""))
                   (fun _ _ => (None, None)) in
  python_file h1 = true
  /\ main h1 s0
     = (Raise (TypeError "expected str, bytes or os.PathLike object"),
        mkState [editor_get_path; editor_clear_annotations;
                 editor_get_selection; editor_get_text; tab_save] None)
  /\ python_file h2 = true
  /\ main h2 s0
     = (Raise int_limit_error,
        mkState [editor_get_path; editor_clear_annotations;
                 editor_get_selection; editor_get_text; tab_save;
                 pep8_check_all [code]; pyflakes_check code "a.py"] None)
  /\ python_file h3 = true
  /\ main h3 s0
     = (Ok tt,
        mkState [editor_get_path; editor_clear_annotations;
                 editor_get_selection; editor_get_text; tab_save;
                 pep8_check_all ["x = 1"]; pyflakes_check "x = 1" "a.py";
                 console_hud_alert "No Issues Found" "iob:checkmark_32"
                                   (_hud_alert_delay h3)] None).
Proof. vm_compute. repeat split. Qed.

(** C8, amended: in a run of [main] on a Python file the calls come in this
    order.  The path is read and the annotations are cleared; the text is
    fetched and saved; then the linter stage runs: pep8 and pyflakes on
    that text when no flake8 options are set, flake8 when they are and the
    path of its report file can be built, and the reports are parsed into
    records.  If that stage raises, [main] raises the same and emits
    nothing.  If it returns no record, the selection is put back and the
    alert is shown.  If it returns records, they are merged per source line
    and one annotation is emitted for each distinct line, lines increasing,
    with the texts of the records of that line joined.  So no annotation
    comes before the clearing or before a linter run, and nothing is
    cleared later. *)
Theorem main_clears_then_lints_then_annotates (h : Host) (s : state) :
  python_file h = true ->
  exists path code found r prepare lint emit f',
    host_path h = Some path
    /\ main h s
       = (r, mkState (trace s
                      ++ [editor_get_path; editor_clear_annotations]
                      ++ prepare ++ lint ++ emit) f')
    /\ Forall (fun e => is_preparation e = true) prepare
    /\ Forall (fun e => is_linter_stage e = true) lint
    /\ Forall (fun e => is_report e = true) emit
    /\ Forall (fun e => is_annotation e = false)
              ([editor_get_path; editor_clear_annotations] ++ prepare ++ lint)
    /\ Forall (fun e => is_linter_run e = false)
              ([editor_get_path; editor_clear_annotations] ++ prepare)
    /\ Forall (fun e => is_linter_run e = false) emit
    /\ ~ In editor_clear_annotations (prepare ++ lint ++ emit)
    /\ main_annotations h path code
         (mkState (trace s ++ [editor_get_path; editor_clear_annotations]
                   ++ prepare) (output_file s))
       = (found,
          mkState (trace s ++ [editor_get_path; editor_clear_annotations]
                   ++ prepare ++ lint) f')
    /\ (options_truthy (config_flake8 h) = false ->
        lint = [pep8_check_all (splitlines true code);
                pyflakes_check code path])
    /\ (options_truthy (config_flake8 h) = true ->
        _tmp h <> None -> exists argv, In (flake8_run argv) lint)
    /\ match found with
       | Raise e => r = Raise e /\ emit = []
       | Ok [] =>
           r = Ok tt
           /\ emit = match host_selection h with
                     | Some (start, _) => [editor_set_selection start true]
                     | None => []
                     end
                     ++ [console_hud_alert "No Issues Found"
                                           "iob:checkmark_32"
                                           (_hud_alert_delay h)]
       | Ok annotations =>
           r = Ok tt
           /\ exists lines,
               StronglySorted Z.lt lines
               /\ (forall l, In l lines <-> In l (map line annotations))
               /\ Forall2
                    (fun l e =>
                       exists first rest scroll,
                         e = editor_annotate_line
                               l (join comma_newline
                                       (map text (first :: rest)))
                               (style first) true scroll
                         /\ Permutation
                              (first :: rest)
                              (filter (fun a => (line a =? l)%Z) annotations)
                         /\ StronglySorted (fun a b => __lt__ a b = false)
                                           (first :: rest))
                    lines emit
       end.
Proof.
  intros Hpy.
  assert (Hp : exists path, host_path h = Some path).
  { unfold python_file in Hpy. destruct (host_path h) as [p |];
      [now exists p | discriminate]. }
  destruct Hp as [path Hpath].
  pose proof (main_run_exact h s path Hpath Hpy) as Em.
  destruct (editor_text_run h
              (mkState (trace s ++ [editor_get_path; editor_clear_annotations;
                                    editor_get_selection])
                       (output_file s)))
    as [code [prep [E1 H1]]].
  rewrite E1 in Em. cbn [trace output_file] in Em.
  destruct (main_annotations_events h path code
              (mkState ((trace s ++ [editor_get_path; editor_clear_annotations;
                                     editor_get_selection]) ++ prep)
                       (output_file s)))
    as [found [lint [f2 [E2 [H2 [Ht Hf]]]]]].
  rewrite E2 in Em. cbn [trace output_file] in E2.
  assert (Hprep : (trace s ++ [editor_get_path; editor_clear_annotations;
                               editor_get_selection]) ++ prep
                  = trace s ++ [editor_get_path; editor_clear_annotations]
                    ++ editor_get_selection :: prep)
    by (now rewrite <- app_assoc).
  assert (Hlint : ((trace s ++ [editor_get_path; editor_clear_annotations;
                                editor_get_selection]) ++ prep) ++ lint
                  = trace s ++ [editor_get_path; editor_clear_annotations]
                    ++ (editor_get_selection :: prep) ++ lint)
    by (now rewrite <- !app_assoc).
  assert (Hstages :
            exists r emit,
              main h s
              = (r, mkState ((((trace s
                                ++ [editor_get_path; editor_clear_annotations;
                                    editor_get_selection]) ++ prep) ++ lint)
                             ++ emit) f2)
              /\ Forall (fun e => is_report e = true) emit
              /\ match found with
                 | Raise e => r = Raise e /\ emit = []
                 | Ok [] =>
                     r = Ok tt
                     /\ emit = match host_selection h with
                               | Some (start, _) =>
                                   [editor_set_selection start true]
                               | None => []
                               end
                               ++ [console_hud_alert "No Issues Found"
                                                     "iob:checkmark_32"
                                                     (_hud_alert_delay h)]
                 | Ok annotations =>
                     r = Ok tt
                     /\ exists lines,
                         StronglySorted Z.lt lines
                         /\ (forall l,
                                In l lines <-> In l (map line annotations))
                         /\ Forall2
                              (fun l e =>
                                 exists first rest scroll,
                                   e = editor_annotate_line
                                         l (join comma_newline
                                                 (map text (first :: rest)))
                                         (style first) true scroll
                                   /\ Permutation
                                        (first :: rest)
                                        (filter (fun a => (line a =? l)%Z)
                                                annotations)
                                   /\ StronglySorted
                                        (fun a b => __lt__ a b = false)
                                        (first :: rest))
                              lines emit
                 end).
  { destruct found as [[| a0 l0] | e].
    - exists (Ok tt). eexists. split; [| split; [| split; reflexivity]].
      + rewrite Em. unfold main_report, bind, call, ret.
        destruct (host_selection h) as [[start stop] |]; simpl;
          now rewrite <- ?app_assoc.
      + destruct (host_selection h) as [[start stop] |];
          repeat constructor.
    - pose proof (main_annotations_from_one_run _ _ _ _ _ _ E2) as Hone.
      destruct (main_report_merges_per_line
                  h (host_selection h) (a0 :: l0)
                  (mkState (((trace s
                              ++ [editor_get_path; editor_clear_annotations;
                                  editor_get_selection]) ++ prep) ++ lint) f2)
                  Hone)
        as [lines [emitted [E3 [Hs [Hl HF]]]]]; [discriminate |].
      exists (Ok tt), emitted. split; [| split; [| split]].
      + rewrite Em. exact E3.
      + eapply Forall2_Forall_r; [| exact HF].
        now intros l e [first [rest [sc [-> _]]]].
      + reflexivity.
      + now exists lines.
    - exists (Raise e), []. rewrite app_nil_r.
      split; [exact Em | split; [constructor | now split]]. }
  destruct Hstages as [r [emit [E [H3 Hshape]]]].
  exists path, code, found, r, (editor_get_selection :: prep), lint, emit, f2.
  assert (H1' : Forall (fun e => is_preparation e = true)
                       (editor_get_selection :: prep))
    by (constructor; [reflexivity | exact H1]).
  split; [exact Hpath |]. split.
  { rewrite E. f_equal. f_equal. now rewrite <- !app_assoc. }
  split; [exact H1' |]. split; [exact H2 |]. split; [exact H3 |].
  split; [| split; [| split; [| split; [| split; [| split; [| split]]]]]].
  - repeat (apply Forall_app; split).
    + repeat constructor.
    + eapply Forall_impl; [| exact H1']. intros e He.
      now apply preparation_is_no_run.
    + eapply Forall_impl; [| exact H2]. intros e He.
      now apply linter_stage_is_no_annotation.
  - apply Forall_app. split; [repeat constructor |].
    eapply Forall_impl; [| exact H1']. intros e He.
    now apply preparation_is_no_run.
  - eapply Forall_impl; [| exact H3]. intros e He.
    now apply report_is_no_run.
  - intros Hin. apply in_app_or in Hin. destruct Hin as [Hin | Hin].
    + rewrite Forall_forall in H1'.
      now destruct (preparation_is_no_run _ (H1' _ Hin)) as [_ [_ Hne]].
    + apply in_app_or in Hin. destruct Hin as [Hin | Hin].
      * rewrite Forall_forall in H2.
        now destruct (linter_stage_is_no_annotation _ (H2 _ Hin)) as [_ Hne].
      * rewrite Forall_forall in H3.
        now destruct (report_is_no_run _ (H3 _ Hin)) as [_ Hne].
  - rewrite <- Hprep, <- Hlint. exact E2.
  - exact Hf.
  - intros Hc Htmp. now apply Ht.
  - exact Hshape.
Qed.

Lemma main_clears_then_lints_then_annotates_witness :
  let h := sample_host (Some "a.py") None (fun _ _ => (None, None)) in
  let s0 := mkState [] None in
  exists code r prepare lint emit f',
    main h s0
    = (r, mkState ([editor_get_path; editor_clear_annotations]
                   ++ prepare ++ lint ++ emit) f')
    /\ lint = [pep8_check_all (splitlines true code);
               pyflakes_check code "a.py"]
    /\ Forall (fun e => is_report e = true) emit
    /\ Forall (fun e => is_annotation e = false)
              ([editor_get_path; editor_clear_annotations] ++ prepare ++ lint).
Proof.
  intros h s0.
  destruct (main_clears_then_lints_then_annotates h s0 eq_refl)
    as [path [code [found [r [prepare [lint [emit [f' H]]]]]]]].
  destruct H as [Hp [E [_ [_ [H3 [H4 [_ [_ [_ [_ [Hf _]]]]]]]]]]].
  injection Hp as <-.
  exists code, r, prepare, lint, emit, f'.
  split; [exact E | split; [exact (Hf eq_refl) | split; [exact H3 | exact H4]]].
Defined.

(** ** The order of the records of one run *)

(** X10: [__lt__] never puts a record below itself, and on the records of
    one run of [main] (flake8 records only, or pyflakes records and pep8
    warnings) it is a strict weak order: it is asymmetric and transitive,
    and being neither below nor above is transitive too. *)
Theorem lt_is_a_strict_weak_order_in_one_run
    (l : list _AnalyzerAnnotation) (a b c : _AnalyzerAnnotation) :
  from_one_run l -> In a l -> In b l -> In c l ->
  __lt__ a a = false
  /\ (__lt__ a b = true -> __lt__ b a = false)
  /\ (__lt__ a b = true -> __lt__ b c = true -> __lt__ a c = true)
  /\ (__lt__ a b = false -> __lt__ b a = false ->
      __lt__ b c = false -> __lt__ c b = false ->
      __lt__ a c = false /\ __lt__ c a = false).
Proof.
  intros Hl Ha Hb Hc.
  pose proof (lt_compares_by_priority l Hl) as H.
  rewrite (H a a), (H a b), (H b a), (H b c), (H c b), (H a c), (H c a)
    by assumption.
  repeat split; intros; rewrite ?Z.ltb_lt, ?Z.ltb_ge in *; lia.
Qed.

Lemma lt_is_a_strict_weak_order_in_one_run_witness :
  let p := mkAnnotation 1 "E501" _Source.pep8 Style.warning in
  let w := mkAnnotation 1 "unused" _Source.pyflakes Style.warning in
  let e := mkAnnotation 1 "syntax" _Source.pyflakes Style.error in
  __lt__ p p = false
  /\ (__lt__ p w = true -> __lt__ w p = false)
  /\ (__lt__ p w = true -> __lt__ w e = true -> __lt__ p e = true)
  /\ (__lt__ p w = false -> __lt__ w p = false ->
      __lt__ w e = false -> __lt__ e w = false ->
      __lt__ p e = false /\ __lt__ e p = false).
Proof.
  intros p w e.
  apply (lt_is_a_strict_weak_order_in_one_run [p; w; e] p w e).
  - right. constructor; [right; now split |].
    constructor; [now left |]. constructor; [now left | constructor].
  - now left.
  - right. now left.
  - right. right. now left.
Defined.

Section Stability.
Context {A : Type} (lt : A -> A -> bool) (rank : A -> Z).

Lemma insort_stable (x : A) (l : list A) (r : Z) :
  (forall y, In y l -> lt x y = (rank x <? rank y)%Z) ->
  StronglySorted (fun a b => (rank a <= rank b)%Z) l ->
  filter (fun a => (rank a =? r)%Z) (insort lt x l)
  = filter (fun a => (rank a =? r)%Z) l
    ++ (if (rank x =? r)%Z then [x] else []).
Proof.
  intros Hx H. induction H as [| y l H IH Hy]; simpl.
  - reflexivity.
  - rewrite (Hx y) by now left.
    destruct (rank x <? rank y)%Z eqn:E.
    + apply Z.ltb_lt in E. simpl.
      destruct (rank x =? r)%Z eqn:Er; [| now rewrite app_nil_r].
      apply Z.eqb_eq in Er.
      assert (Hy' : (rank y =? r)%Z = false) by (apply Z.eqb_neq; lia).
      rewrite Hy'. rewrite filter_none; [reflexivity |].
      eapply Forall_impl; [| exact Hy]. simpl.
      intros a Ha. apply Z.eqb_neq. lia.
    + simpl. rewrite IH by (intros z Hz; apply Hx; now right).
      now destruct (rank y =? r)%Z.
Qed.

Lemma fold_insort_stable (l : list A) (r : Z) :
  forall acc,
    compares_by_rank lt rank (acc ++ l) ->
    StronglySorted (fun a b => (rank a <= rank b)%Z) acc ->
    filter (fun a => (rank a =? r)%Z)
           (fold_left (fun acc x => insort lt x acc) l acc)
    = filter (fun a => (rank a =? r)%Z) acc
      ++ filter (fun a => (rank a =? r)%Z) l.
Proof.
  induction l as [| x l IH]; intros acc Hc Hs; simpl.
  - now rewrite app_nil_r.
  - assert (Hp : Permutation (insort lt x acc ++ l) (acc ++ x :: l)).
    { rewrite insort_perm. apply Permutation_middle. }
    assert (Hx : forall y, In y acc -> lt x y = (rank x <? rank y)%Z).
    { intros y Hy. apply Hc; apply in_or_app; [right; now left | now left]. }
    rewrite IH.
    + rewrite (insort_stable x acc r Hx Hs), <- app_assoc.
      now destruct (rank x =? r)%Z.
    + intros a b Ha Hb. apply Hc; eapply Permutation_in; eauto.
    + now apply insort_sorted.
Qed.

(** Sorting keeps the elements of one rank in the order they came in, also
    with [reverse=True]. *)
Lemma sorted_stable (reverse : bool) (l : list A) (r : Z) :
  compares_by_rank lt rank l ->
  filter (fun a => (rank a =? r)%Z) (sorted lt reverse l)
  = filter (fun a => (rank a =? r)%Z) l.
Proof.
  intros Hc. unfold sorted, sort_with. destruct reverse.
  - rewrite filter_rev, fold_insort_stable.
    + simpl. now rewrite filter_rev, rev_involutive.
    + intros a b Ha Hb. apply Hc; now apply in_rev.
    + constructor.
  - now rewrite fold_insort_stable; [| | constructor].
Qed.
End Stability.

(** A list that goes down in priority is its records of priority 2, then
    those of priority 1, then those of priority 0. *)
Lemma descending_by_priority (l : list _AnalyzerAnnotation) :
  StronglySorted (fun a b => (priority b <= priority a)%Z) l ->
  l = filter (fun a => (priority a =? 2)%Z) l
      ++ filter (fun a => (priority a =? 1)%Z) l
      ++ filter (fun a => (priority a =? 0)%Z) l.
Proof.
  assert (Hrange : forall a, (0 <= priority a <= 2)%Z).
  { intros a. unfold priority. destruct (source a), (style a); lia. }
  induction 1 as [| a l H IH Ha]; [reflexivity |].
  assert (Hcut : forall k, (priority a < k)%Z ->
                           filter (fun b => (priority b =? k)%Z) l = []).
  { intros k Hk. apply filter_none.
    eapply Forall_impl; [| exact Ha]. simpl.
    intros b Hb. apply Z.eqb_neq. lia. }
  pose proof (Hrange a) as Hr.
  assert (Hp : priority a = 2%Z \/ priority a = 1%Z \/ priority a = 0%Z) by lia.
  simpl. destruct Hp as [P | [P | P]]; rewrite P in *; simpl.
  - f_equal. exact IH.
  - rewrite (Hcut 2%Z) in * by lia. simpl in *. f_equal. exact IH.
  - rewrite (Hcut 2%Z), (Hcut 1%Z) in * by lia. simpl in *. f_equal. exact IH.
Qed.

Lemma sorted_reverse_by_priority (l : list _AnalyzerAnnotation) :
  from_one_run l ->
  sorted __lt__ true l
  = filter (fun a => (priority a =? 2)%Z) l
    ++ filter (fun a => (priority a =? 1)%Z) l
    ++ filter (fun a => (priority a =? 0)%Z) l.
Proof.
  intros Hl. pose proof (lt_compares_by_priority l Hl) as Hc.
  rewrite <- !(sorted_stable __lt__ priority true l) by exact Hc.
  apply descending_by_priority.
  assert (Hr : compares_by_rank __lt__ priority (rev l)).
  { intros a b Ha Hb. apply Hc; now apply in_rev. }
  exact (StronglySorted_rev _ _ (sort_with_sorted __lt__ priority (rev l) Hr)).
Qed.

(** X11: the order in which [_annotate] lists the records of a line.  In a
    flake8 run: the errors, then the warnings.  In a pep8 and pyflakes run:
    the pyflakes errors, then the pyflakes warnings, then the pep8
    findings.  Within each of these the records keep the order they were
    reported in. *)
Theorem annotate_lists_errors_first (l : list _AnalyzerAnnotation) :
  (Forall (fun a => source a = _Source.flake8) l ->
   sorted __lt__ true l
   = filter (fun a => Style.is_ (style a) Style.error) l
     ++ filter (fun a => Style.is_ (style a) Style.warning) l)
  /\ (Forall (fun a => source a = _Source.pyflakes
                       \/ (source a = _Source.pep8 /\ style a = Style.warning))
             l ->
      sorted __lt__ true l
      = filter (fun a => _Source.is_ (source a) _Source.pyflakes
                         && Style.is_ (style a) Style.error) l
        ++ filter (fun a => _Source.is_ (source a) _Source.pyflakes
                            && Style.is_ (style a) Style.warning) l
        ++ filter (fun a => _Source.is_ (source a) _Source.pep8) l).
Proof.
  split; intros H.
  - rewrite (sorted_reverse_by_priority l (or_introl H)).
    rewrite Forall_forall in H.
    rewrite (filter_none (fun a => (priority a =? 2)%Z)).
    + simpl. f_equal; apply filter_ext_in; intros a Ha;
        unfold priority; rewrite (H a Ha); now destruct (style a).
    + apply Forall_forall. intros a Ha.
      unfold priority. rewrite (H a Ha). now destruct (style a).
  - rewrite (sorted_reverse_by_priority l (or_intror H)).
    rewrite Forall_forall in H.
    f_equal; [| f_equal]; apply filter_ext_in; intros a Ha;
      unfold priority; destruct (H a Ha) as [Hs | [Hs Hst]];
      rewrite Hs; try rewrite Hst; now destruct (style a).
Qed.

Lemma annotate_lists_errors_first_witness :
  let p := mkAnnotation 3 "E501 line too long" _Source.pep8 Style.warning in
  let w := mkAnnotation 3 "unused variable" _Source.pyflakes Style.warning in
  let e := mkAnnotation 3 "invalid syntax" _Source.pyflakes Style.error in
  let w2 := mkAnnotation 3 "undefined name" _Source.pyflakes Style.warning in
  sorted __lt__ true [p; w; e; w2] = [e; w; w2; p].
Proof.
  intros p w e w2.
  rewrite (proj2 (annotate_lists_errors_first [p; w; e; w2])).
  - reflexivity.
  - constructor; [right; now split |].
    constructor; [now left |]. constructor; [now left |].
    constructor; [now left | constructor].
Defined.

(** X12: for the records of one run of [main], [_annotate] places exactly
    one annotation, and its style is error exactly when one of the records
    is an error. *)
Theorem annotate_is_error_iff_some_record_is
    (l : Z) (annotations : list _AnalyzerAnnotation) (scroll : bool)
    (s : state) :
  from_one_run annotations ->
  annotations <> [] ->
  exists t st,
    _annotate l annotations scroll s
    = (Ok tt,
       mkState (trace s ++ [editor_annotate_line l t st true scroll])
               (output_file s))
    /\ (st = Style.error
        <-> exists a, In a annotations /\ style a = Style.error).
Proof.
  intros Hone Hne.
  pose proof (sorted_perm __lt__ true annotations) as Hperm.
  pose proof (sorted_reverse_descending __lt__ priority annotations
                (lt_compares_by_priority _ Hone)) as Hdesc.
  unfold _annotate.
  destruct (sorted __lt__ true annotations) as [| first rest].
  { apply Permutation_nil in Hperm. now elim Hne. }
  eexists. exists (style first). split; [reflexivity |].
  split.
  - intros Hst. exists first. split; [| exact Hst].
    apply (Permutation_in _ Hperm). now left.
  - intros [a [Ha Hst]].
    apply (Permutation_in _ (Permutation_sym Hperm)) in Ha.
    destruct Ha as [<- | Ha]; [exact Hst |].
    apply StronglySorted_inv in Hdesc. destruct Hdesc as [_ Hfirst].
    rewrite Forall_forall in Hfirst. specialize (Hfirst a Ha).
    destruct (style first) eqn:Ef; [| reflexivity].
    assert (Hlt : __lt__ first a = true)
      by (apply lt_true_iff; right; right; now split).
    congruence.
Qed.

Lemma annotate_is_error_iff_some_record_is_witness :
  let p := mkAnnotation 3 "E501 line too long" _Source.pep8 Style.warning in
  let e := mkAnnotation 3 "invalid syntax" _Source.pyflakes Style.error in
  exists t st,
    _annotate 3 [p; e] true (mkState [] None)
    = (Ok tt, mkState [editor_annotate_line 3 t st true true] None)
    /\ (st = Style.error
        <-> exists a, In a [p; e] /\ style a = Style.error).
Proof.
  intros p e.
  apply (annotate_is_error_iff_some_record_is 3 [p; e] true (mkState [] None)).
  - right. constructor; [right; now split |].
    constructor; [now left | constructor].
  - discriminate.
Defined.

(** ** What the patterns accept *)

Lemma slice_to_from (n : nat) (s : string) :
  (slice_to n s ++ slice_from n s)%string = s.
Proof.
  revert s. induction n as [| n IH]; intros s; simpl; [reflexivity |].
  destruct s as [| c s]; simpl; [reflexivity | now rewrite IH].
Qed.

Lemma match_lit_inv (c : ascii) (rest : list atom) (pos : nat) (s : string)
    (groups : list string) :
  match_atoms (Lit c :: rest) pos s = Some groups ->
  exists s', s = String c s' /\ match_atoms rest (S pos) s' = Some groups.
Proof.
  destruct s as [| c' s']; [discriminate |].
  rewrite match_lit_eq. destruct (Ascii.eqb c c') eqn:E; [| discriminate].
  apply Ascii.eqb_eq in E. subst c'. intros H. now exists s'.
Qed.

Lemma match_eol_inv (pos : nat) (s : string) (groups : list string) :
  match_atoms [Eol] pos s = Some groups -> s = "" /\ groups = [].
Proof.
  change (match_atoms [Eol] pos s)
    with (if String.eqb s "" || String.eqb s (String LF "")
          then match s with
               | EmptyString => Some (@nil string)
               | String _ _ => None
               end
          else None).
  destruct s as [| c s].
  - simpl. intros H. injection H as <-. now split.
  - destruct (String.eqb (String c s) "" || String.eqb (String c s) (String LF ""));
      discriminate.
Qed.

Lemma match_number_inv (rest : list atom) (pos : nat) (s : string)
    (m : list string) :
  match_atoms (Group is_digit 1 :: rest) pos s = Some m ->
  exists L s' groups,
    s = (L ++ s')%string /\ m = L :: groups /\ is_number L = true
    /\ match_atoms rest (pos + String.length L) s' = Some groups.
Proof.
  intros H. apply match_group_inv in H.
  destruct H as [n [groups [-> [[Hlo Hhi] Hrest]]]].
  destruct (slice_to_run is_digit s n Hhi) as [Hd Hl].
  exists (slice_to n s), (slice_from n s), groups.
  split; [now rewrite slice_to_from |]. split; [reflexivity |].
  split; [| now rewrite Hl].
  unfold is_number. rewrite Hd.
  destruct (slice_to n s); [simpl in Hl; lia | reflexivity].
Qed.

Lemma match_rest_inv (pos : nat) (s : string) (m : list string) :
  match_atoms [Group is_dot 0; Eol] pos s = Some m ->
  m = [s] /\ string_forallb is_dot s = true.
Proof.
  intros H. apply match_group_inv in H.
  destruct H as [n [groups [-> [[_ Hhi] Hrest]]]].
  apply match_eol_inv in Hrest. destruct Hrest as [Hend ->].
  destruct (slice_to_run is_dot s n Hhi) as [Hd _].
  pose proof (slice_to_from n s) as E. rewrite Hend, append_empty_r in E.
  rewrite E in *. now split.
Qed.

(** The first pattern matches nothing but line, column and message. *)
Lemma fullmatch_line_col_inv (s : string) (m : match_object) :
  fullmatch _LINE_COL_MESSAGE_REGEX s = Some m ->
  exists L C msg,
    s = (L ++ ":" ++ C ++ ": " ++ msg)%string /\ m = [L; C; msg]
    /\ is_number L = true /\ is_number C = true
    /\ string_forallb is_dot msg = true.
Proof.
  unfold fullmatch, _LINE_COL_MESSAGE_REGEX.
  change (match_atoms (Bol :: ?r) 0 s) with (match_atoms r 0 s).
  intros H. apply match_number_inv in H.
  destruct H as [L [s1 [g1 [-> [-> [HL H]]]]]].
  apply match_lit_inv in H. destruct H as [s2 [-> H]].
  apply match_number_inv in H.
  destruct H as [C [s3 [g2 [-> [-> [HC H]]]]]].
  apply match_lit_inv in H. destruct H as [s4 [-> H]].
  apply match_lit_inv in H. destruct H as [msg [-> H]].
  apply match_rest_inv in H. destruct H as [-> Hmsg].
  exists L, C, msg. now repeat split.
Qed.

(** The second pattern matches nothing but line and message. *)
Lemma fullmatch_line_message_inv (s : string) (m : match_object) :
  fullmatch _LINE_MESSAGE_REGEX s = Some m ->
  exists L msg,
    s = (L ++ ": " ++ msg)%string /\ m = [L; msg]
    /\ is_number L = true /\ string_forallb is_dot msg = true.
Proof.
  unfold fullmatch, _LINE_MESSAGE_REGEX.
  change (match_atoms (Bol :: ?r) 0 s) with (match_atoms r 0 s).
  intros H. apply match_number_inv in H.
  destruct H as [L [s1 [g1 [-> [-> [HL H]]]]]].
  apply match_lit_inv in H. destruct H as [s2 [-> H]].
  apply match_lit_inv in H. destruct H as [msg [-> H]].
  apply match_rest_inv in H. destruct H as [-> Hmsg].
  exists L, msg. now repeat split.
Qed.

Lemma line_match_inv (path line : string) :
  line_match path line = None
  \/ exists L msg,
      startswith line path = true /\ is_number L = true
      /\ string_forallb is_dot msg = true
      /\ ((exists C,
              is_number C = true
              /\ remainder path line = (L ++ ":" ++ C ++ ": " ++ msg)%string
              /\ line_match path line = Some [L; C; msg])
          \/ (remainder path line = (L ++ ": " ++ msg)%string
              /\ line_match path line = Some [L; msg])).
Proof.
  unfold line_match.
  destruct (startswith line path); [| now left].
  destruct (fullmatch _LINE_COL_MESSAGE_REGEX (remainder path line))
    as [m |] eqn:E1.
  - right. apply fullmatch_line_col_inv in E1.
    destruct E1 as [L [C [msg [E [-> [HL [HC Hmsg]]]]]]].
    exists L, msg. repeat split; try assumption.
    left. exists C. now repeat split.
  - destruct (fullmatch _LINE_MESSAGE_REGEX (remainder path line))
      as [m |] eqn:E2; [| now left].
    right. apply fullmatch_line_message_inv in E2.
    destruct E2 as [L [msg [E [-> [HL Hmsg]]]]].
    exists L, msg. repeat split; try assumption.
    right. now split.
Qed.

(** X13: a report line gives [_get_annotations] at most one record, and it
    gives one only if it starts with the path and what follows the path and
    one more character is digits, a colon, digits, a colon, a blank and the
    message, or digits, a colon, a blank and the message.  On such a line
    the record has that line number and that text when the line number has
    at most 4300 digits; when it has more, [int] raises ValueError and no
    list is returned. *)
Theorem get_annotations_reads_only_report_lines (path line : string)
    (style : Style.t) :
  _get_annotations_loop path style [line] [] = Ok []
  \/ exists L msg,
      startswith line path = true /\ is_number L = true
      /\ string_forallb is_dot msg = true
      /\ ((exists C,
              is_number C = true
              /\ remainder path line = (L ++ ":" ++ C ++ ": " ++ msg)%string
              /\ _get_annotations_loop path style [line] []
                 = if within_int_limit L
                   then Ok [mkAnnotation (number_value L)
                                         ("Col " ++ C ++ ": " ++ msg)%string
                                         _Source.pyflakes style]
                   else Raise int_limit_error)
          \/ (remainder path line = (L ++ ": " ++ msg)%string
              /\ _get_annotations_loop path style [line] []
                 = if within_int_limit L
                   then Ok [mkAnnotation (number_value L) msg
                                         _Source.pyflakes style]
                   else Raise int_limit_error)).
Proof.
  rewrite get_annotations_loop_eq.
  cbn [existsb flat_map app]. rewrite orb_false_r, app_nil_r.
  unfold over_limit, line_records.
  destruct (line_match_inv path line)
    as [-> | [L [msg [Hs [HL [Hmsg H]]]]]]; [now left | right].
  exists L, msg. repeat split; try assumption.
  destruct H as [[C [HC [E ->]]] | [E ->]]; [left | right].
  - exists C. split; [exact HC | split; [exact E |]].
    change (group [L; C; msg] 1) with L.
    now destruct (within_int_limit L).
  - split; [exact E |].
    change (group [L; msg] 1) with L.
    now destruct (within_int_limit L).
Qed.

(** X14: the same for [_parse_flake8_output]: a line of the report gives at
    most one record, only if it has one of the two forms; the record's
    style is warning exactly when the message starts with W, and a line
    number of more than 4300 digits makes [int] raise ValueError
    instead. *)
Theorem parse_flake8_output_reads_only_report_lines (path line : string) :
  _parse_flake8_output_loop path [line] [] = Ok []
  \/ exists L msg,
      startswith line path = true /\ is_number L = true
      /\ string_forallb is_dot msg = true
      /\ ((exists C,
              is_number C = true
              /\ remainder path line = (L ++ ":" ++ C ++ ": " ++ msg)%string
              /\ _parse_flake8_output_loop path [line] []
                 = if within_int_limit L
                   then Ok [mkAnnotation (number_value L)
                                         ("Col " ++ C ++ ": " ++ msg)%string
                                         _Source.flake8
                                         (if startswith msg "W"
                                          then Style.warning
                                          else Style.error)]
                   else Raise int_limit_error)
          \/ (remainder path line = (L ++ ": " ++ msg)%string
              /\ _parse_flake8_output_loop path [line] []
                 = if within_int_limit L
                   then Ok [mkAnnotation (number_value L) msg _Source.flake8
                                         (if startswith msg "W"
                                          then Style.warning
                                          else Style.error)]
                   else Raise int_limit_error)).
Proof.
  rewrite parse_flake8_output_loop_eq.
  cbn [existsb flat_map app]. rewrite orb_false_r, app_nil_r.
  unfold over_limit, line_records.
  destruct (line_match_inv path line)
    as [-> | [L [msg [Hs [HL [Hmsg H]]]]]]; [now left | right].
  exists L, msg. repeat split; try assumption.
  destruct H as [[C [HC [E ->]]] | [E ->]]; [left | right].
  - exists C. split; [exact HC | split; [exact E |]].
    change (group [L; C; msg] 1) with L.
    now destruct (within_int_limit L).
  - split; [exact E |].
    change (group [L; msg] 1) with L.
    now destruct (within_int_limit L).
Qed.

(** X15: the character after the path is cut off unseen: whatever it is, a
    line that goes on with a line number of at most 4300 digits, a colon, a
    blank and a message gives the record of that line number and message,
    in [_get_annotations] and in [_parse_flake8_output] alike. *)
Theorem path_separator_is_not_checked (path L msg : string) (c : ascii)
    (style : Style.t) :
  is_number L = true ->
  within_int_limit L = true ->
  string_forallb is_dot msg = true ->
  _get_annotations_loop path style
    [(path ++ String c (L ++ ": " ++ msg))%string] []
  = Ok [mkAnnotation (number_value L) msg _Source.pyflakes style]
  /\ _parse_flake8_output_loop path
       [(path ++ String c (L ++ ": " ++ msg))%string] []
     = Ok [mkAnnotation (number_value L) msg _Source.flake8 (get_style msg)].
Proof.
  intros HL Hlim Hmsg.
  assert (H : line_match path (path ++ String c (L ++ ": " ++ msg))%string
              = Some [L; msg]).
  { unfold line_match, startswith.
    rewrite prefix_app, remainder_app.
    destruct (fullmatch_line_message L msg HL Hmsg) as [-> ->].
    reflexivity. }
  rewrite get_annotations_loop_eq, parse_flake8_output_loop_eq.
  cbn [existsb flat_map app]. rewrite orb_false_r, !app_nil_r.
  unfold over_limit, line_records. rewrite H.
  change (group [L; msg] 1) with L. rewrite Hlim. now split.
Qed.

Lemma path_separator_is_not_checked_witness :
  _get_annotations_loop "a.py" Style.error ["a.py312: invalid syntax"] []
  = Ok [mkAnnotation (number_value "12") "invalid syntax"
                     _Source.pyflakes Style.error]
  /\ _parse_flake8_output_loop "a.py" ["a.py312: invalid syntax"] []
     = Ok [mkAnnotation (number_value "12") "invalid syntax" _Source.flake8
                        (get_style "invalid syntax")].
Proof.
  apply (path_separator_is_not_checked "a.py" "12" "invalid syntax" "3"
                                       Style.error); reflexivity.
Defined.

Lemma int_digits_nonneg (s : string) :
  forall acc n, int_digits acc s = Some n -> (0 <= acc)%Z -> (0 <= n)%Z.
Proof.
  induction s as [| c s IH]; cbn [int_digits]; intros acc n H Hacc.
  - injection H as <-. exact Hacc.
  - destruct (is_digit c) eqn:Ec; [| discriminate].
    apply (IH _ _ H).
    unfold is_digit in Ec. apply andb_true_iff in Ec. destruct Ec as [E1 _].
    apply Nat.leb_le in E1. lia.
Qed.

Lemma number_value_nonneg (s : string) : (0 <= number_value s)%Z.
Proof.
  unfold number_value. destruct (int_digits 0 s) as [n |] eqn:E; [| lia].
  apply (int_digits_nonneg s 0 n E). lia.
Qed.

Lemma line_records_nonneg (src : _Source.t) (style_of : string -> Style.t)
    (path : string) (lines : list string) :
  Forall (fun a => (0 <= line a)%Z)
         (flat_map (line_records src style_of path) lines).
Proof.
  apply Forall_flat_map. apply Forall_forall. intros l _.
  unfold line_records. destruct (line_match path l) as [m |];
    constructor; [| constructor].
  unfold record_of_match. destruct (lastindex m =? 3)%nat; simpl;
    apply number_value_nonneg.
Qed.

(** X16: no record parsed from a report has a negative line number,
    whatever the report holds. *)
Theorem parsed_line_numbers_are_not_negative :
  (forall path stream style annotations,
      _get_annotations path stream style = Ok annotations ->
      Forall (fun a => (0 <= line a)%Z) annotations)
  /\ (forall path output annotations,
         _parse_flake8_output path output = Ok annotations ->
         Forall (fun a => (0 <= line a)%Z) annotations).
Proof.
  split.
  - intros path stream style annotations H.
    unfold _get_annotations in H. apply get_annotations_loop_ok in H.
    destruct H as [_ ->]. apply line_records_nonneg.
  - intros path [report |] annotations H; [| discriminate H].
    unfold _parse_flake8_output in H.
    apply parse_flake8_output_loop_ok in H.
    destruct H as [_ ->]. apply line_records_nonneg.
Qed.

Lemma parsed_line_numbers_are_not_negative_witness :
  Forall (fun a => (0 <= line a)%Z)
         [mkAnnotation 0 "Col 0: E902 IOError" _Source.flake8 Style.error].
Proof.
  apply (proj2 parsed_line_numbers_are_not_negative
           "a.py" (Some "a.py:0:0: E902 IOError")).
  reflexivity.
Defined.

(** ** pep8 and pyflakes *)

Lemma pep8_report_fold_eq (calls : list pep8_error_call) :
  forall annotations,
    fold_left _Pep8AnnotationReport_error calls annotations
    = annotations
      ++ map (fun c => mkAnnotation (pep8_line_offset c + pep8_line_number c)
                                    (pep8_text c) _Source.pep8 Style.warning)
             (filter (fun c => code_truthy (pep8_super_error c)) calls).
Proof.
  induction calls as [| c calls IH]; intros annotations; simpl.
  - now rewrite app_nil_r.
  - rewrite IH. unfold _Pep8AnnotationReport_error.
    destruct (code_truthy (pep8_super_error c)); simpl;
      [now rewrite <- app_assoc | reflexivity].
Qed.

(** X17: [_pep8_annotations] returns one record for each error the base
    report accepts (answers with a non-empty code), in the order pep8
    reports them, at line [line_offset + line_number] and with pep8's text;
    an error the base report turns down leaves no record.  A missing or
    empty ignore list ignores nothing, and a missing or zero line length
    leaves pep8 its own. *)
Theorem pep8_annotations_follow_the_report (h : Host) (code : string)
    (ignore : option (list string)) (max_line_length : option Z) (s : state) :
  _pep8_annotations h code ignore max_line_length s
  = (Ok (map (fun c => mkAnnotation (pep8_line_offset c + pep8_line_number c)
                                    (pep8_text c) _Source.pep8 Style.warning)
             (filter (fun c => code_truthy (pep8_super_error c))
                     (pep8_checker h (splitlines true code)
                        match ignore with Some codes => codes | None => [] end
                        match max_line_length with
                        | Some n => if (n =? 0)%Z then None else Some n
                        | None => None
                        end))),
     mkState (trace s ++ [pep8_check_all (splitlines true code)])
             (output_file s)).
Proof.
  unfold _pep8_annotations, bind, call, ret. simpl.
  rewrite pep8_report_fold_eq. simpl.
  now destruct ignore as [[| c l] |].
Qed.

(** X18: [_pyflakes_annotations] runs pyflakes once and reads its warning
    stream, then its error stream, with [_get_annotations].  It raises
    exactly when one of the two streams has a line number of more than 4300
    digits in a line it matches, and then it raises the ValueError of
    [int]; otherwise it returns the records of the warning stream, as
    warnings, followed by those of the error stream, as errors: the stream
    decides the style, not the message. *)
Theorem pyflakes_annotations_are_warnings_then_errors (h : Host)
    (path code : string) (s : state) :
  exists warnings errors,
    _get_annotations path (fst (pyflakes_reporter h code path)) Style.warning
    = (if stream_over_limit path (fst (pyflakes_reporter h code path))
       then Raise int_limit_error else Ok warnings)
    /\ _get_annotations path (snd (pyflakes_reporter h code path)) Style.error
       = (if stream_over_limit path (snd (pyflakes_reporter h code path))
          then Raise int_limit_error else Ok errors)
    /\ _pyflakes_annotations h path code s
       = (if stream_over_limit path (fst (pyflakes_reporter h code path))
             || stream_over_limit path (snd (pyflakes_reporter h code path))
          then Raise int_limit_error else Ok (warnings ++ errors),
          mkState (trace s ++ [pyflakes_check code path]) (output_file s))
    /\ Forall (fun a => style a = Style.warning) warnings
    /\ Forall (fun a => style a = Style.error) errors.
Proof.
  rewrite pyflakes_annotations_run. unfold _get_annotations, stream_over_limit.
  rewrite !get_annotations_loop_eq. cbn [app].
  eexists. eexists.
  split; [reflexivity |]. split; [reflexivity |]. split.
  - destruct (existsb _ _); [reflexivity |].
    now destruct (existsb _ _).
  - split; (eapply Forall_impl; [| apply flat_line_records_shape]);
      now intros a [_ [_ Hs]].
Qed.

(** ** The report file of flake8 *)

Lemma flake8_loop_ignores_the_file (h : Host) (path file : string)
    (o : list string) (options : list (list string))
    (acc : list _AnalyzerAnnotation) (s : state) (f : option string) :
  _flake8_annotations_loop h path file (o :: options) acc
                           (mkState (trace s) f)
  = _flake8_annotations_loop h path file (o :: options) acc s.
Proof.
  simpl. unfold bind at 1 3, try_except.
  rewrite !flake8_run_one_eq. reflexivity.
Qed.

(** X19: a report file left over from before does not count: once the
    path of the report file can be built, what [_flake8_annotations] returns
    and does is the same whether or not such a file exists when it starts
    (each run is entered with the file removed), and when it returns the
    file is gone. *)
Theorem flake8_annotations_ignore_a_stale_report (h : Host)
    (path file : string) (options : list (list string)) (s : state) :
  os_path_join (_tmp h) "blackmamba.flake8.txt" = Ok file ->
  (forall stale,
      _flake8_annotations h path options (mkState (trace s) stale)
      = _flake8_annotations h path options s)
  /\ (forall annotations s',
         _flake8_annotations h path options s = (Ok annotations, s') ->
         output_file s' = None).
Proof.
  intros Hfile. split.
  - intros stale. unfold _flake8_annotations, bind at 1 3, lift.
    rewrite Hfile. unfold bind at 1 3.
    destruct options as [| o options].
    + reflexivity.
    + now rewrite flake8_loop_ignores_the_file.
  - intros annotations s'. unfold _flake8_annotations, bind at 1, lift.
    rewrite Hfile. unfold bind at 1.
    destruct (_flake8_annotations_loop h path file options [] s)
      as [[r | e] s1]; [| discriminate].
    unfold bind, remove_if_exists, ret. intros H. now injection H as _ <-.
Qed.

Lemma flake8_annotations_ignore_a_stale_report_witness :
  let h := sample_host (Some "a.py") None
                       (fun _ s => (None, Some "/abs/a.py:1:1: W291 blank")) in
  _flake8_annotations h "/abs/a.py" [[]]
    (mkState [] (Some "/abs/a.py:9:9: E999 left over"))
  = _flake8_annotations h "/abs/a.py" [[]] (mkState [] None).
Proof.
  intros h.
  apply (proj1 (flake8_annotations_ignore_a_stale_report
                  h "/abs/a.py" "/tmp/blackmamba.flake8.txt" [[]]
                  (mkState [] None) eq_refl)
           (Some "/abs/a.py:9:9: E999 left over")).
Defined.

(** X20: with flake8 options set and neither TMPDIR nor TMP in the
    environment, [main] on a Python file raises a TypeError once the text
    is saved: flake8 is not run, nothing is logged, and neither an
    annotation nor the alert is shown. *)
Theorem main_needs_a_temporary_directory_for_flake8 (h : Host) (s : state) :
  python_file h = true ->
  options_truthy (config_flake8 h) = true ->
  _tmp h = None ->
  exists prep,
    main h s
    = (Raise (TypeError "expected str, bytes or os.PathLike object"),
       mkState (trace s
                ++ [editor_get_path; editor_clear_annotations;
                    editor_get_selection]
                ++ prep)
               (output_file s))
    /\ Forall (fun e => is_preparation e = true) prep.
Proof.
  intros Hpy Hc Htmp.
  assert (Hp : exists path, host_path h = Some path).
  { unfold python_file in Hpy. destruct (host_path h) as [p |];
      [now exists p | discriminate]. }
  destruct Hp as [path Hpath].
  rewrite (main_run_exact h s path Hpath Hpy).
  match goal with
  | |- context [_editor_text h ?s1] =>
      destruct (editor_text_run h s1) as [text [prep [E Hprep]]];
      rewrite E
  end.
  exists prep. split; [| exact Hprep].
  unfold main_annotations. rewrite Hc.
  unfold _flake8_annotations, bind, lift. rewrite Htmp. simpl.
  now rewrite <- app_assoc.
Qed.

Lemma main_needs_a_temporary_directory_for_flake8_witness :
  let h := mkHost (Some "a.py") "x = 1" None (Some [["--select=E"]])
                  None None None None None None (fun p => p)
                  (fun _ _ _ => []) (fun _ _ => ("", ""))
                  (fun _ _ => (None, None)) in
  exists prep,
    main h (mkState [] None)
    = (Raise (TypeError "expected str, bytes or os.PathLike object"),
       mkState ([editor_get_path; editor_clear_annotations;
                 editor_get_selection] ++ prep) None)
    /\ Forall (fun e => is_preparation e = true) prep.
Proof.
  intros h.
  exact (main_needs_a_temporary_directory_for_flake8
           h (mkState [] None) eq_refl eq_refl eq_refl).
Defined.

(** X21: when the editor has no path, an empty path, or a path that does
    not end in ".py", [main] asks for the path and does nothing else: it
    clears no annotation, does not touch or save the buffer, runs no linter
    and shows nothing. *)
Theorem main_leaves_other_files_alone (h : Host) (s : state) :
  host_path h = None \/ host_path h = Some ""
  \/ (exists path, host_path h = Some path /\ endswith path ".py" = false) ->
  main h s = (Ok tt, mkState (trace s ++ [editor_get_path]) (output_file s)).
Proof.
  intros H. apply main_not_python. unfold python_file.
  destruct H as [-> | [-> | [path [-> E]]]]; try reflexivity.
  destruct path; [reflexivity | exact E].
Qed.

Lemma main_leaves_other_files_alone_witness :
  main (sample_host (Some "notes.py.txt") None (fun _ _ => (None, None)))
       (mkState [] None)
  = (Ok tt, mkState [editor_get_path] None).
Proof.
  apply (main_leaves_other_files_alone
           (sample_host (Some "notes.py.txt") None (fun _ _ => (None, None)))
           (mkState [] None)).
  right. right. exists "notes.py.txt". split; reflexivity.
Defined.

Lemma main_report_returns (h : Host) (selection : option (Z * Z))
    (annotations : list _AnalyzerAnnotation) (s : state) :
  exists s', main_report h selection annotations s = (Ok tt, s').
Proof.
  destruct annotations as [| a0 l0].
  - unfold main_report, bind, call, ret.
    destruct selection as [[start stop] |]; simpl; eexists; reflexivity.
  - destruct (groups_of_sorted_records (a0 :: l0)) as [_ [_ [Hall _]]];
      [discriminate |].
    destruct (annotate_groups_no_scroll
                (groupby (sorted_key line (a0 :: l0)) line)) with
      (scroll := true) (s := s) as [emitted [E _]].
    { eapply Forall_impl; [| exact Hall]. now intros kg [Hn _]. }
    unfold main_report. rewrite E. eexists. reflexivity.
Qed.

(** X22: as far as the script's own steps go, [main] raises only where
    [int] does.  On a Python file without flake8 options it returns,
    whatever pep8 reports, as long as pyflakes reports no line number of
    more than 4300 digits: no other report line makes the parser fail and
    no group of records is empty when its first record is taken.  With
    flake8 options it returns as well, if the path of the report file can
    be built and flake8 raises nothing but instances of [Exception]; what
    [int] raises there is caught with them. *)
Theorem main_returns (h : Host) (s : state) :
  python_file h = true ->
  (options_truthy (config_flake8 h) = false ->
   pyflakes_within_int_limit h ->
   exists s', main h s = (Ok tt, s'))
  /\ (options_truthy (config_flake8 h) = true ->
      _tmp h <> None -> raises_only_Exception h ->
      exists s', main h s = (Ok tt, s')).
Proof.
  intros Hpy.
  assert (Hp : exists path, host_path h = Some path).
  { unfold python_file in Hpy. destruct (host_path h) as [p |];
      [now exists p | discriminate]. }
  destruct Hp as [path Hpath].
  rewrite (main_run_exact h s path Hpath Hpy).
  match goal with
  | |- context [_editor_text h ?s1] =>
      destruct (editor_text_run h s1) as [text [prep [E _]]];
      rewrite E
  end.
  split.
  - intros Hc Hlim. unfold main_annotations. rewrite Hc.
    match goal with
    | |- context [bind (_pep8_annotations h text ?i ?m) _ ?st] =>
        destruct (pep8_annotations_run h text i m st) as [calls Ep]
    end.
    unfold bind at 1. rewrite Ep.
    unfold bind at 1. rewrite pyflakes_annotations_run.
    destruct (Hlim path text Hpath) as [Hw He].
    unfold stream_over_limit in Hw, He.
    unfold _get_annotations. rewrite !get_annotations_loop_eq, Hw, He.
    unfold ret. apply main_report_returns.
  - intros Hc Htmp Hexn. unfold main_annotations. rewrite Hc.
    unfold _flake8_annotations, bind at 1, lift.
    destruct (os_path_join (_tmp h) "blackmamba.flake8.txt")
      as [file | e] eqn:Ej.
    + unfold bind at 1.
      match goal with
      | |- context [_flake8_annotations_loop h ?p file ?o [] ?st] =>
          destruct (flake8_loop_total h p file Hexn o st)
            as [found [events [f' [Hrun _]]]]
      end.
      rewrite (Hrun []).
      unfold bind, remove_if_exists, ret.
      apply main_report_returns.
    + exfalso. unfold os_path_join in Ej.
      destruct (_tmp h) as [[| c d] |]; [discriminate Ej | | now elim Htmp].
      now destruct (endswith (String c d) "/").
Qed.

Lemma main_returns_witness :
  let h := sample_host (Some "a.py") None (fun _ _ => (None, None)) in
  exists s', main h (mkState [] None) = (Ok tt, s').
Proof.
  intros h.
  refine (proj1 (main_returns h (mkState [] None) eq_refl) eq_refl _).
  intros path code Hpath. injection Hpath as <-. split; reflexivity.
Defined.
